(** * Sustainability metrics for OpenCDA: a shallow embedding

    The development follows the three Python modules of
    [opencda/sustainability]:

    - [utils.py]      -> [Module Utils]
    - [metrics.py]    -> [Module SustainabilityMetrics]
    - [evaluator.py]  -> [Module SustainabilityEvaluator]

    Python [float] values are read as real numbers ([R]): arithmetic is
    exact, there is no rounding, overflow, infinity or NaN.  Python [int]
    values are [Z].  Methods that mutate [self] are computations in a
    state-and-exception monad, so that what a method has already written
    when an exception is raised stays written, as in Python.  Console
    output ([print]) is not modelled. *)

From Stdlib Require Import Reals Lra Lia ZArith List Bool String.
Import ListNotations.

Local Open Scope R_scope.

(** * Python runtime fragments *)

Inductive exn : Set :=
| ZeroDivisionError
| KeyError
| ValueError
| OSError
| RuntimeError.

Inductive result (A : Type) : Type :=
| Ok (a : A)
| Raise (e : exn).

Arguments Ok {A} a.
Arguments Raise {A} e.

Definition is_ok {A} (r : result A) : bool :=
  match r with Ok _ => true | Raise _ => false end.

(** A computation over a mutable object of type [S]: it returns a value or
    raises, and in both cases leaves a state behind. *)
Definition M (S A : Type) : Type := S -> result A * S.

Definition ret {S A} (a : A) : M S A := fun s => (Ok a, s).

Definition raise {S A} (e : exn) : M S A := fun s => (Raise e, s).

Definition bind {S A B} (c : M S A) (k : A -> M S B) : M S B :=
  fun s =>
    match c s with
    | (Ok a, s') => k a s'
    | (Raise e, s') => (Raise e, s')
    end.

Definition get {S} : M S S := fun s => (Ok s, s).

Definition modify {S} (f : S -> S) : M S unit := fun s => (Ok tt, f s).

(** A pure, possibly raising, expression evaluated inside a method. *)
Definition lift {S A} (r : result A) : M S A := fun s => (r, s).

(** [try: c except Exception: h] *)
Definition try_except {S A} (c : M S A) (h : exn -> M S A) : M S A :=
  fun s =>
    match c s with
    | (Ok a, s') => (Ok a, s')
    | (Raise e, s') => h e s'
    end.

(** Run a computation on a component of a larger state. *)
Definition zoom {S T A} (proj : S -> T) (inj : T -> S -> S) (c : M T A)
  : M S A :=
  fun s => let (r, t') := c (proj s) in (r, inj t' s).

Declare Scope monad_scope.
Delimit Scope monad_scope with monad.
Notation "x <- c ;; k" := (bind c (fun x => k))
  (at level 61, c at next level, right associativity) : monad_scope.
Notation "' pat <- c ;; k" := (bind c (fun x => match x with pat => k end))
  (at level 61, pat pattern, c at next level, right associativity)
  : monad_scope.
Notation "c ;; k" := (bind c (fun _ => k))
  (at level 61, right associativity) : monad_scope.
Local Open Scope monad_scope.

(** Float true division [a / b]: raises on a zero divisor. *)
Definition py_div (a b : R) : result R :=
  if Req_dec_T b 0 then Raise ZeroDivisionError else Ok (a / b).

(** Comparisons of floats, as conditions. *)
Definition float_lt (a b : R) : bool := if Rlt_dec a b then true else false.

Definition float_le (a b : R) : bool := if Rle_dec a b then true else false.

(** [int(x)] on a float truncates toward zero. *)
Definition py_int (x : R) : Z :=
  if Rle_dec 0 x then Int_part x else (- Int_part (- x))%Z.

(** [math.floor(x)], for comparison with [py_int]. *)
Definition py_floor (x : R) : Z := Int_part x.

(** Nearest integer, ties to the even neighbour. *)
Definition round_half_even (x : R) : Z :=
  let f := Int_part x in
  if Rlt_dec (x - IZR f) (1 / 2) then f
  else if Rlt_dec (1 / 2) (x - IZR f) then (f + 1)%Z
  else if Z.even f then f else (f + 1)%Z.

(** [round(x, ndigits)] *)
Definition py_round (x : R) (ndigits : nat) : R :=
  IZR (round_half_even (x * 10 ^ ndigits)) / 10 ^ ndigits.

(** [dict.get(key, default)] on an entry that may be absent. *)
Definition dict_get {A} (entry : option A) (default : A) : A :=
  match entry with Some a => a | None => default end.

Fixpoint sum_list (l : list R) : R :=
  match l with
  | [] => 0
  | x :: l' => x + sum_list l'
  end.

(** [np.mean] and [np.std] (population standard deviation, [ddof = 0]) of
    a non-empty list. *)
Definition np_mean (l : list R) : R := sum_list l / INR (List.length l).

Definition np_std (l : list R) : R :=
  sqrt (np_mean (map (fun x => Rabs (x - np_mean l) ^ 2) l)).

(** ** Insertion-ordered dictionaries

    A Python [dict] keeps one entry per key, in order of first insertion;
    [items()] lists them in that order. *)
Module PyDict.
Section Dict.
Context {K V : Type}.
Variable eq_dec : forall a b : K, {a = b} + {a <> b}.

Definition t := list (K * V).

Definition empty : t := [].

Fixpoint lookup (k : K) (d : t) : option V :=
  match d with
  | [] => None
  | (k', v) :: d' => if eq_dec k k' then Some v else lookup k d'
  end.

(** [k in d] *)
Definition contains (k : K) (d : t) : bool :=
  match lookup k d with Some _ => true | None => false end.

(** [d[k]] *)
Definition getitem (k : K) (d : t) : result V :=
  match lookup k d with Some v => Ok v | None => Raise KeyError end.

(** [d[k] = v] *)
Fixpoint setitem (k : K) (v : V) (d : t) : t :=
  match d with
  | [] => [(k, v)]
  | (k', v') :: d' =>
      if eq_dec k k' then (k', v) :: d' else (k', v') :: setitem k v d'
  end.

(** [d.setdefault(k, v)], as a statement *)
Definition setdefault (k : K) (v : V) (d : t) : t :=
  if contains k d then d else setitem k v d.

Definition items (d : t) : list (K * V) := d.

Definition keys (d : t) : list K := map fst d.
End Dict.
End PyDict.

(** * utils.py *)
Module Utils.

Definition G : R := 9.81.
Definition RHO_AIR : R := 1.225.

Definition aerodynamic_force (cd area speed : R) : R :=
  0.5 * RHO_AIR * cd * area * (speed ^ 2).

Definition rolling_resistance_force (crr mass : R) : R :=
  crr * mass * G.

Definition gravity_force_on_slope (mass slope : R) : R :=
  mass * G * slope.

Definition kinetic_energy (mass speed : R) : R :=
  0.5 * mass * (speed ^ 2).

(** [safe_div(a, b, default=0.0)]: the quotient, or [default] when the
    division raises. *)
Definition safe_div (a b default : R) : R :=
  match py_div a b with
  | Ok q => q
  | Raise _ => default
  end.

End Utils.

(** * The simulator side (CARLA), as far as the metrics read it *)

Record Vector3D := { vx : R; vy : R; vz : R }.

Record Location := { loc_x : R; loc_y : R; loc_z : R }.

Record PhysicsControl := { phys_mass : R }.

(** What the calls on a [carla.Vehicle] return at the current tick; each
    of them may raise (for instance once the actor has been destroyed). *)
Record Actor := {
  get_velocity : result Vector3D;
  get_acceleration : result Vector3D;
  get_location : result Location;
  get_physics_control : result PhysicsControl
}.

Record Timestamp := { delta_seconds : R; elapsed_seconds : R }.

Record Snapshot := { timestamp : Timestamp }.

(** A control command; [throttle] is read with [getattr(control,
    'throttle', 0)], so it may be missing. *)
Record Control := { throttle : option R }.

(** The state of the simulation and of the file system at one tick:
    actors by id; whether creating the log folder or opening the log
    file of a vehicle fails; whether the device behind that file is
    faulty; whether writing the summary file fails. *)
Record World := {
  actor : Z -> Actor;
  fs_makedirs_fails : bool;
  fs_open_fails : Z -> bool;
  fs_faulty : Z -> bool;
  fs_summary_fails : bool
}.

(** ** Text files

    A file object: closed or open, the rows written so far, and whether
    the device behind it fails.  Writing to a closed file raises
    [ValueError]; on a faulty device, writing, flushing and closing raise
    [OSError].  As for Python's [io] objects, [close()] leaves the object
    closed also when it raises. *)
Inductive cell := CStr (s : string) | CNum (x : R).

Record CsvFile := {
  closed : bool;
  faulty : bool;
  rows : list (list cell)
}.

Definition file_open (w : World) (vehicle_id : Z) : result CsvFile :=
  if fs_open_fails w vehicle_id then Raise OSError
  else Ok {| closed := false; faulty := fs_faulty w vehicle_id; rows := [] |}.

Definition file_writerow (row : list cell) : M CsvFile unit :=
  fun f =>
    if closed f then (Raise ValueError, f)
    else if faulty f then (Raise OSError, f)
    else (Ok tt, {| closed := false; faulty := faulty f;
                    rows := rows f ++ [row] |}).

Definition file_flush : M CsvFile unit :=
  fun f =>
    if closed f then (Raise ValueError, f)
    else if faulty f then (Raise OSError, f)
    else (Ok tt, f).

Definition file_close : M CsvFile unit :=
  fun f =>
    let f' := {| closed := true; faulty := faulty f; rows := rows f |} in
    if closed f then (Ok tt, f)
    else if faulty f then (Raise OSError, f')
    else (Ok tt, f').

(** * metrics.py *)
Module SustainabilityMetrics.

(** [veh_params]: a dict in which every key is optional. *)
Record VehParams := {
  p_mass : option R;
  p_cd : option R;
  p_area : option R;
  p_crr : option R;
  p_drivetrain_eff : option R;
  p_is_ev : option bool
}.

Definition no_params : VehParams :=
  {| p_mass := None; p_cd := None; p_area := None; p_crr := None;
     p_drivetrain_eff := None; p_is_ev := None |}.

(** The attributes of a [SustainabilityMetrics] object.  [vehicle] is the
    id of the actor the object refers to. *)
Record Tracker := {
  vehicle : Z;
  id : Z;
  mass : R;
  cd : R;
  area : R;
  crr : R;
  drivetrain_eff : R;
  is_ev : bool;
  energy_j : R;
  regen_j : R;
  co2_g : R;
  distance_m : R;
  harsh_accel : Z;
  harsh_brake : Z;
  idle_time_s : R;
  jerk_samples : list R;
  last_accel : R;
  last_speed : R;
  sample_hz : R;
  _accum_dt : R;
  csv_file : CsvFile
}.

(** Attribute assignments [self.x = v], one per attribute that is
    assigned after construction. *)
Definition set_energy_j (v : R) (s : Tracker) : Tracker :=
  {| vehicle := vehicle s; id := id s; mass := mass s; cd := cd s;
     area := area s; crr := crr s; drivetrain_eff := drivetrain_eff s;
     is_ev := is_ev s; energy_j := v; regen_j := regen_j s;
     co2_g := co2_g s; distance_m := distance_m s;
     harsh_accel := harsh_accel s; harsh_brake := harsh_brake s;
     idle_time_s := idle_time_s s; jerk_samples := jerk_samples s;
     last_accel := last_accel s; last_speed := last_speed s;
     sample_hz := sample_hz s; _accum_dt := _accum_dt s;
     csv_file := csv_file s |}.

Definition set_regen_j (v : R) (s : Tracker) : Tracker :=
  {| vehicle := vehicle s; id := id s; mass := mass s; cd := cd s;
     area := area s; crr := crr s; drivetrain_eff := drivetrain_eff s;
     is_ev := is_ev s; energy_j := energy_j s; regen_j := v;
     co2_g := co2_g s; distance_m := distance_m s;
     harsh_accel := harsh_accel s; harsh_brake := harsh_brake s;
     idle_time_s := idle_time_s s; jerk_samples := jerk_samples s;
     last_accel := last_accel s; last_speed := last_speed s;
     sample_hz := sample_hz s; _accum_dt := _accum_dt s;
     csv_file := csv_file s |}.

Definition set_co2_g (v : R) (s : Tracker) : Tracker :=
  {| vehicle := vehicle s; id := id s; mass := mass s; cd := cd s;
     area := area s; crr := crr s; drivetrain_eff := drivetrain_eff s;
     is_ev := is_ev s; energy_j := energy_j s; regen_j := regen_j s;
     co2_g := v; distance_m := distance_m s;
     harsh_accel := harsh_accel s; harsh_brake := harsh_brake s;
     idle_time_s := idle_time_s s; jerk_samples := jerk_samples s;
     last_accel := last_accel s; last_speed := last_speed s;
     sample_hz := sample_hz s; _accum_dt := _accum_dt s;
     csv_file := csv_file s |}.

Definition set_distance_m (v : R) (s : Tracker) : Tracker :=
  {| vehicle := vehicle s; id := id s; mass := mass s; cd := cd s;
     area := area s; crr := crr s; drivetrain_eff := drivetrain_eff s;
     is_ev := is_ev s; energy_j := energy_j s; regen_j := regen_j s;
     co2_g := co2_g s; distance_m := v;
     harsh_accel := harsh_accel s; harsh_brake := harsh_brake s;
     idle_time_s := idle_time_s s; jerk_samples := jerk_samples s;
     last_accel := last_accel s; last_speed := last_speed s;
     sample_hz := sample_hz s; _accum_dt := _accum_dt s;
     csv_file := csv_file s |}.

Definition set_harsh_accel (v : Z) (s : Tracker) : Tracker :=
  {| vehicle := vehicle s; id := id s; mass := mass s; cd := cd s;
     area := area s; crr := crr s; drivetrain_eff := drivetrain_eff s;
     is_ev := is_ev s; energy_j := energy_j s; regen_j := regen_j s;
     co2_g := co2_g s; distance_m := distance_m s;
     harsh_accel := v; harsh_brake := harsh_brake s;
     idle_time_s := idle_time_s s; jerk_samples := jerk_samples s;
     last_accel := last_accel s; last_speed := last_speed s;
     sample_hz := sample_hz s; _accum_dt := _accum_dt s;
     csv_file := csv_file s |}.

Definition set_harsh_brake (v : Z) (s : Tracker) : Tracker :=
  {| vehicle := vehicle s; id := id s; mass := mass s; cd := cd s;
     area := area s; crr := crr s; drivetrain_eff := drivetrain_eff s;
     is_ev := is_ev s; energy_j := energy_j s; regen_j := regen_j s;
     co2_g := co2_g s; distance_m := distance_m s;
     harsh_accel := harsh_accel s; harsh_brake := v;
     idle_time_s := idle_time_s s; jerk_samples := jerk_samples s;
     last_accel := last_accel s; last_speed := last_speed s;
     sample_hz := sample_hz s; _accum_dt := _accum_dt s;
     csv_file := csv_file s |}.

Definition set_idle_time_s (v : R) (s : Tracker) : Tracker :=
  {| vehicle := vehicle s; id := id s; mass := mass s; cd := cd s;
     area := area s; crr := crr s; drivetrain_eff := drivetrain_eff s;
     is_ev := is_ev s; energy_j := energy_j s; regen_j := regen_j s;
     co2_g := co2_g s; distance_m := distance_m s;
     harsh_accel := harsh_accel s; harsh_brake := harsh_brake s;
     idle_time_s := v; jerk_samples := jerk_samples s;
     last_accel := last_accel s; last_speed := last_speed s;
     sample_hz := sample_hz s; _accum_dt := _accum_dt s;
     csv_file := csv_file s |}.

Definition set_jerk_samples (v : list R) (s : Tracker) : Tracker :=
  {| vehicle := vehicle s; id := id s; mass := mass s; cd := cd s;
     area := area s; crr := crr s; drivetrain_eff := drivetrain_eff s;
     is_ev := is_ev s; energy_j := energy_j s; regen_j := regen_j s;
     co2_g := co2_g s; distance_m := distance_m s;
     harsh_accel := harsh_accel s; harsh_brake := harsh_brake s;
     idle_time_s := idle_time_s s; jerk_samples := v;
     last_accel := last_accel s; last_speed := last_speed s;
     sample_hz := sample_hz s; _accum_dt := _accum_dt s;
     csv_file := csv_file s |}.

Definition set_last_accel (v : R) (s : Tracker) : Tracker :=
  {| vehicle := vehicle s; id := id s; mass := mass s; cd := cd s;
     area := area s; crr := crr s; drivetrain_eff := drivetrain_eff s;
     is_ev := is_ev s; energy_j := energy_j s; regen_j := regen_j s;
     co2_g := co2_g s; distance_m := distance_m s;
     harsh_accel := harsh_accel s; harsh_brake := harsh_brake s;
     idle_time_s := idle_time_s s; jerk_samples := jerk_samples s;
     last_accel := v; last_speed := last_speed s;
     sample_hz := sample_hz s; _accum_dt := _accum_dt s;
     csv_file := csv_file s |}.

Definition set_accum_dt (v : R) (s : Tracker) : Tracker :=
  {| vehicle := vehicle s; id := id s; mass := mass s; cd := cd s;
     area := area s; crr := crr s; drivetrain_eff := drivetrain_eff s;
     is_ev := is_ev s; energy_j := energy_j s; regen_j := regen_j s;
     co2_g := co2_g s; distance_m := distance_m s;
     harsh_accel := harsh_accel s; harsh_brake := harsh_brake s;
     idle_time_s := idle_time_s s; jerk_samples := jerk_samples s;
     last_accel := last_accel s; last_speed := last_speed s;
     sample_hz := sample_hz s; _accum_dt := v;
     csv_file := csv_file s |}.

Definition set_csv_file (v : CsvFile) (s : Tracker) : Tracker :=
  {| vehicle := vehicle s; id := id s; mass := mass s; cd := cd s;
     area := area s; crr := crr s; drivetrain_eff := drivetrain_eff s;
     is_ev := is_ev s; energy_j := energy_j s; regen_j := regen_j s;
     co2_g := co2_g s; distance_m := distance_m s;
     harsh_accel := harsh_accel s; harsh_brake := harsh_brake s;
     idle_time_s := idle_time_s s; jerk_samples := jerk_samples s;
     last_accel := last_accel s; last_speed := last_speed s;
     sample_hz := sample_hz s; _accum_dt := _accum_dt s;
     csv_file := v |}.

(** Calls on [self.csv_file] / [self.csv_writer]. *)
Definition on_csv_file {A} (c : M CsvFile A) : M Tracker A :=
  zoom csv_file set_csv_file c.

(** [__init__(vehicle, output_folder, vehicle_id, veh_params, model_type,
    sample_hz)] *)
Definition __init__ (w : World) (vehicle_ : Z) (vehicle_id : option Z)
    (veh_params : option VehParams) (model_type : string) (sample_hz_ : R)
  : result Tracker :=
  let id_ := match vehicle_id with
             | Some v => if Z.eqb v 0 then vehicle_ else v
             | None => vehicle_
             end in
  let veh_params_ := dict_get veh_params no_params in
  let mass0 := match get_physics_control (actor w vehicle_) with
               | Ok phys => phys_mass phys
               | Raise _ => dict_get (p_mass veh_params_) 1500.0
               end in
  let is_ev0 := dict_get (p_is_ev veh_params_) false in
  let is_ev_ := if String.eqb model_type "ev" then true
                else if String.eqb model_type "ice" then false
                else is_ev0 in
  if fs_makedirs_fails w then Raise OSError else
  match file_open w id_ with
  | Raise e => Raise e
  | Ok f =>
      match file_writerow
              (map CStr ["timestamp"; "x"; "y"; "speed_m_s";
                         "long_accel_m_s2"; "jerk"; "power_w"; "dt_s";
                         "cumulative_energy_j"; "cumulative_co2_g";
                         "regen_j"; "eco_score"]%string) f with
      | (Raise e, _) => Raise e
      | (Ok _, f') =>
          Ok {| vehicle := vehicle_; id := id_;
                mass := dict_get (p_mass veh_params_) mass0;
                cd := dict_get (p_cd veh_params_) 0.30;
                area := dict_get (p_area veh_params_) 2.2;
                crr := dict_get (p_crr veh_params_) 0.01;
                drivetrain_eff := dict_get (p_drivetrain_eff veh_params_) 0.90;
                is_ev := is_ev_;
                energy_j := 0.0; regen_j := 0.0; co2_g := 0.0;
                distance_m := 0.0;
                harsh_accel := 0; harsh_brake := 0; idle_time_s := 0.0;
                jerk_samples := []; last_accel := 0.0; last_speed := 0.0;
                sample_hz := sample_hz_; _accum_dt := 0.0;
                csv_file := f' |}
      end
  end.

(** [close]: whatever closing the file raises is swallowed. *)
Definition close : M Tracker unit :=
  try_except (on_csv_file file_close) (fun _ => ret tt).

(** ** Power and emissions *)

Definition compute_power (self : Tracker) (speed accel slope : R)
  : result R :=
  let F_aero := Utils.aerodynamic_force (cd self) (area self) speed in
  let F_roll := Utils.rolling_resistance_force (crr self) (mass self) in
  let F_grav := Utils.gravity_force_on_slope (mass self) slope in
  let F_inertial := mass self * accel in
  let F_total := F_aero + F_roll + F_grav + F_inertial in
  let P := F_total * speed in
  if Rge_dec P 0 then py_div P (Rmax (drivetrain_eff self) 1e-6)
  else Ok (P * drivetrain_eff self).

Definition estimate_fuel_co2 (power_w dt_s : R) : R :=
  if Rle_dec power_w 0 then 0.0
  else
    let E_kwh := (power_w * dt_s) / 3.6e6 in
    let liters := E_kwh / 8.9 in
    liters * 2310.0.

Definition estimate_ev_co2 (power_w dt_s grid_g_per_kwh : R) : R :=
  let E_kwh := (power_w * dt_s) / 3.6e6 in
  E_kwh * grid_g_per_kwh.

(** ** Eco score *)

Definition compute_eco_score (self : Tracker) : result R :=
  let dist_km := Rmax (distance_m self / 1000.0) 0.1 in
  let jerk_std := match jerk_samples self with
                  | [] => 0.0
                  | _ :: _ => np_std (jerk_samples self)
                  end in
  match py_div ((jerk_std * 1.2) +
                (IZR (harsh_accel self) * 0.08) +
                (IZR (harsh_brake self) * 0.12) +
                (idle_time_s self * 0.01)) dist_km with
  | Raise e => Raise e
  | Ok penalty => Ok (Rmax 0.0 (100.0 - penalty))
  end.

(** ** The main update, block by block *)

(** Speed and signed longitudinal acceleration from the actor's velocity
    and acceleration. *)
Definition read_kinematics (w : World) : M Tracker (R * R) :=
  self <- get ;;
  vel <- lift (get_velocity (actor w (vehicle self))) ;;
  acc <- lift (get_acceleration (actor w (vehicle self))) ;;
  let speed := sqrt (vx vel ^ 2 + vy vel ^ 2 + vz vel ^ 2) in
  accel <- (if Rlt_dec 0.1 speed
            then lift (py_div (vx vel * vx acc + vy vel * vy acc
                               + vz vel * vz acc) speed)
            else ret 0.0) ;;
  ret (speed, accel).

Definition integrate_distance (speed dt : R) : M Tracker unit :=
  modify (fun self => set_distance_m (distance_m self + speed * dt) self).

(** Power, energy and CO2; returns [power_w]. *)
Definition integrate_energy (speed accel slope dt : R) : M Tracker R :=
  self <- get ;;
  power_w <- lift (compute_power self speed accel slope) ;;
  (if Rlt_dec 0 power_w then
     modify (fun self => set_energy_j (energy_j self + power_w * dt) self) ;;
     self <- get ;;
     if is_ev self then
       modify (fun self =>
                 set_co2_g (co2_g self + estimate_ev_co2 power_w dt 400.0)
                           self)
     else
       modify (fun self =>
                 set_co2_g (co2_g self + estimate_fuel_co2 power_w dt) self)
   else
     modify (fun self =>
               set_regen_j (regen_j self + Rabs power_w * dt * 0.5) self)) ;;
  ret power_w.

(** Jerk; returns [jerk]. *)
Definition record_jerk (accel dt : R) : M Tracker R :=
  self <- get ;;
  jerk <- lift (py_div (accel - last_accel self) dt) ;;
  modify (fun self => set_jerk_samples (jerk_samples self ++ [jerk]) self) ;;
  modify (set_last_accel accel) ;;
  ret jerk.

Definition eco_counters (speed accel dt : R) (control : option Control)
  : M Tracker unit :=
  (if Rlt_dec 2.0 accel
   then modify (fun self => set_harsh_accel (harsh_accel self + 1) self)
   else ret tt) ;;
  (if Rlt_dec accel (- 2.5)
   then modify (fun self => set_harsh_brake (harsh_brake self + 1) self)
   else ret tt) ;;
  if float_lt speed 0.3 &&
     match control with
     | None => true
     | Some c => float_lt (dict_get (throttle c) 0) 0.1
     end
  then modify (fun self => set_idle_time_s (idle_time_s self + dt) self)
  else ret tt.

(** Sampled CSV logging. *)
Definition csv_logging (w : World) (snapshot : Snapshot)
    (speed accel jerk power_w dt : R) : M Tracker unit :=
  modify (fun self => set_accum_dt (_accum_dt self + dt) self) ;;
  self <- get ;;
  period <- lift (py_div 1.0 (Rmax 1 (sample_hz self))) ;;
  if Rge_dec (_accum_dt self) period then
    eco_score <- lift (compute_eco_score self) ;;
    loc <- lift (get_location (actor w (vehicle self))) ;;
    on_csv_file (file_writerow
      [CNum (elapsed_seconds (timestamp snapshot));
       CNum (py_round (loc_x loc) 3); CNum (py_round (loc_y loc) 3);
       CNum (py_round speed 3); CNum (py_round accel 3);
       CNum (py_round jerk 3);
       CNum (py_round power_w 3);
       CNum (py_round (_accum_dt self) 4);
       CNum (py_round (energy_j self) 3);
       CNum (py_round (co2_g self) 3);
       CNum (py_round (regen_j self) 3);
       CNum (py_round eco_score 2)]) ;;
    on_csv_file file_flush ;;
    modify (set_accum_dt 0.0)
  else ret tt.

(** [update(snapshot, control=None, slope=0.0)] *)
Definition update (w : World) (snapshot : Snapshot)
    (control : option Control) (slope : R) : M Tracker unit :=
  let dt := delta_seconds (timestamp snapshot) in
  if Rle_dec dt 0 then ret tt
  else
    '(speed, accel) <- read_kinematics w ;;
    integrate_distance speed dt ;;
    power_w <- integrate_energy speed accel slope dt ;;
    jerk <- record_jerk accel dt ;;
    eco_counters speed accel dt control ;;
    csv_logging w snapshot speed accel jerk power_w dt.

(** ** Final results *)

Record Results := {
  r_vehicle_id : Z;
  r_energy_Wh : R;
  r_regen_Wh : R;
  r_co2_g : R;
  r_distance_m : R;
  r_harsh_accel : Z;
  r_harsh_brake : Z;
  r_idle_time_s : R;
  r_eco_score : R
}.

Definition results (self : Tracker) : result Results :=
  match compute_eco_score self with
  | Raise e => Raise e
  | Ok score =>
      Ok {| r_vehicle_id := id self;
            r_energy_Wh := energy_j self / 3600.0;
            r_regen_Wh := regen_j self / 3600.0;
            r_co2_g := co2_g self;
            r_distance_m := distance_m self;
            r_harsh_accel := harsh_accel self;
            r_harsh_brake := harsh_brake self;
            r_idle_time_s := idle_time_s self;
            r_eco_score := score |}
  end.

End SustainabilityMetrics.

(** * evaluator.py *)
Module SustainabilityEvaluator.

Module SM := SustainabilityMetrics.

Record MapBounds := { min_x : R; min_y : R; max_x : R; max_y : R }.

Record Config := { model_type : option string }.

Definition cell_eq_dec (a b : Z * Z) : {a = b} + {a <> b}.
Proof. decide equality; apply Z.eq_dec. Defined.

Definition Grid := list ((Z * Z) * R).

Record Evaluator := {
  metrics : list (Z * SM.Tracker);
  grid : Grid;
  map_bounds : MapBounds;
  cell_size : R;
  log_folder : string;
  config : Config
}.

Definition set_metrics (v : list (Z * SM.Tracker)) (s : Evaluator)
  : Evaluator :=
  {| metrics := v; grid := grid s; map_bounds := map_bounds s;
     cell_size := cell_size s; log_folder := log_folder s;
     config := config s |}.

Definition set_grid (v : Grid) (s : Evaluator) : Evaluator :=
  {| metrics := metrics s; grid := v; map_bounds := map_bounds s;
     cell_size := cell_size s; log_folder := log_folder s;
     config := config s |}.

(** [__init__(map_bounds=None, cell_size_m=50, log_folder, config=None)] *)
Definition __init__ (w : World) (map_bounds_ : option MapBounds)
    (cell_size_m : R) (log_folder_ : string) (config_ : option Config)
  : result Evaluator :=
  if fs_makedirs_fails w then Raise OSError
  else
    Ok {| metrics := PyDict.empty; grid := PyDict.empty;
          map_bounds :=
            dict_get map_bounds_
              {| min_x := -1000; min_y := -1000;
                 max_x := 1000; max_y := 1000 |};
          cell_size := cell_size_m;
          log_folder := log_folder_;
          config := dict_get config_ {| model_type := None |} |}.

Definition register_vehicle (w : World) (vehicle : Z)
    (veh_params : option SM.VehParams) : M Evaluator unit :=
  self <- get ;;
  if PyDict.contains Z.eq_dec vehicle (metrics self) then ret tt
  else
    m <- lift (SM.__init__ w vehicle (Some vehicle) veh_params
                 (dict_get (model_type (config self)) "auto"%string) 5) ;;
    modify (fun self =>
              set_metrics (PyDict.setitem Z.eq_dec vehicle m (metrics self))
                          self).

(** [for k, obj in d.items(): body]: the objects are mutated in place; a
    body that raises ends the loop and leaves the later objects alone. *)
Fixpoint for_each_item {A S} (body : Z -> M (A * S) unit)
    (items : list (Z * A)) (s : S) : result unit * (list (Z * A) * S) :=
  match items with
  | [] => (Ok tt, ([], s))
  | (k, a) :: rest =>
      match body k (a, s) with
      | (Ok _, (a', s')) =>
          let '(r, (rest', s'')) := for_each_item body rest s' in
          (r, ((k, a') :: rest', s''))
      | (Raise e, (a', s')) => (Raise e, ((k, a') :: rest, s'))
      end
  end.

(** Calls on the object of the loop, and on what the loop shares. *)
Definition on_item {A S B} (c : M A B) : M (A * S) B :=
  zoom fst (fun a s => (a, snd s)) c.

Definition on_shared {A S B} (c : M S B) : M (A * S) B :=
  zoom snd (fun x s => (fst s, x)) c.

(** The cell of a location: [int((loc.x - min_x) / cell_size)] and the
    same for [y]. *)
Definition grid_cell (bounds : MapBounds) (cell_size_ : R) (loc : Location)
  : result (Z * Z) :=
  match py_div (loc_x loc - min_x bounds) cell_size_ with
  | Raise e => Raise e
  | Ok qi =>
      match py_div (loc_y loc - min_y bounds) cell_size_ with
      | Raise e => Raise e
      | Ok qj => Ok (py_int qi, py_int qj)
      end
  end.

(** The body of the loop of [update], for one vehicle. *)
Definition update_vehicle (w : World) (snapshot : Snapshot)
    (bounds : MapBounds) (cell_size_ : R) (vid : Z)
  : M (SM.Tracker * Grid) unit :=
  try_except
    (on_item (SM.update w snapshot None 0.0) ;;
     m <- on_item get ;;
     loc <- lift (get_location (actor w (SM.vehicle m))) ;;
     c <- lift (grid_cell bounds cell_size_ loc) ;;
     on_shared (modify (PyDict.setdefault cell_eq_dec c 0.0)) ;;
     g <- on_shared get ;;
     old <- lift (PyDict.getitem cell_eq_dec c g) ;;
     on_shared (modify (PyDict.setitem cell_eq_dec c (old + SM.co2_g m))))
    (fun _ => ret tt).

(** [update(snapshot)] *)
Definition update (w : World) (snapshot : Snapshot) : M Evaluator unit :=
  fun self =>
    let '(r, (ms, g)) :=
      for_each_item
        (update_vehicle w snapshot (map_bounds self) (cell_size self))
        (PyDict.items (metrics self)) (grid self) in
    (r, set_grid g (set_metrics ms self)).

(** ** The summary *)

Record GridEntry := { g_i : Z; g_j : Z; g_co2_g : R }.

Record Summary := {
  vehicles : list SM.Results;
  grid_entries : list GridEntry
}.

(** The files written by [finalize], by path. *)
Definition Disk := list (string * Summary).

(** The body of the first loop of [finalize]. *)
Definition collect_vehicle (vid : Z) : M (SM.Tracker * list SM.Results) unit :=
  m <- on_item get ;;
  r <- lift (SM.results m) ;;
  on_shared (modify (fun vs => vs ++ [r])) ;;
  on_item SM.close.

Definition write_summary (w : World) (path : string) (summary : Summary)
  : M Disk unit :=
  if fs_summary_fails w then raise OSError
  else modify (fun d => d ++ [(path, summary)]).

(** [finalize(out_path=None)] *)
Definition finalize (w : World) (out_path : option string)
  : M (Evaluator * Disk) unit :=
  fun '(self, disk) =>
    let '(r, (ms, vs)) :=
      for_each_item collect_vehicle (PyDict.items (metrics self)) [] in
    let self' := set_metrics ms self in
    match r with
    | Raise e => (Raise e, (self', disk))
    | Ok _ =>
        let gs := map (fun '((i, j), co2) =>
                         {| g_i := i; g_j := j; g_co2_g := co2 |})
                      (PyDict.items (grid self')) in
        let summary := {| vehicles := vs; grid_entries := gs |} in
        let default_path :=
          (log_folder self' ++ "/sustainability_summary.json")%string in
        let out_path_ := match out_path with
                         | Some p => if String.eqb p "" then default_path
                                     else p
                         | None => default_path
                         end in
        let (r', disk') := write_summary w out_path_ summary disk in
        (r', (self', disk'))
    end.

End SustainabilityEvaluator.

Module SM := SustainabilityMetrics.
Module SE := SustainabilityEvaluator.

(** * Vocabulary of the properties *)

(** The seven cumulative accumulators of a tracker, compared pointwise. *)
Definition accumulators_le (a b : SM.Tracker) : Prop :=
  SM.energy_j a <= SM.energy_j b /\
  SM.regen_j a <= SM.regen_j b /\
  SM.co2_g a <= SM.co2_g b /\
  SM.distance_m a <= SM.distance_m b /\
  (SM.harsh_accel a <= SM.harsh_accel b)%Z /\
  (SM.harsh_brake a <= SM.harsh_brake b)%Z /\
  SM.idle_time_s a <= SM.idle_time_s b.

(** The energy, regen and CO2 accumulators are the same in both states. *)
Definition same_energy (a b : SM.Tracker) : Prop :=
  SM.energy_j a = SM.energy_j b /\
  SM.regen_j a = SM.regen_j b /\
  SM.co2_g a = SM.co2_g b.

(** The attributes fixed at construction are the same in both states. *)
Definition same_static (a b : SM.Tracker) : Prop :=
  SM.vehicle a = SM.vehicle b /\ SM.id a = SM.id b /\
  SM.mass a = SM.mass b /\ SM.cd a = SM.cd b /\ SM.area a = SM.area b /\
  SM.crr a = SM.crr b /\ SM.drivetrain_eff a = SM.drivetrain_eff b /\
  SM.is_ev a = SM.is_ev b /\ SM.sample_hz a = SM.sample_hz b.

(** One call of [update] on a tracker, and a sequence of calls. *)
Record Tick := {
  tick_world : World;
  tick_snapshot : Snapshot;
  tick_control : option Control;
  tick_slope : R
}.

Definition step (k : Tick) (s : SM.Tracker) : SM.Tracker :=
  snd (SM.update (tick_world k) (tick_snapshot k) (tick_control k)
                 (tick_slope k) s).

Definition run_updates (ks : list Tick) (s : SM.Tracker) : SM.Tracker :=
  fold_left (fun s k => step k s) ks s.

(** The force-balance power of section 4.1a of the specification, before
    the drivetrain efficiency is applied. *)
Definition force_balance_power (self : SM.Tracker) (speed accel slope : R)
  : R :=
  (0.5 * 1.225 * SM.cd self * SM.area self * (speed * speed)
   + SM.crr self * SM.mass self * 9.81
   + SM.mass self * 9.81 * slope
   + SM.mass self * accel) * speed.

(** The eco score of section 4.1c of the specification, with the
    population standard deviation written out. *)
Definition population_stddev (l : list R) : R :=
  match l with
  | [] => 0
  | _ :: _ =>
      let n := INR (List.length l) in
      let mu := sum_list l / n in
      sqrt (sum_list (map (fun x => (x - mu) * (x - mu)) l) / n)
  end.

Definition spec_eco_score (s : SM.Tracker) : R :=
  Rmax 0
    (100 - (1.2 * population_stddev (SM.jerk_samples s)
            + 0.08 * IZR (SM.harsh_accel s)
            + 0.12 * IZR (SM.harsh_brake s)
            + 0.01 * SM.idle_time_s s)
           / Rmax (SM.distance_m s / 1000) 0.1).

(** ** The grid *)

(** Add [amount] to the accumulator of cell [c], starting it at 0 when the
    cell has none yet. *)
Definition charge (c : Z * Z) (amount : R) (g : SE.Grid) : SE.Grid :=
  PyDict.setitem SE.cell_eq_dec c
    (dict_get (PyDict.lookup SE.cell_eq_dec c g) 0.0 + amount) g.

(** The cell with floors in place of [int]. *)
Definition floor_cell (bounds : SE.MapBounds) (cell_size : R) (loc : Location)
  : Z * Z :=
  (py_floor ((loc_x loc - SE.min_x bounds) / cell_size),
   py_floor ((loc_y loc - SE.min_y bounds) / cell_size)).

(** The cell a vehicle charges in a tick, if its part of the tick goes
    through: its tracker update returns, its location is read, and the
    cell is computed. *)
Definition charged_cell (w : World) (snapshot : Snapshot)
    (bounds : SE.MapBounds) (cell_size : R) (m : SM.Tracker)
  : option (Z * Z) :=
  match SM.update w snapshot None 0.0 m with
  | (Ok _, m') =>
      match get_location (actor w (SM.vehicle m')) with
      | Ok loc =>
          match SE.grid_cell bounds cell_size loc with
          | Ok c => Some c
          | Raise _ => None
          end
      | Raise _ => None
      end
  | (Raise _, _) => None
  end.

(** What a vehicle does to the grid in a tick. *)
Definition vehicle_charge (w : World) (snapshot : Snapshot)
    (bounds : SE.MapBounds) (cell_size : R) (g : SE.Grid) (m : SM.Tracker)
  : SE.Grid :=
  match charged_cell w snapshot bounds cell_size m with
  | Some c => charge c (SM.co2_g (snd (SM.update w snapshot None 0.0 m))) g
  | None => g
  end.

(** ** Runs of an evaluator *)

Inductive Event :=
| Register (w : World) (vehicle : Z) (veh_params : option SM.VehParams)
| Update (w : World) (snapshot : Snapshot).

Definition apply_event (e : Event) (ev : SE.Evaluator) : SE.Evaluator :=
  match e with
  | Register w vehicle veh_params =>
      snd (SE.register_vehicle w vehicle veh_params ev)
  | Update w snapshot => snd (SE.update w snapshot ev)
  end.

Definition run_events (es : list Event) (ev : SE.Evaluator) : SE.Evaluator :=
  fold_left (fun ev e => apply_event e ev) es ev.

(** The cells charged by one event, and along a run. *)
Definition event_cells (e : Event) (ev : SE.Evaluator) : list (Z * Z) :=
  match e with
  | Register _ _ _ => []
  | Update w snapshot =>
      flat_map
        (fun km =>
           match charged_cell w snapshot (SE.map_bounds ev) (SE.cell_size ev)
                   (snd km) with
           | Some c => [c]
           | None => []
           end)
        (SE.metrics ev)
  end.

Fixpoint contributed_cells (es : list Event) (ev : SE.Evaluator)
  : list (Z * Z) :=
  match es with
  | [] => []
  | e :: es' => event_cells e ev ++ contributed_cells es' (apply_event e ev)
  end.

Definition entry_cell (e : SE.GridEntry) : Z * Z := (SE.g_i e, SE.g_j e).

(** The snapshot [results()] returns, with the score of section 4.1c. *)
Definition results_value (s : SM.Tracker) : SM.Results :=
  {| SM.r_vehicle_id := SM.id s;
     SM.r_energy_Wh := SM.energy_j s / 3600.0;
     SM.r_regen_Wh := SM.regen_j s / 3600.0;
     SM.r_co2_g := SM.co2_g s;
     SM.r_distance_m := SM.distance_m s;
     SM.r_harsh_accel := SM.harsh_accel s;
     SM.r_harsh_brake := SM.harsh_brake s;
     SM.r_idle_time_s := SM.idle_time_s s;
     SM.r_eco_score := spec_eco_score s |}.

(** The log of a tracker is closed. *)
Definition log_closed (km : Z * SM.Tracker) : bool :=
  closed (SM.csv_file (snd km)).

(** ** Sample data *)

Definition fresh_log : CsvFile :=
  {| closed := false; faulty := false; rows := [] |}.

(** An actor moving along [x] at [v] m/s without accelerating, at
    position [(x, y)]. *)
Definition cruising (v x y : R) : Actor :=
  {| get_velocity := Ok {| vx := v; vy := 0; vz := 0 |};
     get_acceleration := Ok {| vx := 0; vy := 0; vz := 0 |};
     get_location := Ok {| loc_x := x; loc_y := y; loc_z := 0 |};
     get_physics_control := Ok {| phys_mass := 1500 |} |}.

(** An actor that has been destroyed: every call on it raises. *)
Definition destroyed : Actor :=
  {| get_velocity := Raise RuntimeError;
     get_acceleration := Raise RuntimeError;
     get_location := Raise RuntimeError;
     get_physics_control := Raise RuntimeError |}.

Definition world_of (actors : Z -> Actor) : World :=
  {| actor := actors;
     fs_makedirs_fails := false;
     fs_open_fails := fun _ => false;
     fs_faulty := fun _ => false;
     fs_summary_fails := false |}.

Definition snapshot_of (dt : R) : Snapshot :=
  {| timestamp := {| delta_seconds := dt; elapsed_seconds := 10 |} |}.

Definition default_bounds : SE.MapBounds :=
  {| SE.min_x := -1000; SE.min_y := -1000;
     SE.max_x := 1000; SE.max_y := 1000 |}.

(** A combustion car with the default parameters, some way into a run,
    attached to vehicle [v]. *)
Definition sample_tracker_on (v : Z) : SM.Tracker :=
  {| SM.vehicle := v; SM.id := v;
     SM.mass := 1500; SM.cd := 0.3; SM.area := 2.2; SM.crr := 0.01;
     SM.drivetrain_eff := 0.9; SM.is_ev := false;
     SM.energy_j := 1000; SM.regen_j := 10; SM.co2_g := 5;
     SM.distance_m := 250;
     SM.harsh_accel := 1; SM.harsh_brake := 2; SM.idle_time_s := 3;
     SM.jerk_samples := [1; -1]; SM.last_accel := 0; SM.last_speed := 0;
     SM.sample_hz := 5; SM._accum_dt := 0;
     SM.csv_file := fresh_log |}.

Definition sample_tracker : SM.Tracker := sample_tracker_on 7.

(** Two registered vehicles, 7 and 8, on the default map with cells of
    50 m, and an empty grid. *)
Definition sample_evaluator : SE.Evaluator :=
  {| SE.metrics := [(7%Z, sample_tracker_on 7); (8%Z, sample_tracker_on 8)];
     SE.grid := [];
     SE.map_bounds := default_bounds;
     SE.cell_size := 50;
     SE.log_folder := "cache/sustainability_logs";
     SE.config := {| SE.model_type := None |} |}.

(** A newly constructed evaluator with the default map and cells of
    50 m. *)
Definition fresh_evaluator : SE.Evaluator :=
  {| SE.metrics := []; SE.grid := [];
     SE.map_bounds := default_bounds;
     SE.cell_size := 50;
     SE.log_folder := "cache/sustainability_logs";
     SE.config := {| SE.model_type := None |} |}.

(** Vehicle 7 cruises 25 m west of the map origin; every other actor has
    been destroyed. *)
Definition west_world : World :=
  world_of (fun v => if Z.eqb v 7 then cruising 20 (-1025) 0 else destroyed).

Definition west_location : Location :=
  {| loc_x := -1025; loc_y := 0; loc_z := 0 |}.

(** Both vehicles are registered, then one tick passes. *)
Definition west_run : list Event :=
  [Register west_world 7 None; Register west_world 8 None;
   Update west_world (snapshot_of 1)].

(** ** Vocabulary of the further properties *)

(** Grams of CO2 per joule drawn, by powertrain class. *)
Definition emission_factor (ev : bool) : R :=
  if ev then 400 / 3.6e6 else 2310 / 8.9 / 3.6e6.

(** From [a] to [b] the powertrain class is kept and the CO2 added is the
    energy added times the emission factor. *)
Definition emission_tracks_energy (a b : SM.Tracker) : Prop :=
  SM.is_ev b = SM.is_ev a /\
  SM.co2_g b - SM.co2_g a =
    emission_factor (SM.is_ev a) * (SM.energy_j b - SM.energy_j a).

(** [a] and [b] differ at most in [_accum_dt] and in the log file. *)
Definition same_but_log (a b : SM.Tracker) : Prop :=
  SM.set_accum_dt 0 (SM.set_csv_file fresh_log b) =
  SM.set_accum_dt 0 (SM.set_csv_file fresh_log a).

(** The log of [b] is the log of [a] with rows added at the end; it is
    neither closed nor reopened. *)
Definition log_extends (a b : SM.Tracker) : Prop :=
  closed (SM.csv_file b) = closed (SM.csv_file a) /\
  faulty (SM.csv_file b) = faulty (SM.csv_file a) /\
  exists extra, rows (SM.csv_file b) = rows (SM.csv_file a) ++ extra.

(** The condition under which a tick counts as idle. *)
Definition idle_condition (speed : R) (control : option Control) : bool :=
  float_lt speed 0.3 &&
  match control with
  | None => true
  | Some c => float_lt (dict_get (throttle c) 0) 0.1
  end.

(** A log row is due once the time accumulated since the last row reaches
    [1 / max(1, sample_hz)]. *)
Definition row_due (s : SM.Tracker) (dt : R) : bool :=
  if Rge_dec (SM._accum_dt s + dt) (1.0 / Rmax 1 (SM.sample_hz s))
  then true else false.

Definition header_row : list cell :=
  map CStr ["timestamp"; "x"; "y"; "speed_m_s"; "long_accel_m_s2"; "jerk";
            "power_w"; "dt_s"; "cumulative_energy_j"; "cumulative_co2_g";
            "regen_j"; "eco_score"]%string.

(** A tick in which vehicle [v] stands still and no control is passed. *)
Definition standing_tick (v : Z) (k : Tick) : Prop :=
  get_velocity (actor (tick_world k) v) = Ok {| vx := 0; vy := 0; vz := 0 |} /\
  is_ok (get_acceleration (actor (tick_world k) v)) = true /\
  tick_control k = None.

(** The time a tick lets pass: nothing when [dt <= 0]. *)
Definition effective_dt (k : Tick) : R :=
  Rmax (delta_seconds (timestamp (tick_snapshot k))) 0.

(** Every tracker is filed under the id of its vehicle, once. *)
Definition registry_ok (ev : SE.Evaluator) : Prop :=
  NoDup (PyDict.keys (SE.metrics ev)) /\
  Forall (fun km => SM.id (snd km) = fst km /\ SM.vehicle (snd km) = fst km)
         (SE.metrics ev).

(** No tracker and no grid cell holds a negative CO2 mass. *)
Definition masses_nonneg (ev : SE.Evaluator) : Prop :=
  Forall (fun km => 0 <= SM.co2_g (snd km)) (SE.metrics ev) /\
  Forall (fun cv => 0 <= snd cv) (SE.grid ev).

(** The path [finalize] writes to. *)
Definition summary_path (ev : SE.Evaluator) (out_path : option string)
  : string :=
  match out_path with
  | Some p =>
      if String.eqb p ""
      then (SE.log_folder ev ++ "/sustainability_summary.json")%string
      else p
  | None => (SE.log_folder ev ++ "/sustainability_summary.json")%string
  end.

(** The summary [finalize] builds. *)
Definition summary_of (ev : SE.Evaluator) : SE.Summary :=
  {| SE.vehicles := map (fun km => results_value (snd km)) (SE.metrics ev);
     SE.grid_entries :=
       map (fun '((i, j), co2) =>
              {| SE.g_i := i; SE.g_j := j; SE.g_co2_g := co2 |})
           (SE.grid ev) |}.

(** What one vehicle does to the grid in a tick that leaves its tracker
    alone. *)
Definition charge_at_location (w : World) (bounds : SE.MapBounds)
    (cell_size : R) (g : SE.Grid) (m : SM.Tracker) : SE.Grid :=
  match get_location (actor w (SM.vehicle m)) with
  | Ok loc =>
      match SE.grid_cell bounds cell_size loc with
      | Ok c => charge c (SM.co2_g m) g
      | Raise _ => g
      end
  | Raise _ => g
  end.

(** The state a tick with positive [dt] reaches before the logging
    block, when the kinematics read are [(speed, accel)] and the power is
    [p]: distance, then energy or regen, then jerk, then the eco-driving
    counters. *)
Definition after_energy (speed dt p : R) (s : SM.Tracker) : SM.Tracker :=
  let s1 := SM.set_distance_m (SM.distance_m s + speed * dt) s in
  if Rlt_dec 0 p then
    SM.set_co2_g
      (SM.co2_g s1 + (if SM.is_ev s1 then SM.estimate_ev_co2 p dt 400.0
                      else SM.estimate_fuel_co2 p dt))
      (SM.set_energy_j (SM.energy_j s1 + p * dt) s1)
  else SM.set_regen_j (SM.regen_j s1 + Rabs p * dt * 0.5) s1.

Definition after_jerk (accel dt : R) (s : SM.Tracker) : SM.Tracker :=
  SM.set_last_accel accel
    (SM.set_jerk_samples
       (SM.jerk_samples s ++ [(accel - SM.last_accel s) / dt]) s).

Definition after_counters (speed accel dt : R) (control : option Control)
    (s : SM.Tracker) : SM.Tracker :=
  let s1 := if Rlt_dec 2.0 accel
            then SM.set_harsh_accel (SM.harsh_accel s + 1) s else s in
  let s2 := if Rlt_dec accel (- 2.5)
            then SM.set_harsh_brake (SM.harsh_brake s1 + 1) s1 else s1 in
  if idle_condition speed control
  then SM.set_idle_time_s (SM.idle_time_s s2 + dt) s2 else s2.

Definition before_logging (speed accel dt p : R) (control : option Control)
    (s : SM.Tracker) : SM.Tracker :=
  after_counters speed accel dt control
    (after_jerk accel dt (after_energy speed dt p s)).

(** The data row written for a tick, from the state [s] in which it is
    written. *)
Definition log_row (snapshot : Snapshot) (loc : Location)
    (speed accel jerk power_w : R) (s : SM.Tracker) : list cell :=
  [CNum (elapsed_seconds (timestamp snapshot));
   CNum (py_round (loc_x loc) 3); CNum (py_round (loc_y loc) 3);
   CNum (py_round speed 3); CNum (py_round accel 3);
   CNum (py_round jerk 3);
   CNum (py_round power_w 3);
   CNum (py_round (SM._accum_dt s) 4);
   CNum (py_round (SM.energy_j s) 3);
   CNum (py_round (SM.co2_g s) 3);
   CNum (py_round (SM.regen_j s) 3);
   CNum (py_round (spec_eco_score s) 2)].

(** Five ticks of one second each in which every vehicle stands still. *)
Definition standing_second : Tick :=
  {| tick_world := world_of (fun _ => cruising 0 0 0);
     tick_snapshot := snapshot_of 1;
     tick_control := None;
     tick_slope := 0 |}.

Definition five_standing_seconds : list Tick :=
  [standing_second; standing_second; standing_second; standing_second;
   standing_second].

(** The sample tracker after its log has been closed. *)
Definition closed_sample_tracker : SM.Tracker :=
  SM.set_csv_file {| closed := true; faulty := false; rows := [] |}
                  sample_tracker.

(** The sample evaluator with 5 g already in cell (0, 20). *)
Definition charged_evaluator : SE.Evaluator :=
  SE.set_grid [((0%Z, 20%Z), 5)] sample_evaluator.

(** The sample evaluator with a cell size of zero. *)
Definition zero_cell_evaluator : SE.Evaluator :=
  {| SE.metrics := SE.metrics sample_evaluator;
     SE.grid := [];
     SE.map_bounds := default_bounds;
     SE.cell_size := 0;
     SE.log_folder := "cache/sustainability_logs";
     SE.config := {| SE.model_type := None |} |}.

(** A world in which no log file can be opened. *)
Definition no_disk_world : World :=
  {| actor := fun _ => cruising 20 0 0;
     fs_makedirs_fails := false;
     fs_open_fails := fun _ => true;
     fs_faulty := fun _ => false;
     fs_summary_fails := false |}.

(** * Reasoning about computations *)

(** [c] relates every state it starts from to the state it leaves,
    whether it returns or raises. *)
Definition preserves {S A} (Rel : S -> S -> Prop) (c : M S A) : Prop :=
  forall s, Rel s (snd (c s)).

(** Every value [c] returns satisfies [Q]. *)
Definition returns {S A} (Q : A -> Prop) (c : M S A) : Prop :=
  forall s a, fst (c s) = Ok a -> Q a.

(** From every state satisfying [P], [c] returns a value satisfying [Q]
    and leaves a state satisfying [P]. *)
Definition succeeds {S A} (P : S -> Prop) (Q : A -> Prop) (c : M S A)
  : Prop :=
  forall s, P s -> exists a, fst (c s) = Ok a /\ Q a /\ P (snd (c s)).

Definition anything {A} (_ : A) : Prop := True.

(** The log of a tracker on vehicle [v] can be written to. *)
Definition writable_log (v : Z) (s : SM.Tracker) : Prop :=
  SM.vehicle s = v /\
  closed (SM.csv_file s) = false /\
  faulty (SM.csv_file s) = false.

Section Preserves.
Context {S : Type} (Rel : S -> S -> Prop).
Hypothesis Rel_refl : forall s, Rel s s.
Hypothesis Rel_trans : forall a b c, Rel a b -> Rel b c -> Rel a c.

Lemma preserves_ret {A} (a : A) : preserves Rel (ret a).
Proof. intro s. apply Rel_refl. Qed.

Lemma preserves_lift {A} (r : result A) : preserves Rel (lift r).
Proof. intro s. apply Rel_refl. Qed.

Lemma preserves_get : preserves Rel get.
Proof. intro s. apply Rel_refl. Qed.

Lemma preserves_modify (f : S -> S) :
  (forall s, Rel s (f s)) -> preserves Rel (modify f).
Proof. intros H s. apply H. Qed.

Lemma preserves_bind_returns {A B} (Q : A -> Prop) (c : M S A)
    (k : A -> M S B) :
  preserves Rel c -> returns Q c -> (forall a, Q a -> preserves Rel (k a)) ->
  preserves Rel (bind c k).
Proof.
  intros Hc HQ Hk s. unfold bind.
  specialize (Hc s). specialize (HQ s).
  destruct (c s) as [[a | e] s']; simpl in *.
  - eapply Rel_trans; [exact Hc |]. apply Hk. apply HQ. reflexivity.
  - exact Hc.
Qed.

Lemma preserves_bind {A B} (c : M S A) (k : A -> M S B) :
  preserves Rel c -> (forall a, preserves Rel (k a)) ->
  preserves Rel (bind c k).
Proof.
  intros Hc Hk. apply (preserves_bind_returns (fun _ => True)); auto.
  intros s a _. exact I.
Qed.

Lemma preserves_try_except {A} (c : M S A) (h : exn -> M S A) :
  preserves Rel c -> (forall e, preserves Rel (h e)) ->
  preserves Rel (try_except c h).
Proof.
  intros Hc Hh s. unfold try_except. specialize (Hc s).
  destruct (c s) as [[a | e] s']; simpl in *; [exact Hc |].
  eapply Rel_trans; [exact Hc | apply Hh].
Qed.

Lemma preserves_zoom {T A} (proj : S -> T) (inj : T -> S -> S) (c : M T A) :
  (forall s t, Rel s (inj t s)) -> preserves Rel (zoom proj inj c).
Proof.
  intros H s. unfold zoom. destruct (c (proj s)) as [r t']. simpl. apply H.
Qed.

End Preserves.

Section Succeeds.
Context {S : Type} (P : S -> Prop).

Lemma succeeds_ret {A} (Q : A -> Prop) (a : A) :
  Q a -> succeeds P Q (ret a).
Proof. intros Ha s Hs. exists a. auto. Qed.

Lemma succeeds_lift {A} (Q : A -> Prop) (a : A) :
  Q a -> succeeds P Q (lift (Ok a)).
Proof. intros Ha s Hs. exists a. auto. Qed.

Lemma succeeds_get : succeeds P P get.
Proof. intros s Hs. exists s. auto. Qed.

Lemma succeeds_modify (Q : unit -> Prop) (f : S -> S) :
  Q tt -> (forall s, P s -> P (f s)) -> succeeds P Q (modify f).
Proof. intros Hq Hf s Hs. exists tt. simpl. auto. Qed.

Lemma succeeds_bind {A B} (Q : A -> Prop) (Q' : B -> Prop) (c : M S A)
    (k : A -> M S B) :
  succeeds P Q c -> (forall a, Q a -> succeeds P Q' (k a)) ->
  succeeds P Q' (bind c k).
Proof.
  intros Hc Hk s Hs. unfold bind.
  destruct (Hc s Hs) as (a & Ha & Hq & Hp).
  destruct (c s) as [r s']. simpl in *. subst r. apply Hk; assumption.
Qed.

End Succeeds.

Lemma bind_run {S A B} (c : M S A) (k : A -> M S B) (s s' : S) (a : A) :
  c s = (Ok a, s') -> bind c k s = k a s'.
Proof. intros H. unfold bind. rewrite H. reflexivity. Qed.

(** * Arithmetic of the runtime fragments *)

Lemma py_div_ok (a b : R) : b <> 0 -> py_div a b = Ok (a / b).
Proof.
  intros Hb. unfold py_div.
  destruct (Req_dec_T b 0); [contradiction | reflexivity].
Qed.

Lemma py_div_zero (a : R) : py_div a 0 = Raise ZeroDivisionError.
Proof.
  unfold py_div.
  destruct (Req_dec_T 0 0) as [_ | Hn]; [reflexivity | contradiction Hn].
  reflexivity.
Qed.

Lemma py_int_nonneg (x : R) : 0 <= x -> py_int x = py_floor x.
Proof.
  intros Hx. unfold py_int, py_floor.
  destruct (Rle_dec 0 x); [reflexivity | contradiction].
Qed.

Lemma Int_part_eq (x : R) (z : Z) : IZR z <= x < IZR z + 1 -> Int_part x = z.
Proof.
  intros [H1 H2]. symmetry. apply Int_part_spec. lra.
Qed.

(** * The tracker *)

Ltac case_dec :=
  match goal with
  | |- context [Rlt_dec ?a ?b] => destruct (Rlt_dec a b)
  | |- context [Rle_dec ?a ?b] => destruct (Rle_dec a b)
  | |- context [Rge_dec ?a ?b] => destruct (Rge_dec a b)
  | |- context [Req_dec_T ?a ?b] => destruct (Req_dec_T a b)
  end.

Ltac case_matches :=
  repeat (first
            [ case_dec
            | match goal with
              | |- context [match ?x with _ => _ end] => destruct x eqn:?
              end ];
          cbn beta iota).

Ltac unfold_monad :=
  unfold bind, ret, lift, get, modify, raise, try_except, zoom in *.

Lemma compute_power_src_eq (self : SM.Tracker) (speed accel slope : R) :
  (Utils.aerodynamic_force (SM.cd self) (SM.area self) speed
   + Utils.rolling_resistance_force (SM.crr self) (SM.mass self)
   + Utils.gravity_force_on_slope (SM.mass self) slope
   + SM.mass self * accel) * speed
  = force_balance_power self speed accel slope.
Proof.
  unfold Utils.aerodynamic_force, Utils.rolling_resistance_force,
    Utils.gravity_force_on_slope, Utils.RHO_AIR, Utils.G,
    force_balance_power.
  ring.
Qed.

Lemma eff_floor_pos (eff : R) : 1e-6 <= Rmax eff 1e-6.
Proof. apply Rmax_r. Qed.

Lemma compute_power_value (self : SM.Tracker) (speed accel slope : R) :
  SM.compute_power self speed accel slope =
  Ok (if Rge_dec (force_balance_power self speed accel slope) 0
      then force_balance_power self speed accel slope
           / Rmax (SM.drivetrain_eff self) 1e-6
      else force_balance_power self speed accel slope
           * SM.drivetrain_eff self).
Proof.
  unfold SM.compute_power. cbv zeta. rewrite compute_power_src_eq.
  destruct (Rge_dec _ 0); [| reflexivity].
  apply py_div_ok. pose proof (eff_floor_pos (SM.drivetrain_eff self)). lra.
Qed.


(** C4. An update whose elapsed time is zero or negative returns at once:
    the tracker is left exactly as it was (accumulators, jerk history,
    [last_accel], the log-flush accumulator, and the log file with its
    rows), and nothing is raised. *)
Theorem update_nonpositive_dt_noop (w : World) (snapshot : Snapshot)
    (control : option Control) (slope : R) (s : SM.Tracker) :
  delta_seconds (timestamp snapshot) <= 0 ->
  SM.update w snapshot control slope s = (Ok tt, s).
Proof.
  intros Hdt. unfold SM.update. cbv zeta.
  destruct (Rle_dec (delta_seconds (timestamp snapshot)) 0);
    [reflexivity | contradiction].
Qed.

(** ** Orders and equivalences on tracker states *)

Lemma accumulators_le_refl (s : SM.Tracker) : accumulators_le s s.
Proof. unfold accumulators_le. repeat split; try lra; lia. Qed.

Lemma accumulators_le_trans (a b c : SM.Tracker) :
  accumulators_le a b -> accumulators_le b c -> accumulators_le a c.
Proof.
  unfold accumulators_le.
  intros (?&?&?&?&?&?&?) (?&?&?&?&?&?&?). repeat split; try lra; lia.
Qed.

Lemma same_energy_refl (s : SM.Tracker) : same_energy s s.
Proof. unfold same_energy. auto. Qed.

Lemma same_energy_trans (a b c : SM.Tracker) :
  same_energy a b -> same_energy b c -> same_energy a c.
Proof.
  unfold same_energy. intros (?&?&?) (?&?&?). repeat split; congruence.
Qed.

Lemma same_static_refl (s : SM.Tracker) : same_static s s.
Proof. unfold same_static. repeat split. Qed.

Lemma same_static_trans (a b c : SM.Tracker) :
  same_static a b -> same_static b c -> same_static a c.
Proof.
  unfold same_static.
  intros (?&?&?&?&?&?&?&?&?) (?&?&?&?&?&?&?&?&?). repeat split; congruence.
Qed.

Create HintDb tracker.

#[local] Hint Resolve accumulators_le_refl accumulators_le_trans
  same_energy_refl same_energy_trans same_static_refl same_static_trans
  : tracker.

(** ** Emission models *)

Lemma estimate_fuel_co2_pos (power_w dt : R) :
  0 < power_w -> 0 < dt -> 0 < SM.estimate_fuel_co2 power_w dt.
Proof.
  intros Hp Hdt. unfold SM.estimate_fuel_co2.
  destruct (Rle_dec power_w 0); [lra |].
  assert (0 < power_w * dt) by (apply Rmult_lt_0_compat; assumption).
  lra.
Qed.

Lemma estimate_ev_co2_pos (power_w dt : R) :
  0 < power_w -> 0 < dt -> 0 < SM.estimate_ev_co2 power_w dt 400.0.
Proof.
  intros Hp Hdt. unfold SM.estimate_ev_co2.
  assert (0 < power_w * dt) by (apply Rmult_lt_0_compat; assumption).
  lra.
Qed.

(** ** The blocks of [update] *)

Lemma read_kinematics_state (w : World) (s : SM.Tracker) :
  snd (SM.read_kinematics w s) = s.
Proof.
  unfold SM.read_kinematics. unfold_monad. case_matches; reflexivity.
Qed.

Lemma read_kinematics_speed (w : World) :
  returns (fun sa : R * R => 0 <= fst sa) (SM.read_kinematics w).
Proof.
  intros s [speed accel]. unfold SM.read_kinematics. unfold_monad.
  case_matches; simpl; intros H; inversion H; subst; apply sqrt_pos.
Qed.

Lemma integrate_distance_le (speed dt : R) :
  0 <= speed -> 0 < dt ->
  preserves accumulators_le (SM.integrate_distance speed dt).
Proof.
  intros Hs Hdt s. unfold SM.integrate_distance, modify, accumulators_le.
  simpl. assert (0 <= speed * dt) by (apply Rmult_le_pos; lra).
  repeat split; try lra; lia.
Qed.

Lemma integrate_energy_le (speed accel slope dt : R) :
  0 < dt ->
  preserves accumulators_le (SM.integrate_energy speed accel slope dt).
Proof.
  intros Hdt s. unfold SM.integrate_energy. unfold_monad.
  rewrite compute_power_value.
  set (p := if Rge_dec _ 0 then _ else _).
  destruct (Rlt_dec 0 p) as [Hp | Hp].
  - pose proof (estimate_fuel_co2_pos p dt Hp Hdt).
    pose proof (estimate_ev_co2_pos p dt Hp Hdt).
    assert (0 < p * dt) by (apply Rmult_lt_0_compat; assumption).
    simpl. destruct (SM.is_ev s); unfold accumulators_le; simpl;
      repeat split; try lra; lia.
  - assert (0 <= Rabs p * dt * 0.5).
    { pose proof (Rabs_pos p).
      assert (0 <= Rabs p * dt) by (apply Rmult_le_pos; lra). lra. }
    unfold accumulators_le; simpl. repeat split; try lra; lia.
Qed.

Lemma record_jerk_le (accel dt : R) :
  preserves accumulators_le (SM.record_jerk accel dt).
Proof.
  intros s. unfold SM.record_jerk. unfold_monad.
  case_matches; unfold accumulators_le; simpl; repeat split; try lra; lia.
Qed.

Lemma eco_counters_le (speed accel dt : R) (control : option Control) :
  0 < dt ->
  preserves accumulators_le (SM.eco_counters speed accel dt control).
Proof.
  intros Hdt s. unfold SM.eco_counters. unfold_monad.
  case_matches; unfold accumulators_le; simpl; repeat split; try lra; lia.
Qed.

(** Decompose a goal [preserves Rel c] along the structure of [c], down
    to the attribute assignments. *)
Ltac preserves_struct :=
  lazymatch goal with
  | |- forall _, preserves _ _ => intro; preserves_struct
  | |- preserves _ (bind _ _) => apply preserves_bind; preserves_struct
  | |- preserves _ (ret _) => apply preserves_ret; preserves_struct
  | |- preserves _ (lift _) => apply preserves_lift; preserves_struct
  | |- preserves _ get => apply preserves_get; preserves_struct
  | |- preserves _ (modify _) => apply preserves_modify; intros ?
  | |- preserves _ (zoom _ _ _) => apply preserves_zoom; intros ? ?
  | |- preserves _ (SM.on_csv_file _) =>
      unfold SM.on_csv_file; preserves_struct
  | |- preserves _ (if ?c then _ else _) => destruct c; preserves_struct
  | |- preserves _ (match ?c with _ => _ end) => destruct c; preserves_struct
  | |- preserves _ _ => idtac
  | |- _ => solve [eauto with tracker]
  end.

Lemma csv_logging_le (w : World) (snapshot : Snapshot)
    (speed accel jerk power_w dt : R) :
  preserves accumulators_le
    (SM.csv_logging w snapshot speed accel jerk power_w dt).
Proof.
  unfold SM.csv_logging. preserves_struct;
    unfold accumulators_le; simpl; repeat split; try lra; lia.
Qed.

(** After the energy block, nothing touches energy, regen or CO2. *)
Lemma after_energy_same_energy (w : World) (snapshot : Snapshot)
    (control : option Control) (speed accel power_w dt : R) :
  preserves same_energy
    (jerk <- SM.record_jerk accel dt ;;
     SM.eco_counters speed accel dt control ;;
     SM.csv_logging w snapshot speed accel jerk power_w dt).
Proof.
  unfold SM.record_jerk, SM.eco_counters, SM.csv_logging.
  preserves_struct; unfold same_energy; simpl; auto.
Qed.

(** No block assigns an attribute fixed at construction. *)
Lemma update_same_static (w : World) (snapshot : Snapshot)
    (control : option Control) (slope : R) :
  preserves same_static (SM.update w snapshot control slope).
Proof.
  unfold SM.update, SM.read_kinematics, SM.integrate_distance,
    SM.integrate_energy, SM.record_jerk, SM.eco_counters, SM.csv_logging.
  cbv zeta.
  preserves_struct; unfold same_static; simpl; repeat split.
Qed.

(** ** The whole update *)

Lemma update_le (w : World) (snapshot : Snapshot)
    (control : option Control) (slope : R) :
  preserves accumulators_le (SM.update w snapshot control slope).
Proof.
  unfold SM.update. cbv zeta.
  destruct (Rle_dec (delta_seconds (timestamp snapshot)) 0) as [Hdt | Hdt].
  { apply preserves_ret; auto with tracker. }
  assert (0 < delta_seconds (timestamp snapshot)) as Hpos by lra.
  apply preserves_bind_returns with (Q := fun sa : R * R => 0 <= fst sa).
  - eauto with tracker.
  - intros s. rewrite read_kinematics_state. auto with tracker.
  - apply read_kinematics_speed.
  - intros [speed accel] Hspeed. simpl in Hspeed.
    apply preserves_bind; eauto with tracker.
    { apply integrate_distance_le; assumption. }
    intros _. apply preserves_bind; eauto with tracker.
    { apply integrate_energy_le; assumption. }
    intros power_w. apply preserves_bind; eauto with tracker.
    { apply record_jerk_le. }
    intros jerk. apply preserves_bind; eauto with tracker.
    { apply eco_counters_le; assumption. }
    intros _. apply csv_logging_le.
Qed.

Lemma run_updates_app (ks1 ks2 : list Tick) (s : SM.Tracker) :
  run_updates (ks1 ++ ks2) s = run_updates ks2 (run_updates ks1 s).
Proof. unfold run_updates. apply fold_left_app. Qed.

Lemma run_updates_le (ks : list Tick) (s : SM.Tracker) :
  accumulators_le s (run_updates ks s).
Proof.
  revert s. induction ks as [| k ks IH]; intros s; simpl.
  - apply accumulators_le_refl.
  - eapply accumulators_le_trans; [| apply IH].
    unfold step. apply update_le.
Qed.

(** C3. Along any sequence of updates of a tracker, none of the seven
    cumulative accumulators (energy, regenerated energy, CO2, distance,
    harsh-acceleration count, harsh-braking count, idle time) ever
    decreases: the state after any prefix of the sequence is pointwise
    below the state after any longer prefix.  This holds for every
    elapsed time and also for the updates that raise part-way. *)
Theorem accumulators_monotone (ks1 ks2 : list Tick) (s : SM.Tracker) :
  accumulators_le (run_updates ks1 s) (run_updates (ks1 ++ ks2) s).
Proof.
  rewrite run_updates_app. apply run_updates_le.
Qed.

(** ** One tick, by the sign of the power *)

Lemma integrate_energy_run (speed accel slope dt p : R) (s : SM.Tracker) :
  SM.compute_power s speed accel slope = Ok p ->
  SM.integrate_energy speed accel slope dt s =
  (Ok p,
   if Rlt_dec 0 p then
     SM.set_co2_g
       (SM.co2_g s + (if SM.is_ev s then SM.estimate_ev_co2 p dt 400.0
                      else SM.estimate_fuel_co2 p dt))
       (SM.set_energy_j (SM.energy_j s + p * dt) s)
   else SM.set_regen_j (SM.regen_j s + Rabs p * dt * 0.5) s).
Proof.
  intros Hp. unfold SM.integrate_energy. unfold_monad. rewrite Hp.
  destruct (Rlt_dec 0 p); [| reflexivity].
  simpl. destruct (SM.is_ev s); reflexivity.
Qed.

(** The energy, regen and CO2 accumulators after a tick with positive
    elapsed time whose kinematics were read as [(speed, accel)] and whose
    power is [p]: they are those left by the energy block. *)
Lemma update_energy_block (w : World) (snapshot : Snapshot)
    (control : option Control) (slope : R) (s : SM.Tracker)
    (speed accel p : R) :
  0 < delta_seconds (timestamp snapshot) ->
  fst (SM.read_kinematics w s) = Ok (speed, accel) ->
  SM.compute_power s speed accel slope = Ok p ->
  same_energy
    (snd (SM.integrate_energy speed accel slope
            (delta_seconds (timestamp snapshot)) s))
    (snd (SM.update w snapshot control slope s)).
Proof.
  intros Hdt Hk Hp.
  assert (SM.read_kinematics w s = (Ok (speed, accel), s)) as Hrun.
  { pose proof (read_kinematics_state w s) as Hs.
    destruct (SM.read_kinematics w s) as [r s0]. simpl in *. congruence. }
  unfold SM.update. cbv zeta.
  destruct (Rle_dec (delta_seconds (timestamp snapshot)) 0); [lra |].
  rewrite (bind_run _ _ _ _ _ Hrun). cbv beta iota.
  set (dt := delta_seconds (timestamp snapshot)) in *.
  set (s1 := SM.set_distance_m (SM.distance_m s + speed * dt) s).
  rewrite (bind_run _ _ s s1 tt) by reflexivity.
  assert (SM.compute_power s1 speed accel slope = Ok p) as Hp1 by exact Hp.
  rewrite (integrate_energy_run _ _ _ dt _ _ Hp).
  rewrite (bind_run _ _ s1 _ p (integrate_energy_run _ _ _ dt _ _ Hp1)).
  simpl fst. simpl snd.
  match goal with
  | |- same_energy ?a (snd (?c ?mid)) =>
      apply (same_energy_trans a mid);
      [| apply (after_energy_same_energy w snapshot control speed accel p
                  dt mid) ]
  end.
  destruct (Rlt_dec 0 p); unfold same_energy; simpl; auto.
Qed.


(** ** Sample ticks *)

Lemma norm_along_x (v : R) : 0 <= v -> sqrt (v ^ 2 + 0 ^ 2 + 0 ^ 2) = v.
Proof.
  intros Hv. replace (v ^ 2 + 0 ^ 2 + 0 ^ 2) with (v * v) by ring.
  apply sqrt_square. exact Hv.
Qed.

Lemma read_kinematics_cruising (v x y : R) (actors : Z -> Actor)
    (s : SM.Tracker) :
  0.1 < v ->
  actors (SM.vehicle s) = cruising v x y ->
  fst (SM.read_kinematics (world_of actors) s) = Ok (v, 0).
Proof.
  intros Hv Ha. unfold SM.read_kinematics. unfold_monad.
  cbn [actor world_of]. rewrite Ha.
  cbn [cruising get_velocity get_acceleration vx vy vz].
  rewrite norm_along_x by lra.
  destruct (Rlt_dec 0.1 v); [| lra].
  rewrite py_div_ok by lra. cbn [fst]. f_equal. f_equal. field. lra.
Qed.

Lemma read_kinematics_standing (x y : R) (actors : Z -> Actor)
    (s : SM.Tracker) :
  actors (SM.vehicle s) = cruising 0 x y ->
  fst (SM.read_kinematics (world_of actors) s) = Ok (0, 0).
Proof.
  intros Ha. unfold SM.read_kinematics. unfold_monad.
  cbn [actor world_of]. rewrite Ha.
  cbn [cruising get_velocity get_acceleration vx vy vz].
  rewrite norm_along_x by lra.
  destruct (Rlt_dec 0.1 0); [lra |]. cbn [fst]. f_equal. f_equal. lra.
Qed.

Lemma sample_power_cruising :
  SM.compute_power sample_tracker 20 0 0 = Ok (6177 / 0.9).
Proof.
  rewrite compute_power_value. unfold force_balance_power. simpl.
  rewrite Rmax_left by lra.
  destruct (Rge_dec _ 0) as [_ | Hn]; [f_equal; lra | exfalso; apply Hn; lra].
Qed.

Lemma sample_power_standing :
  SM.compute_power sample_tracker 0 0 0 = Ok 0.
Proof.
  rewrite compute_power_value. unfold force_balance_power. simpl.
  rewrite Rmax_left by lra.
  destruct (Rge_dec _ 0) as [_ | Hn]; [f_equal; lra | exfalso; apply Hn; lra].
Qed.


(** An update with zero elapsed time changes nothing. *)
Lemma update_nonpositive_dt_noop_witness :
  SM.update (world_of (fun _ => cruising 20 0 0)) (snapshot_of 0) None 0
            sample_tracker
  = (Ok tt, sample_tracker).
Proof.
  apply (update_nonpositive_dt_noop (world_of (fun _ => cruising 20 0 0))
           (snapshot_of 0) None 0 sample_tracker).
  simpl. lra.
Defined.

(** ** Eco score *)

Lemma sum_list_map_ext (f g : R -> R) (l : list R) :
  (forall x, f x = g x) -> sum_list (map f l) = sum_list (map g l).
Proof.
  intros H. induction l as [| x l IH]; simpl; [reflexivity |].
  rewrite H, IH. reflexivity.
Qed.

Lemma np_std_population (x : R) (l : list R) :
  np_std (x :: l) = population_stddev (x :: l).
Proof.
  unfold np_std, population_stddev, np_mean. cbv zeta.
  rewrite length_map. f_equal. f_equal.
  apply sum_list_map_ext. intros y.
  rewrite pow2_abs. ring.
Qed.

Lemma population_stddev_nonneg (l : list R) : 0 <= population_stddev l.
Proof.
  destruct l; simpl; [lra | apply sqrt_pos].
Qed.

Lemma eco_score_value (s : SM.Tracker) :
  SM.compute_eco_score s = Ok (spec_eco_score s).
Proof.
  unfold SM.compute_eco_score, spec_eco_score. cbv zeta.
  assert (0.1 <= Rmax (SM.distance_m s / 1000.0) 0.1) as Hd by apply Rmax_r.
  rewrite py_div_ok by lra.
  replace (match SM.jerk_samples s with
           | [] => 0.0
           | _ :: _ => np_std (SM.jerk_samples s)
           end) with (population_stddev (SM.jerk_samples s)).
  - replace (SM.distance_m s / 1000.0) with (SM.distance_m s / 1000) by lra.
    replace 0.0 with 0 by lra. replace 100.0 with 100 by lra.
    match goal with
    | |- Ok (Rmax _ (_ - ?a / _)) = Ok (Rmax _ (_ - ?b / _)) =>
        replace a with b by lra
    end.
    reflexivity.
  - destruct (SM.jerk_samples s) as [| x l] eqn:E.
    + simpl. lra.
    + symmetry. apply np_std_population.
Qed.

(** C5. The eco score is [max(0, 100 - penalty)] with
    [penalty = (1.2*jerk_stddev + 0.08*harsh_accel + 0.12*harsh_brake
    + 0.01*idle_time_s) / max(distance_km, 0.1)], the jerk deviation being
    the population standard deviation of the whole jerk history (0 when
    it is empty); when the two harsh-event counts and the idle time are
    non-negative, the score lies between 0 and 100. *)
Theorem eco_score_formula_and_range (s : SM.Tracker) :
  (0 <= SM.harsh_accel s)%Z ->
  (0 <= SM.harsh_brake s)%Z ->
  0 <= SM.idle_time_s s ->
  SM.compute_eco_score s = Ok (spec_eco_score s) /\
  0 <= spec_eco_score s <= 100.
Proof.
  intros Ha Hb Hi. split; [apply eco_score_value |].
  unfold spec_eco_score. split; [apply Rmax_l |].
  apply Rmax_lub; [lra |].
  assert (0.1 <= Rmax (SM.distance_m s / 1000) 0.1) as Hd by apply Rmax_r.
  pose proof (population_stddev_nonneg (SM.jerk_samples s)) as Hj.
  apply IZR_le in Ha. apply IZR_le in Hb.
  assert (0 <= (1.2 * population_stddev (SM.jerk_samples s)
                + 0.08 * IZR (SM.harsh_accel s)
                + 0.12 * IZR (SM.harsh_brake s)
                + 0.01 * SM.idle_time_s s)
               / Rmax (SM.distance_m s / 1000) 0.1) as Hp.
  { apply Rmult_le_pos; [lra |].
    left. apply Rinv_0_lt_compat. lra. }
  lra.
Qed.

(** The sample tracker has a score between 0 and 100. *)
Lemma eco_score_formula_and_range_witness :
  SM.compute_eco_score sample_tracker = Ok (spec_eco_score sample_tracker) /\
  0 <= spec_eco_score sample_tracker <= 100.
Proof.
  apply (eco_score_formula_and_range sample_tracker); simpl; try lia; lra.
Defined.

(** ** The cruising scenario *)

(** C6. One tick of one second at 20 m/s, with no longitudinal
    acceleration and no slope, for a combustion vehicle of 1500 kg with
    Cd 0.3, frontal area 2.2 m2, Crr 0.01 and drivetrain efficiency 0.9:
    the aerodynamic force is 161.7 N, the rolling force 147.15 N, the
    power drawn 6177/0.9 W; the energy accumulator grows by 6177/0.9 J,
    which is 6863 J to the nearest joule, and the CO2 accumulator by
    (6177/0.9)/3.6e6/8.9*2310 g, which is within 0.0005 g of 0.495 g and of
    the figure obtained from the rounded 6863 J. *)
Theorem scenario_cruise_20 (w : World) (snapshot : Snapshot)
    (control : option Control) (s : SM.Tracker) :
  SM.mass s = 1500 -> SM.cd s = 0.3 -> SM.area s = 2.2 ->
  SM.crr s = 0.01 -> SM.drivetrain_eff s = 0.9 -> SM.is_ev s = false ->
  delta_seconds (timestamp snapshot) = 1 ->
  fst (SM.read_kinematics w s) = Ok (20, 0) ->
  let s' := snd (SM.update w snapshot control 0 s) in
  Utils.aerodynamic_force (SM.cd s) (SM.area s) 20 = 161.7 /\
  Utils.rolling_resistance_force (SM.crr s) (SM.mass s) = 147.15 /\
  SM.compute_power s 20 0 0 = Ok (6177 / 0.9) /\
  SM.energy_j s' - SM.energy_j s = 6177 / 0.9 /\
  Rabs (SM.energy_j s' - SM.energy_j s - 6863) < 0.5 /\
  SM.co2_g s' - SM.co2_g s = 6177 / 0.9 / 3.6e6 / 8.9 * 2310 /\
  Rabs (SM.co2_g s' - SM.co2_g s - 0.495) < 0.0005 /\
  Rabs (SM.co2_g s' - SM.co2_g s - 6863 / 3.6e6 / 8.9 * 2310) < 0.0005.
Proof.
  intros Hm Hcd Har Hcrr Heff Hev Hdt Hk s'.
  assert (SM.compute_power s 20 0 0 = Ok (6177 / 0.9)) as Hp.
  { rewrite compute_power_value. unfold force_balance_power.
    rewrite Hm, Hcd, Har, Hcrr, Heff. rewrite Rmax_left by lra.
    destruct (Rge_dec _ 0) as [_ | Hn];
      [f_equal; lra | exfalso; apply Hn; lra]. }
  assert (0 < delta_seconds (timestamp snapshot)) as Hpos by lra.
  pose proof (update_energy_block w snapshot control 0 s 20 0 (6177 / 0.9)
                Hpos Hk Hp) as (He & _ & Hc).
  rewrite (integrate_energy_run _ _ _ _ _ _ Hp) in He, Hc.
  simpl in He, Hc. fold s' in He, Hc.
  destruct (Rlt_dec 0 (6177 / 0.9)) as [_ | Hn]; [| exfalso; apply Hn; lra].
  simpl in He, Hc. rewrite Hev, Hdt in Hc. rewrite Hdt in He.
  unfold SM.estimate_fuel_co2 in Hc.
  destruct (Rle_dec (6177 / 0.9) 0) as [Hn | _]; [exfalso; lra |].
  unfold Utils.aerodynamic_force, Utils.rolling_resistance_force,
    Utils.RHO_AIR, Utils.G.
  rewrite Hm, Hcd, Har, Hcrr.
  repeat split; try exact Hp; try lra;
    apply Rabs_def1; lra.
Qed.

(** The sample tracker on a car cruising at 20 m/s, over one second. *)
Lemma scenario_cruise_20_witness :
  let s' := snd (SM.update (world_of (fun _ => cruising 20 0 0))
                   (snapshot_of 1) None 0 sample_tracker) in
  Rabs (SM.energy_j s' - SM.energy_j sample_tracker - 6863) < 0.5 /\
  Rabs (SM.co2_g s' - SM.co2_g sample_tracker - 0.495) < 0.0005.
Proof.
  intros s'.
  destruct (scenario_cruise_20 (world_of (fun _ => cruising 20 0 0))
              (snapshot_of 1) None sample_tracker)
    as (_ & _ & _ & _ & He & _ & Hc & _);
    try reflexivity.
  - apply read_kinematics_cruising with (x := 0) (y := 0); [lra | reflexivity].
  - split; assumption.
Defined.

(** ** Updates that return *)

Ltac returned :=
  eexists; split; [reflexivity | split; [exact I | try assumption ]].

Lemma read_kinematics_succeeds (w : World) (v : Z) (vel acc : Vector3D) :
  get_velocity (actor w v) = Ok vel ->
  get_acceleration (actor w v) = Ok acc ->
  succeeds (writable_log v) anything (SM.read_kinematics w).
Proof.
  intros Hv Ha s Hs. pose proof Hs as (Hveh & _).
  unfold SM.read_kinematics. unfold_monad.
  rewrite Hveh, Hv, Ha.
  destruct (Rlt_dec 0.1 _) as [Hlt | Hlt].
  - rewrite py_div_ok by lra. cbn [fst snd]. returned.
  - cbn [fst snd]. returned.
Qed.

Lemma integrate_energy_succeeds (v : Z) (speed accel slope dt : R) :
  succeeds (writable_log v) anything
    (SM.integrate_energy speed accel slope dt).
Proof.
  intros s Hs.
  destruct (SM.compute_power s speed accel slope) as [p | e] eqn:Hp.
  - rewrite (integrate_energy_run _ _ _ dt _ _ Hp). cbn [fst snd].
    returned. destruct (Rlt_dec 0 p); exact Hs.
  - rewrite compute_power_value in Hp. discriminate.
Qed.

Lemma record_jerk_succeeds (v : Z) (accel dt : R) :
  dt <> 0 -> succeeds (writable_log v) anything (SM.record_jerk accel dt).
Proof.
  intros Hdt s Hs. unfold SM.record_jerk. unfold_monad.
  rewrite py_div_ok by exact Hdt. cbn [fst snd]. returned.
Qed.

Lemma eco_counters_succeeds (v : Z) (speed accel dt : R)
    (control : option Control) :
  succeeds (writable_log v) anything (SM.eco_counters speed accel dt control).
Proof.
  intros s Hs. unfold SM.eco_counters. unfold_monad.
  destruct (Rlt_dec 2.0 accel), (Rlt_dec accel (- 2.5)),
    (float_lt speed 0.3 && _); cbn [fst snd]; returned.
Qed.

Lemma csv_logging_succeeds (w : World) (snapshot : Snapshot) (v : Z)
    (loc : Location) (speed accel jerk power_w dt : R) :
  get_location (actor w v) = Ok loc ->
  succeeds (writable_log v) anything
    (SM.csv_logging w snapshot speed accel jerk power_w dt).
Proof.
  intros Hloc s (Hveh & Hcl & Hf).
  unfold SM.csv_logging, SM.on_csv_file, file_writerow, file_flush.
  unfold_monad. cbn.
  assert (1 <= Rmax 1 (SM.sample_hz s)) as Hhz by apply Rmax_l.
  rewrite py_div_ok by lra.
  destruct (Rge_dec _ _); cbn.
  - rewrite eco_score_value. cbn. rewrite Hveh, Hloc. cbn.
    rewrite Hcl, Hf. cbn. rewrite ?Hf. cbn.
    returned. repeat split; assumption.
  - returned. repeat split; assumption.
Qed.

(** An update returns when the velocity, the acceleration and the
    location of the vehicle can be read and the log can be written to. *)
Lemma update_succeeds (w : World) (snapshot : Snapshot)
    (control : option Control) (slope : R) (v : Z)
    (vel acc : Vector3D) (loc : Location) :
  get_velocity (actor w v) = Ok vel ->
  get_acceleration (actor w v) = Ok acc ->
  get_location (actor w v) = Ok loc ->
  succeeds (writable_log v) anything (SM.update w snapshot control slope).
Proof.
  intros Hv Ha Hl. unfold SM.update. cbv zeta.
  destruct (Rle_dec (delta_seconds (timestamp snapshot)) 0) as [Hdt | Hdt].
  { apply succeeds_ret. exact I. }
  eapply succeeds_bind; [eapply read_kinematics_succeeds; eassumption |].
  intros [speed accel] _.
  eapply succeeds_bind with (Q := anything).
  { apply succeeds_modify; [exact I |]. intros s Hs. exact Hs. }
  intros _ _.
  eapply succeeds_bind; [apply integrate_energy_succeeds |].
  intros power_w _.
  eapply succeeds_bind; [apply record_jerk_succeeds; lra |].
  intros jerk _.
  eapply succeeds_bind; [apply eco_counters_succeeds |].
  intros _ _. eapply csv_logging_succeeds. exact Hl.
Qed.

Lemma update_returns (w : World) (snapshot : Snapshot)
    (control : option Control) (slope : R) (s : SM.Tracker)
    (vel acc : Vector3D) (loc : Location) :
  get_velocity (actor w (SM.vehicle s)) = Ok vel ->
  get_acceleration (actor w (SM.vehicle s)) = Ok acc ->
  get_location (actor w (SM.vehicle s)) = Ok loc ->
  closed (SM.csv_file s) = false ->
  faulty (SM.csv_file s) = false ->
  fst (SM.update w snapshot control slope s) = Ok tt.
Proof.
  intros Hv Ha Hl Hc Hf.
  destruct (update_succeeds w snapshot control slope (SM.vehicle s) vel acc
              loc Hv Ha Hl s) as ([] & H & _).
  - repeat split; assumption.
  - exact H.
Qed.

Lemma update_destroyed (w : World) (snapshot : Snapshot)
    (control : option Control) (slope : R) (s : SM.Tracker) :
  0 < delta_seconds (timestamp snapshot) ->
  actor w (SM.vehicle s) = destroyed ->
  fst (SM.update w snapshot control slope s) = Raise RuntimeError.
Proof.
  intros Hdt Ha. unfold SM.update. cbv zeta.
  destruct (Rle_dec _ 0); [lra |].
  unfold SM.read_kinematics. unfold_monad. rewrite Ha. reflexivity.
Qed.

(** * Dictionaries *)

Section DictFacts.
Context {K V : Type}.
Variable eq_dec : forall a b : K, {a = b} + {a <> b}.

Local Abbreviation lookup := (PyDict.lookup eq_dec).
Local Abbreviation setitem := (PyDict.setitem eq_dec).
Local Abbreviation setdefault := (PyDict.setdefault eq_dec).
Local Abbreviation contains := (PyDict.contains eq_dec).

Lemma lookup_setitem_same (k : K) (v : V) (d : PyDict.t) :
  lookup k (setitem k v d) = Some v.
Proof.
  induction d as [| [k' v'] d IH]; simpl.
  - destruct (eq_dec k k); [reflexivity | contradiction].
  - destruct (eq_dec k k') as [E | E]; simpl.
    + destruct (eq_dec k k'); [reflexivity | contradiction].
    + destruct (eq_dec k k'); [contradiction | exact IH].
Qed.

Lemma lookup_setitem_other (k k' : K) (v : V) (d : PyDict.t) :
  k' <> k -> lookup k' (setitem k v d) = lookup k' d.
Proof.
  intros Hne. induction d as [| [k0 v0] d IH]; simpl.
  - destruct (eq_dec k' k); [contradiction | reflexivity].
  - destruct (eq_dec k k0) as [E | E]; simpl.
    + subst k0. destruct (eq_dec k' k); [contradiction | reflexivity].
    + destruct (eq_dec k' k0); [reflexivity | exact IH].
Qed.

Lemma lookup_in_keys (k : K) (d : PyDict.t (V := V)) :
  In k (PyDict.keys d) <-> lookup k d <> None.
Proof.
  unfold PyDict.keys. induction d as [| [k0 v0] d IH]; simpl.
  - split; [intros [] | intros H; apply H; reflexivity].
  - destruct (eq_dec k k0) as [E | E].
    + subst. split; [discriminate | auto].
    + rewrite <- IH. split; [intros [H | H]; [congruence | exact H] | auto].
Qed.

Lemma keys_setitem (k : K) (v : V) (d : PyDict.t) :
  PyDict.keys (setitem k v d) =
  if contains k d then PyDict.keys d else PyDict.keys d ++ [k].
Proof.
  unfold PyDict.keys, PyDict.contains.
  induction d as [| [k0 v0] d IH]; simpl; [reflexivity |].
  destruct (eq_dec k k0) as [E | E]; simpl; [reflexivity |].
  rewrite IH. destruct (lookup k d); reflexivity.
Qed.

Lemma contains_in_keys (k : K) (d : PyDict.t (V := V)) :
  contains k d = true <-> In k (PyDict.keys d).
Proof.
  rewrite lookup_in_keys. unfold PyDict.contains.
  destruct (lookup k d); split; intros H; congruence.
Qed.

Lemma in_keys_setitem (k k' : K) (v : V) (d : PyDict.t) :
  In k' (PyDict.keys (setitem k v d)) <-> k' = k \/ In k' (PyDict.keys d).
Proof.
  rewrite keys_setitem.
  destruct (contains k d) eqn:E.
  - apply contains_in_keys in E. split; [auto |].
    intros [H | H]; [subst; exact E | exact H].
  - rewrite in_app_iff. simpl. split.
    + intros [H | [H | []]]; auto.
    + intros [H | H]; auto.
Qed.

Lemma NoDup_keys_setitem (k : K) (v : V) (d : PyDict.t) :
  NoDup (PyDict.keys d) -> NoDup (PyDict.keys (setitem k v d)).
Proof.
  intros Hd. rewrite keys_setitem.
  destruct (contains k d) eqn:E; [exact Hd |].
  assert (~ In k (PyDict.keys d)) as Hn.
  { intros H. apply contains_in_keys in H. congruence. }
  clear E. induction (PyDict.keys d) as [| x l IH]; simpl.
  - constructor; [intros [] | constructor].
  - inversion Hd; subst. constructor.
    + rewrite in_app_iff. simpl. intros [H | [H | []]]; [contradiction |].
      apply Hn. left. symmetry. exact H.
    + apply IH; [assumption |]. intros H. apply Hn. right. exact H.
Qed.

Lemma setitem_setdefault (k : K) (v v0 : V) (d : PyDict.t) :
  setitem k v (setdefault k v0 d) = setitem k v d.
Proof.
  unfold PyDict.setdefault, PyDict.contains.
  destruct (lookup k d) eqn:E; [reflexivity |].
  induction d as [| [k1 v1] d IH]; simpl in *.
  - destruct (eq_dec k k); [reflexivity | contradiction].
  - destruct (eq_dec k k1); [discriminate |]. simpl.
    destruct (eq_dec k k1); [contradiction |]. rewrite IH; auto.
Qed.

Lemma getitem_setdefault (k : K) (v0 : V) (d : PyDict.t) :
  PyDict.getitem eq_dec k (setdefault k v0 d) = Ok (dict_get (lookup k d) v0).
Proof.
  unfold PyDict.getitem, PyDict.setdefault, PyDict.contains.
  destruct (lookup k d) eqn:E.
  - rewrite E. reflexivity.
  - rewrite lookup_setitem_same. reflexivity.
Qed.

End DictFacts.

(** * The evaluator *)

(** ** One vehicle in one tick *)

Lemma grid_cell_ok (bounds : SE.MapBounds) (cell_size : R) (loc : Location) :
  cell_size <> 0 ->
  SE.grid_cell bounds cell_size loc =
  Ok (py_int ((loc_x loc - SE.min_x bounds) / cell_size),
      py_int ((loc_y loc - SE.min_y bounds) / cell_size)).
Proof.
  intros Hc. unfold SE.grid_cell. rewrite !py_div_ok by exact Hc. reflexivity.
Qed.

(** The body of the loop never raises; it leaves the tracker as its own
    update leaves it, and the grid charged with the tracker's cumulative
    CO2 when the vehicle's part of the tick goes through. *)
Lemma update_vehicle_run (w : World) (snapshot : Snapshot)
    (bounds : SE.MapBounds) (cell_size : R) (vid : Z)
    (m : SM.Tracker) (g : SE.Grid) :
  SE.update_vehicle w snapshot bounds cell_size vid (m, g) =
  (Ok tt,
   (snd (SM.update w snapshot None 0.0 m),
    vehicle_charge w snapshot bounds cell_size g m)).
Proof.
  unfold SE.update_vehicle, vehicle_charge, charged_cell, SE.on_item,
    SE.on_shared.
  unfold_monad. cbn [fst snd].
  destruct (SM.update w snapshot None 0.0 m) as [[[] | e] m']; cbn [fst snd];
    [| reflexivity].
  destruct (get_location (actor w (SM.vehicle m'))) as [loc | e];
    [| reflexivity].
  destruct (SE.grid_cell bounds cell_size loc) as [c | e]; [| reflexivity].
  rewrite getitem_setdefault. cbn [fst snd].
  rewrite setitem_setdefault. reflexivity.
Qed.

Lemma update_vehicle_loop (w : World) (snapshot : Snapshot)
    (bounds : SE.MapBounds) (cell_size : R)
    (items : list (Z * SM.Tracker)) (g : SE.Grid) :
  SE.for_each_item (SE.update_vehicle w snapshot bounds cell_size) items g =
  (Ok tt,
   (map (fun km => (fst km, snd (SM.update w snapshot None 0.0 (snd km))))
        items,
    fold_left
      (fun g km => vehicle_charge w snapshot bounds cell_size g (snd km))
      items g)).
Proof.
  revert g. induction items as [| [vid m] items IH]; intros g; simpl.
  - reflexivity.
  - rewrite update_vehicle_run. rewrite IH. reflexivity.
Qed.

Lemma evaluator_update_run (w : World) (snapshot : Snapshot)
    (ev : SE.Evaluator) :
  SE.update w snapshot ev =
  (Ok tt,
   SE.set_grid
     (fold_left
        (fun g km =>
           vehicle_charge w snapshot (SE.map_bounds ev) (SE.cell_size ev) g
                          (snd km))
        (SE.metrics ev) (SE.grid ev))
     (SE.set_metrics
        (map (fun km => (fst km, snd (SM.update w snapshot None 0.0 (snd km))))
             (SE.metrics ev))
        ev)).
Proof.
  unfold SE.update, PyDict.items. rewrite update_vehicle_loop. reflexivity.
Qed.

Lemma vehicle_charge_raise (w : World) (snapshot : Snapshot)
    (bounds : SE.MapBounds) (cell_size : R) (g : SE.Grid) (m : SM.Tracker)
    (e : exn) :
  fst (SM.update w snapshot None 0.0 m) = Raise e ->
  vehicle_charge w snapshot bounds cell_size g m = g.
Proof.
  intros H. unfold vehicle_charge, charged_cell.
  destruct (SM.update w snapshot None 0.0 m) as [[[] | e'] m'];
    simpl in H; [discriminate | reflexivity].
Qed.

(** C7. [Evaluator.update] never raises.  Every registered tracker is
    left as its own update leaves it, whatever happens to the others; the
    grid is the starting grid charged in turn by every vehicle whose part
    of the tick goes through; a vehicle whose tracker update raises
    charges nothing. *)
Theorem evaluator_update_isolates_failures (w : World) (snapshot : Snapshot)
    (ev : SE.Evaluator) :
  let ev' := snd (SE.update w snapshot ev) in
  fst (SE.update w snapshot ev) = Ok tt /\
  SE.metrics ev' =
    map (fun km => (fst km, snd (SM.update w snapshot None 0.0 (snd km))))
        (SE.metrics ev) /\
  SE.grid ev' =
    fold_left
      (fun g km =>
         vehicle_charge w snapshot (SE.map_bounds ev) (SE.cell_size ev) g
                        (snd km))
      (SE.metrics ev) (SE.grid ev) /\
  (forall (m : SM.Tracker) (g : SE.Grid) (e : exn),
     fst (SM.update w snapshot None 0.0 m) = Raise e ->
     vehicle_charge w snapshot (SE.map_bounds ev) (SE.cell_size ev) g m = g).
Proof.
  intros ev'. unfold ev'. rewrite evaluator_update_run. simpl.
  repeat split. intros m g e. apply vehicle_charge_raise.
Qed.

(** ** The cell of a location *)

Lemma py_int_negative (x : R) : x < 0 -> x <= IZR (py_int x) < x + 1.
Proof.
  intros Hx. unfold py_int. destruct (Rle_dec 0 x); [lra |].
  rewrite opp_IZR. pose proof (base_Int_part (- x)) as [H1 H2]. lra.
Qed.

Lemma py_int_eval (x : R) (z : Z) :
  (0 <= x -> IZR z <= x < IZR z + 1) ->
  (x < 0 -> IZR z - 1 < x <= IZR z) ->
  py_int x = z.
Proof.
  intros Hpos Hneg. unfold py_int. destruct (Rle_dec 0 x) as [H | H].
  - apply Int_part_eq. auto.
  - assert (x < 0) as Hx by lra. specialize (Hneg Hx).
    rewrite (Int_part_eq (- x) (- z)); [lia |].
    rewrite opp_IZR. lra.
Qed.

Lemma west_cell :
  SE.grid_cell default_bounds 50 west_location = Ok (0%Z, 20%Z).
Proof.
  rewrite grid_cell_ok by lra. simpl.
  f_equal. f_equal; apply py_int_eval; intros; lra.
Qed.

Lemma west_floor_cell :
  floor_cell default_bounds 50 west_location = ((-1)%Z, 20%Z).
Proof.
  unfold floor_cell, py_floor. simpl.
  f_equal; apply Int_part_eq; simpl; lra.
Qed.

Lemma update_vehicle_static (w : World) (snapshot : Snapshot)
    (control : option Control) (slope : R) (m : SM.Tracker) :
  SM.vehicle (snd (SM.update w snapshot control slope m)) = SM.vehicle m.
Proof.
  pose proof (update_same_static w snapshot control slope m) as (H & _).
  symmetry. exact H.
Qed.

(** When a vehicle's part of the tick goes through, the cell it charges
    is the cell of its location. *)
Lemma charged_cell_ok (w : World) (snapshot : Snapshot)
    (bounds : SE.MapBounds) (cell_size : R) (m : SM.Tracker)
    (loc : Location) :
  fst (SM.update w snapshot None 0.0 m) = Ok tt ->
  get_location (actor w (SM.vehicle m)) = Ok loc ->
  charged_cell w snapshot bounds cell_size m =
  match SE.grid_cell bounds cell_size loc with
  | Ok c => Some c
  | Raise _ => None
  end.
Proof.
  intros Hu Hl. unfold charged_cell.
  pose proof (update_vehicle_static w snapshot None 0.0 m) as Hv.
  destruct (SM.update w snapshot None 0.0 m) as [[[] | e] m'];
    simpl in *; [| discriminate].
  rewrite Hv, Hl. reflexivity.
Qed.

(** C1 (amended). When a vehicle's tracker update returns, its location is
    read and the cell size is not zero, the loop body of
    [Evaluator.update] charges the cell
    [(int((x - min_x)/cell_size), int((y - min_y)/cell_size))], where
    [int] truncates toward zero: it is the floor of a non-negative
    quotient and the ceiling of a negative one.  The accumulator of that
    cell grows by the tracker's cumulative CO2 after the update (starting
    from 0 for a new cell) and every other cell keeps its value. *)
Theorem grid_charge_cell_and_amount (w : World) (snapshot : Snapshot)
    (bounds : SE.MapBounds) (cell_size : R) (vid : Z) (m : SM.Tracker)
    (g : SE.Grid) (loc : Location) :
  fst (SM.update w snapshot None 0.0 m) = Ok tt ->
  get_location (actor w (SM.vehicle m)) = Ok loc ->
  cell_size <> 0 ->
  let m' := snd (SM.update w snapshot None 0.0 m) in
  let qx := (loc_x loc - SE.min_x bounds) / cell_size in
  let qy := (loc_y loc - SE.min_y bounds) / cell_size in
  let c := (py_int qx, py_int qy) in
  let g' := snd (snd (SE.update_vehicle w snapshot bounds cell_size vid
                        (m, g))) in
  PyDict.lookup SE.cell_eq_dec c g' =
    Some (dict_get (PyDict.lookup SE.cell_eq_dec c g) 0 + SM.co2_g m') /\
  (forall c', c' <> c ->
     PyDict.lookup SE.cell_eq_dec c' g' = PyDict.lookup SE.cell_eq_dec c' g) /\
  (0 <= qx -> py_int qx = py_floor qx) /\
  (0 <= qy -> py_int qy = py_floor qy) /\
  (qx < 0 -> qx <= IZR (py_int qx) < qx + 1) /\
  (qy < 0 -> qy <= IZR (py_int qy) < qy + 1).
Proof.
  intros Hu Hl Hc m' qx qy c g'.
  assert (g' = charge c (SM.co2_g m') g) as Hg.
  { unfold g'. rewrite update_vehicle_run. cbn [snd].
    unfold vehicle_charge.
    rewrite (charged_cell_ok _ _ _ _ _ loc Hu Hl).
    rewrite grid_cell_ok by exact Hc. reflexivity. }
  rewrite Hg. unfold charge.
  split; [| split; [| split; [| split; [| split]]]].
  - rewrite lookup_setitem_same. replace 0.0 with 0 by lra. reflexivity.
  - intros c' Hne. apply lookup_setitem_other. exact Hne.
  - apply py_int_nonneg.
  - apply py_int_nonneg.
  - apply py_int_negative.
  - apply py_int_negative.
Qed.

(** ** A vehicle west of the map origin *)

Lemma west_update_returns :
  fst (SM.update west_world (snapshot_of 1) None 0.0 (sample_tracker_on 7))
  = Ok tt.
Proof.
  eapply update_returns; reflexivity.
Qed.

Lemma west_update_raises :
  fst (SM.update west_world (snapshot_of 1) None 0.0 (sample_tracker_on 8))
  = Raise RuntimeError.
Proof.
  apply update_destroyed; [simpl; lra | reflexivity].
Qed.

Lemma west_charged_cell :
  charged_cell west_world (snapshot_of 1) default_bounds 50
    (sample_tracker_on 7) = Some (0%Z, 20%Z).
Proof.
  rewrite (charged_cell_ok _ _ _ _ _ west_location west_update_returns)
    by reflexivity.
  rewrite west_cell. reflexivity.
Qed.

Lemma west_grid_keys :
  PyDict.keys
    (SE.grid (snd (SE.update west_world (snapshot_of 1) sample_evaluator)))
  = [(0%Z, 20%Z)].
Proof.
  rewrite evaluator_update_run. cbn [snd SE.grid SE.set_grid SE.metrics
    sample_evaluator SE.map_bounds SE.cell_size fold_left].
  rewrite (vehicle_charge_raise _ _ _ _ _ _ _ west_update_raises).
  unfold vehicle_charge. rewrite west_charged_cell. reflexivity.
Qed.

(** C1, counterexample.  A vehicle 25 m west of the origin of the default
    map, with cells of 50 m: the quotient along [x] is -0.5, whose floor
    is -1, but the one cell charged by the tick is (0, 20); the floor
    cell (-1, 20) receives nothing. *)
Lemma grid_cell_floor_counterexample :
  let ev' := snd (SE.update west_world (snapshot_of 1) sample_evaluator) in
  get_location (actor west_world 7) = Ok west_location /\
  fst (SM.update west_world (snapshot_of 1) None 0.0 (sample_tracker_on 7))
    = Ok tt /\
  floor_cell default_bounds 50 west_location = ((-1)%Z, 20%Z) /\
  PyDict.keys (SE.grid ev') = [(0%Z, 20%Z)] /\
  ~ In (floor_cell default_bounds 50 west_location)
       (PyDict.keys (SE.grid ev')).
Proof.
  intros ev'. unfold ev'.
  split; [reflexivity |]. split; [exact west_update_returns |].
  split; [exact west_floor_cell |]. split; [exact west_grid_keys |].
  rewrite west_grid_keys, west_floor_cell.
  intros [H | []]. discriminate H.
Qed.

(** The same vehicle: the cell charged is (0, 20) and holds the tracker's
    cumulative CO2. *)
Lemma grid_charge_cell_and_amount_witness :
  let m' := snd (SM.update west_world (snapshot_of 1) None 0.0
                   (sample_tracker_on 7)) in
  let c := (py_int ((-1025 - -1000) / 50), py_int ((0 - -1000) / 50)) in
  PyDict.lookup SE.cell_eq_dec c
    (snd (snd (SE.update_vehicle west_world (snapshot_of 1) default_bounds
                 50 7 (sample_tracker_on 7, []))))
  = Some (0 + SM.co2_g m').
Proof.
  intros m' c.
  destruct (grid_charge_cell_and_amount west_world (snapshot_of 1)
              default_bounds 50 7 (sample_tracker_on 7) [] west_location)
    as (H & _).
  - exact west_update_returns.
  - reflexivity.
  - lra.
  - exact H.
Defined.

(** Vehicle 8 has been destroyed: the tick still returns, and vehicle 8
    charges nothing. *)
Lemma evaluator_update_isolates_failures_witness :
  fst (SE.update west_world (snapshot_of 1) sample_evaluator) = Ok tt /\
  vehicle_charge west_world (snapshot_of 1) default_bounds 50 []
    (sample_tracker_on 8) = [].
Proof.
  destruct (evaluator_update_isolates_failures west_world (snapshot_of 1)
              sample_evaluator) as (H1 & _ & _ & H4).
  split; [exact H1 |].
  apply (H4 (sample_tracker_on 8) [] RuntimeError).
  exact west_update_raises.
Defined.

(** ** Shutdown *)

Lemma results_total (s : SM.Tracker) : SM.results s = Ok (results_value s).
Proof.
  unfold SM.results. rewrite eco_score_value. reflexivity.
Qed.

Lemma close_returns (s : SM.Tracker) : fst (SM.close s) = Ok tt.
Proof.
  unfold SM.close, SM.on_csv_file, file_close. unfold_monad.
  destruct (closed (SM.csv_file s)); [reflexivity |].
  destruct (faulty (SM.csv_file s)); reflexivity.
Qed.

Lemma close_closes (s : SM.Tracker) :
  closed (SM.csv_file (snd (SM.close s))) = true.
Proof.
  unfold SM.close, SM.on_csv_file, file_close. unfold_monad.
  destruct (closed (SM.csv_file s)) eqn:E; [simpl; destruct s; exact E |].
  destruct (faulty (SM.csv_file s)); reflexivity.
Qed.

Lemma collect_vehicle_run (vid : Z) (m : SM.Tracker)
    (vs : list SM.Results) :
  SE.collect_vehicle vid (m, vs) =
  (Ok tt, (snd (SM.close m), vs ++ [results_value m])).
Proof.
  unfold SE.collect_vehicle, SE.on_item, SE.on_shared. unfold_monad.
  cbn [fst snd]. rewrite results_total. cbn [fst snd].
  pose proof (close_returns m) as H.
  destruct (SM.close m) as [r m']. simpl in H. subst r. reflexivity.
Qed.

Lemma collect_vehicle_loop (items : list (Z * SM.Tracker))
    (vs : list SM.Results) :
  SE.for_each_item SE.collect_vehicle items vs =
  (Ok tt,
   (map (fun km => (fst km, snd (SM.close (snd km)))) items,
    vs ++ map (fun km => results_value (snd km)) items)).
Proof.
  revert vs. induction items as [| [vid m] items IH]; intros vs; simpl.
  - rewrite app_nil_r. reflexivity.
  - rewrite collect_vehicle_run, IH. rewrite <- app_assoc. reflexivity.
Qed.

Lemma finalize_run (w : World) (out_path : option string)
    (ev : SE.Evaluator) (disk : SE.Disk) :
  exists path,
    SE.finalize w out_path (ev, disk) =
    let ev' := SE.set_metrics
                 (map (fun km => (fst km, snd (SM.close (snd km))))
                      (SE.metrics ev)) ev in
    let summary :=
      {| SE.vehicles := map (fun km => results_value (snd km)) (SE.metrics ev);
         SE.grid_entries :=
           map (fun '((i, j), co2) =>
                  {| SE.g_i := i; SE.g_j := j; SE.g_co2_g := co2 |})
               (SE.grid ev) |} in
    if fs_summary_fails w then (Raise OSError, (ev', disk))
    else (Ok tt, (ev', disk ++ [(path, summary)])).
Proof.
  unfold SE.finalize, PyDict.items. rewrite collect_vehicle_loop.
  cbn [app]. unfold SE.write_summary, raise, modify.
  eexists. cbv zeta. cbn [SE.grid SE.set_metrics SE.log_folder].
  destruct (fs_summary_fails w); reflexivity.
Qed.

(** C8. One call of [finalize] closes the log of every registered
    tracker: each tracker is left as its [close] leaves it, which is with
    a closed log, also when closing a log raises (the error is swallowed
    and the loop goes on); capturing the results of a tracker never
    raises; and [finalize] raises exactly when writing the summary
    fails. *)
Theorem finalize_closes_every_log (w : World) (out_path : option string)
    (ev : SE.Evaluator) (disk : SE.Disk) :
  let r := SE.finalize w out_path (ev, disk) in
  let ev' := fst (snd r) in
  SE.metrics ev' =
    map (fun km => (fst km, snd (SM.close (snd km)))) (SE.metrics ev) /\
  forallb log_closed (SE.metrics ev') = true /\
  List.length (SE.metrics ev') = List.length (SE.metrics ev) /\
  forallb (fun km => is_ok (SM.results (snd km))) (SE.metrics ev) = true /\
  fst r = (if fs_summary_fails w then Raise OSError else Ok tt).
Proof.
  intros r ev'. unfold ev', r.
  destruct (finalize_run w out_path ev disk) as (path & ->). cbv zeta.
  assert (forallb log_closed
            (map (fun km => (fst km, snd (SM.close (snd km)))) (SE.metrics ev))
          = true) as Hclosed.
  { apply forallb_forall. intros km Hin. apply in_map_iff in Hin.
    destruct Hin as (km0 & <- & _). unfold log_closed. simpl.
    apply close_closes. }
  assert (forallb (fun km => is_ok (SM.results (snd km))) (SE.metrics ev)
          = true) as Hres.
  { apply forallb_forall. intros km _. rewrite results_total. reflexivity. }
  destruct (fs_summary_fails w); cbn [fst snd SE.metrics SE.set_metrics];
    rewrite length_map; auto.
Qed.

Lemma file_close_faulty_raises (rs : list (list cell)) :
  fst (file_close {| closed := false; faulty := true; rows := rs |})
  = Raise OSError.
Proof. reflexivity. Qed.

(** ** The cells of the summary *)

Lemma keys_vehicle_charge (w : World) (snapshot : Snapshot)
    (bounds : SE.MapBounds) (cell_size : R) (g : SE.Grid) (m : SM.Tracker)
    (c : Z * Z) :
  In c (PyDict.keys (vehicle_charge w snapshot bounds cell_size g m)) <->
  In c (PyDict.keys g) \/
  In c (match charged_cell w snapshot bounds cell_size m with
        | Some c0 => [c0]
        | None => []
        end).
Proof.
  unfold vehicle_charge.
  destruct (charged_cell w snapshot bounds cell_size m) as [c0 |].
  - unfold charge. rewrite in_keys_setitem. simpl.
    split; [intros [H | H] | intros [H | [H | []]]]; auto.
  - simpl. split; [auto | intros [H | []]; exact H].
Qed.

Lemma NoDup_vehicle_charge (w : World) (snapshot : Snapshot)
    (bounds : SE.MapBounds) (cell_size : R) (g : SE.Grid) (m : SM.Tracker) :
  NoDup (PyDict.keys g) ->
  NoDup (PyDict.keys (vehicle_charge w snapshot bounds cell_size g m)).
Proof.
  intros H. unfold vehicle_charge.
  destruct (charged_cell w snapshot bounds cell_size m);
    [apply NoDup_keys_setitem |]; exact H.
Qed.

Lemma keys_fold_charge (w : World) (snapshot : Snapshot)
    (bounds : SE.MapBounds) (cell_size : R)
    (items : list (Z * SM.Tracker)) (g : SE.Grid) (c : Z * Z) :
  In c (PyDict.keys
          (fold_left
             (fun g km => vehicle_charge w snapshot bounds cell_size g (snd km))
             items g)) <->
  In c (PyDict.keys g) \/
  In c (flat_map
          (fun km =>
             match charged_cell w snapshot bounds cell_size (snd km) with
             | Some c0 => [c0]
             | None => []
             end) items).
Proof.
  revert g. induction items as [| km items IH]; intros g; simpl.
  - split; [auto | intros [H | []]; exact H].
  - rewrite IH, keys_vehicle_charge, in_app_iff. tauto.
Qed.

Lemma NoDup_fold_charge (w : World) (snapshot : Snapshot)
    (bounds : SE.MapBounds) (cell_size : R)
    (items : list (Z * SM.Tracker)) (g : SE.Grid) :
  NoDup (PyDict.keys g) ->
  NoDup (PyDict.keys
           (fold_left
              (fun g km =>
                 vehicle_charge w snapshot bounds cell_size g (snd km))
              items g)).
Proof.
  revert g. induction items as [| km items IH]; intros g H; simpl.
  - exact H.
  - apply IH. apply NoDup_vehicle_charge. exact H.
Qed.

Lemma register_vehicle_grid (w : World) (vehicle : Z)
    (veh_params : option SM.VehParams) (ev : SE.Evaluator) :
  SE.grid (snd (SE.register_vehicle w vehicle veh_params ev)) = SE.grid ev.
Proof.
  unfold SE.register_vehicle. unfold_monad.
  destruct (PyDict.contains Z.eq_dec vehicle (SE.metrics ev)); [reflexivity |].
  destruct (SM.__init__ _ _ _ _ _ _); reflexivity.
Qed.

Lemma keys_apply_event (e : Event) (ev : SE.Evaluator) (c : Z * Z) :
  In c (PyDict.keys (SE.grid (apply_event e ev))) <->
  In c (PyDict.keys (SE.grid ev)) \/ In c (event_cells e ev).
Proof.
  destruct e as [w vehicle veh_params | w snapshot]; simpl.
  - rewrite register_vehicle_grid. split; [auto | intros [H | []]; exact H].
  - rewrite evaluator_update_run. cbn [snd SE.grid SE.set_grid].
    apply keys_fold_charge.
Qed.

Lemma NoDup_apply_event (e : Event) (ev : SE.Evaluator) :
  NoDup (PyDict.keys (SE.grid ev)) ->
  NoDup (PyDict.keys (SE.grid (apply_event e ev))).
Proof.
  intros H. destruct e as [w vehicle veh_params | w snapshot]; simpl.
  - rewrite register_vehicle_grid. exact H.
  - rewrite evaluator_update_run. cbn [snd SE.grid SE.set_grid].
    apply NoDup_fold_charge. exact H.
Qed.

Lemma keys_run_events (es : list Event) (ev : SE.Evaluator) (c : Z * Z) :
  In c (PyDict.keys (SE.grid (run_events es ev))) <->
  In c (PyDict.keys (SE.grid ev)) \/ In c (contributed_cells es ev).
Proof.
  revert ev. induction es as [| e es IH]; intros ev; simpl.
  - split; [auto | intros [H | []]; exact H].
  - unfold run_events in *. rewrite IH, keys_apply_event, in_app_iff. tauto.
Qed.

Lemma NoDup_run_events (es : list Event) (ev : SE.Evaluator) :
  NoDup (PyDict.keys (SE.grid ev)) ->
  NoDup (PyDict.keys (SE.grid (run_events es ev))).
Proof.
  revert ev. induction es as [| e es IH]; intros ev H; simpl.
  - exact H.
  - apply IH. apply NoDup_apply_event. exact H.
Qed.

Lemma init_grid_empty (w : World) (map_bounds : option SE.MapBounds)
    (cell_size_m : R) (log_folder : string) (config : option SE.Config)
    (ev : SE.Evaluator) :
  SE.__init__ w map_bounds cell_size_m log_folder config = Ok ev ->
  SE.grid ev = [].
Proof.
  unfold SE.__init__. destruct (fs_makedirs_fails w); [discriminate |].
  intros H. inversion H. reflexivity.
Qed.

Lemma entry_cells_keys (g : SE.Grid) :
  map entry_cell
    (map (fun '((i, j), co2) =>
            {| SE.g_i := i; SE.g_j := j; SE.g_co2_g := co2 |}) g)
  = PyDict.keys g.
Proof.
  unfold PyDict.keys. rewrite map_map. apply map_ext.
  intros [[i j] co2]. reflexivity.
Qed.

(** C9. For an evaluator taken from construction through any sequence of
    registrations and updates, the summary that [finalize] writes lists
    each grid cell once, and a cell is listed exactly when some vehicle's
    part of some update went through and charged it: a cell that no
    update charged is absent. *)
Theorem summary_grid_cells (w0 : World) (map_bounds : option SE.MapBounds)
    (cell_size_m : R) (log_folder : string) (config : option SE.Config)
    (ev0 : SE.Evaluator) (es : list Event)
    (w : World) (out_path : option string) (disk : SE.Disk) :
  SE.__init__ w0 map_bounds cell_size_m log_folder config = Ok ev0 ->
  fs_summary_fails w = false ->
  exists path summary,
    SE.finalize w out_path (run_events es ev0, disk) =
      (Ok tt,
       (fst (snd (SE.finalize w out_path (run_events es ev0, disk))),
        disk ++ [(path, summary)])) /\
    NoDup (map entry_cell (SE.grid_entries summary)) /\
    forall c,
      In c (map entry_cell (SE.grid_entries summary)) <->
      In c (contributed_cells es ev0).
Proof.
  intros Hinit Hw.
  destruct (finalize_run w out_path (run_events es ev0) disk) as (path & Hf).
  rewrite Hw in Hf. cbv zeta in Hf.
  eexists. eexists. split; [| split].
  - rewrite Hf. cbn [fst snd]. reflexivity.
  - cbn [SE.grid_entries]. rewrite entry_cells_keys.
    apply NoDup_run_events. rewrite (init_grid_empty _ _ _ _ _ _ Hinit).
    constructor.
  - intros c. cbn [SE.grid_entries]. rewrite entry_cells_keys.
    rewrite keys_run_events. rewrite (init_grid_empty _ _ _ _ _ _ Hinit).
    simpl. tauto.
Qed.

Lemma fresh_evaluator_init :
  SE.__init__ west_world None 50 "cache/sustainability_logs" None
  = Ok fresh_evaluator.
Proof. reflexivity. Qed.

(** The run in which vehicles 7 and 8 are registered and one tick
    passes. *)
Lemma summary_grid_cells_witness :
  exists path summary,
    SE.finalize west_world None (run_events west_run fresh_evaluator, []) =
      (Ok tt,
       (fst (snd (SE.finalize west_world None
                    (run_events west_run fresh_evaluator, []))),
        [] ++ [(path, summary)])) /\
    NoDup (map entry_cell (SE.grid_entries summary)) /\
    forall c,
      In c (map entry_cell (SE.grid_entries summary)) <->
      In c (contributed_cells west_run fresh_evaluator).
Proof.
  apply (summary_grid_cells west_world None 50 "cache/sustainability_logs"
           None fresh_evaluator west_run west_world None []).
  - exact fresh_evaluator_init.
  - reflexivity.
Defined.

(** In a tick of the sample evaluator, vehicle 7 charges cell (0, 20) and
    the destroyed vehicle 8 charges nothing. *)
Lemma sample_tick_cells :
  event_cells (Update west_world (snapshot_of 1)) sample_evaluator
  = [(0%Z, 20%Z)].
Proof.
  unfold event_cells. cbn [SE.metrics sample_evaluator flat_map snd
    SE.map_bounds SE.cell_size].
  rewrite west_charged_cell. unfold charged_cell.
  pose proof west_update_raises as H.
  destruct (SM.update west_world (snapshot_of 1) None 0.0
              (sample_tracker_on 8)) as [[[] | e] m'];
    simpl in H; [discriminate | reflexivity].
Qed.

(** * Further properties of utils.py *)



(** * Further properties of the power and emission models *)

(** X17. With a drivetrain efficiency in (0, 1], the losses go the right
    way: a non-negative force-balance power [P] is drawn as at least [P],
    and a negative [P] is recovered as a negative power no larger in
    size than [P].  At zero speed the power is zero whatever the slope,
    the acceleration and the efficiency. *)
Theorem compute_power_losses (self : SM.Tracker) (speed accel slope p : R) :
  SM.compute_power self speed accel slope = Ok p ->
  let P := force_balance_power self speed accel slope in
  (0 < SM.drivetrain_eff self <= 1 ->
   (0 <= P -> P <= p) /\ (P < 0 -> P <= p < 0)) /\
  (speed = 0 -> p = 0).
Proof.
  intros Hp P. rewrite compute_power_value in Hp. fold P in Hp.
  split.
  - intros [He1 He2].
    destruct (Rge_dec P 0) as [Hge | Hlt]; inversion Hp; subst p; clear Hp.
    + split; [| lra]. intros _.
      pose proof (eff_floor_pos (SM.drivetrain_eff self)) as Hlo.
      assert (Rmax (SM.drivetrain_eff self) 1e-6 <= 1) as Hhi
        by (apply Rmax_lub; lra).
      set (D := Rmax (SM.drivetrain_eff self) 1e-6) in *.
      apply Rmult_le_reg_r with (r := D); [lra |].
      unfold Rdiv. rewrite Rmult_assoc, Rinv_l by lra. nra.
    + split; [lra |]. intros _. nra.
  - intros Hs.
    assert (P = 0) as HP by (unfold P, force_balance_power; rewrite Hs; ring).
    rewrite HP in Hp.
    destruct (Rge_dec 0 0); inversion Hp; unfold Rdiv; ring.
Qed.

(** The sample car at 20 m/s: the force balance gives 6177 W, and
    6177/0.9 W are drawn. *)
Lemma compute_power_losses_witness :
  force_balance_power sample_tracker 20 0 0 <= 6177 / 0.9.
Proof.
  destruct (compute_power_losses sample_tracker 20 0 0 (6177 / 0.9)
              sample_power_cruising) as [H _].
  destruct H as [Hpos _]; [simpl; lra |].
  apply Hpos. unfold force_balance_power. simpl. lra.
Defined.



(** * Further properties of the tracker update *)

Lemma record_jerk_run (accel dt : R) (s : SM.Tracker) :
  dt <> 0 ->
  SM.record_jerk accel dt s =
  (Ok ((accel - SM.last_accel s) / dt), after_jerk accel dt s).
Proof.
  intros Hdt. unfold SM.record_jerk, after_jerk. unfold_monad.
  rewrite py_div_ok by exact Hdt. reflexivity.
Qed.

Lemma eco_counters_run (speed accel dt : R) (control : option Control)
    (s : SM.Tracker) :
  SM.eco_counters speed accel dt control s =
  (Ok tt, after_counters speed accel dt control s).
Proof.
  unfold SM.eco_counters, after_counters, idle_condition. unfold_monad.
  destruct (Rlt_dec 2.0 accel), (Rlt_dec accel (- 2.5));
    cbv zeta; cbn [fst snd];
    destruct (float_lt speed 0.3 && _); reflexivity.
Qed.

(** A tick with positive [dt] whose kinematics are read comes down to the
    logging block, run from [before_logging]. *)
Lemma update_before_logging (w : World) (snapshot : Snapshot)
    (control : option Control) (slope : R) (s : SM.Tracker)
    (speed accel p : R) :
  0 < delta_seconds (timestamp snapshot) ->
  fst (SM.read_kinematics w s) = Ok (speed, accel) ->
  SM.compute_power s speed accel slope = Ok p ->
  let dt := delta_seconds (timestamp snapshot) in
  SM.update w snapshot control slope s =
  SM.csv_logging w snapshot speed accel ((accel - SM.last_accel s) / dt) p dt
    (before_logging speed accel dt p control s).
Proof.
  intros Hdt Hk Hp dt.
  assert (SM.read_kinematics w s = (Ok (speed, accel), s)) as Hrun.
  { pose proof (read_kinematics_state w s) as Hs.
    destruct (SM.read_kinematics w s) as [r s0]. simpl in *. congruence. }
  unfold SM.update. cbv zeta. fold dt.
  destruct (Rle_dec dt 0); [unfold dt in *; lra |].
  rewrite (bind_run _ _ _ _ _ Hrun). cbv beta iota.
  set (s1 := SM.set_distance_m (SM.distance_m s + speed * dt) s).
  rewrite (bind_run _ _ s s1 tt) by reflexivity.
  assert (SM.compute_power s1 speed accel slope = Ok p) as Hp1 by exact Hp.
  rewrite (bind_run _ _ s1 _ p (integrate_energy_run _ _ _ dt _ _ Hp1)).
  assert (dt <> 0) as Hne by (unfold dt in *; lra).
  rewrite (bind_run _ _ _ _ _ (record_jerk_run accel dt _ Hne)).
  rewrite (bind_run _ _ _ _ _ (eco_counters_run speed accel dt control _)).
  unfold before_logging, after_energy. cbv zeta. fold s1.
  destruct (Rlt_dec 0 p); reflexivity.
Qed.

Lemma same_but_log_refl (s : SM.Tracker) : same_but_log s s.
Proof. reflexivity. Qed.

Lemma same_but_log_trans (a b c : SM.Tracker) :
  same_but_log a b -> same_but_log b c -> same_but_log a c.
Proof. unfold same_but_log. congruence. Qed.

#[local] Hint Resolve same_but_log_refl same_but_log_trans : tracker.

Lemma csv_logging_same_but_log (w : World) (snapshot : Snapshot)
    (speed accel jerk power_w dt : R) :
  preserves same_but_log
    (SM.csv_logging w snapshot speed accel jerk power_w dt).
Proof.
  unfold SM.csv_logging. preserves_struct; reflexivity.
Qed.

(** The accumulators and the jerk state after such a tick are those of
    [before_logging], whatever the logging block does. *)
Lemma update_same_but_log (w : World) (snapshot : Snapshot)
    (control : option Control) (slope : R) (s : SM.Tracker)
    (speed accel p : R) :
  0 < delta_seconds (timestamp snapshot) ->
  fst (SM.read_kinematics w s) = Ok (speed, accel) ->
  SM.compute_power s speed accel slope = Ok p ->
  same_but_log
    (before_logging speed accel (delta_seconds (timestamp snapshot)) p
                    control s)
    (snd (SM.update w snapshot control slope s)).
Proof.
  intros Hdt Hk Hp.
  rewrite (update_before_logging w snapshot control slope s speed accel p
             Hdt Hk Hp).
  apply csv_logging_same_but_log.
Qed.

Lemma same_but_log_fields (a b : SM.Tracker) :
  same_but_log a b ->
  SM.distance_m b = SM.distance_m a /\
  SM.energy_j b = SM.energy_j a /\
  SM.regen_j b = SM.regen_j a /\
  SM.co2_g b = SM.co2_g a /\
  SM.jerk_samples b = SM.jerk_samples a /\
  SM.last_accel b = SM.last_accel a /\
  SM.harsh_accel b = SM.harsh_accel a /\
  SM.harsh_brake b = SM.harsh_brake a /\
  SM.idle_time_s b = SM.idle_time_s a /\
  SM.vehicle b = SM.vehicle a.
Proof.
  unfold same_but_log. intros H.
  repeat split;
    [ apply (f_equal SM.distance_m) in H | apply (f_equal SM.energy_j) in H
    | apply (f_equal SM.regen_j) in H | apply (f_equal SM.co2_g) in H
    | apply (f_equal SM.jerk_samples) in H
    | apply (f_equal SM.last_accel) in H
    | apply (f_equal SM.harsh_accel) in H
    | apply (f_equal SM.harsh_brake) in H
    | apply (f_equal SM.idle_time_s) in H
    | apply (f_equal SM.vehicle) in H ];
    exact H.
Qed.

(** X6. After a tick with positive [dt] whose kinematics are read as
    [(speed, accel)], also when the logging that follows raises: the
    distance has grown by [speed*dt]; the jerk history has grown by the
    one sample [(accel - last_accel)/dt] and [last_accel] is [accel]; the
    harsh-acceleration count has grown by one exactly when [accel > 2.0]
    and the harsh-braking count by one exactly when [accel < -2.5], never
    both in one tick; the idle time has grown by [dt] exactly when
    [speed < 0.3] and there is no control or its throttle (0 when
    missing) is below 0.1. *)
Theorem update_tick_effects (w : World) (snapshot : Snapshot)
    (control : option Control) (slope : R) (s : SM.Tracker)
    (speed accel : R) :
  0 < delta_seconds (timestamp snapshot) ->
  fst (SM.read_kinematics w s) = Ok (speed, accel) ->
  let dt := delta_seconds (timestamp snapshot) in
  let s' := snd (SM.update w snapshot control slope s) in
  SM.distance_m s' = SM.distance_m s + speed * dt /\
  SM.jerk_samples s' =
    SM.jerk_samples s ++ [(accel - SM.last_accel s) / dt] /\
  SM.last_accel s' = accel /\
  SM.harsh_accel s' =
    (SM.harsh_accel s + (if Rlt_dec 2 accel then 1 else 0))%Z /\
  SM.harsh_brake s' =
    (SM.harsh_brake s + (if Rlt_dec accel (- 2.5) then 1 else 0))%Z /\
  (SM.harsh_accel s' + SM.harsh_brake s'
   <= SM.harsh_accel s + SM.harsh_brake s + 1)%Z /\
  SM.idle_time_s s' =
    SM.idle_time_s s + (if idle_condition speed control then dt else 0).
Proof.
  intros Hdt Hk dt s'.
  destruct (SM.compute_power s speed accel slope) as [p | e] eqn:Hp;
    [| rewrite compute_power_value in Hp; discriminate].
  pose proof (update_same_but_log w snapshot control slope s speed accel p
                Hdt Hk Hp) as H.
  apply same_but_log_fields in H. fold dt in H. fold s' in H.
  destruct H as (Hd & _ & _ & _ & Hj & Hl & Ha & Hb & Hi & _).
  rewrite Hd, Hj, Hl, Ha, Hb, Hi. clear Hd Hj Hl Ha Hb Hi.
  unfold before_logging, after_counters, after_jerk, after_energy.
  cbv zeta.
  replace 2.0 with 2 by lra.
  destruct (Rlt_dec 2 accel), (Rlt_dec accel (- 2.5)),
    (idle_condition speed control), (Rlt_dec 0 p);
    cbn; repeat split; try lra; try lia.
Qed.

(** Braking at 3 m/s2 from 20 m/s, after a tick without acceleration:
    one harsh-braking event, no harsh acceleration, jerk -3 over one
    second. *)
Lemma update_tick_effects_witness :
  let braking := fun _ : Z =>
    {| get_velocity := Ok {| vx := 20; vy := 0; vz := 0 |};
       get_acceleration := Ok {| vx := -3; vy := 0; vz := 0 |};
       get_location := Ok {| loc_x := 0; loc_y := 0; loc_z := 0 |};
       get_physics_control := Ok {| phys_mass := 1500 |} |} in
  let s' := snd (SM.update (world_of braking) (snapshot_of 1) None 0
                   sample_tracker) in
  SM.jerk_samples s' = [1; -1] ++ [(-3 - 0) / 1] /\
  SM.harsh_brake s' = 3%Z /\ SM.harsh_accel s' = 1%Z.
Proof.
  intros braking s'.
  destruct (update_tick_effects (world_of braking) (snapshot_of 1) None 0
              sample_tracker 20 (-3))
    as (_ & Hj & _ & Ha & Hb & _).
  - simpl. lra.
  - unfold SM.read_kinematics. unfold_monad.
    cbn [actor world_of braking get_velocity get_acceleration vx vy vz
         SM.vehicle sample_tracker sample_tracker_on].
    rewrite norm_along_x by lra.
    destruct (Rlt_dec 0.1 20); [| lra].
    rewrite py_div_ok by lra. cbn [fst]. f_equal. f_equal. field.
  - fold s' in Hj, Ha, Hb. split; [exact Hj |].
    rewrite Ha, Hb.
    destruct (Rlt_dec 2 (-3)); [lra |].
    destruct (Rlt_dec (-3) (- 2.5)); [| lra].
    split; reflexivity.
Defined.

(** ** A vehicle standing still *)

Lemma standing_kinematics (w : World) (s : SM.Tracker) (acc : Vector3D) :
  get_velocity (actor w (SM.vehicle s)) = Ok {| vx := 0; vy := 0; vz := 0 |} ->
  get_acceleration (actor w (SM.vehicle s)) = Ok acc ->
  fst (SM.read_kinematics w s) = Ok (0, 0).
Proof.
  intros Hv Ha. unfold SM.read_kinematics. unfold_monad.
  rewrite Hv, Ha. cbn [vx vy vz]. rewrite norm_along_x by lra.
  destruct (Rlt_dec 0.1 0); [lra |]. cbn [fst]. f_equal. f_equal. lra.
Qed.

Lemma compute_power_standstill (s : SM.Tracker) (accel slope : R) :
  SM.compute_power s 0 accel slope = Ok 0.
Proof.
  rewrite compute_power_value.
  assert (force_balance_power s 0 accel slope = 0) as ->
    by (unfold force_balance_power; ring).
  destruct (Rge_dec 0 0); f_equal; unfold Rdiv; ring.
Qed.

Lemma standing_step (k : Tick) (s : SM.Tracker) :
  standing_tick (SM.vehicle s) k ->
  SM.idle_time_s (step k s) = SM.idle_time_s s + effective_dt k /\
  SM.energy_j (step k s) = SM.energy_j s /\
  SM.co2_g (step k s) = SM.co2_g s /\
  SM.regen_j (step k s) = SM.regen_j s /\
  SM.distance_m (step k s) = SM.distance_m s /\
  SM.vehicle (step k s) = SM.vehicle s.
Proof.
  intros (Hv & Ha & Hc). unfold step, effective_dt. rewrite Hc.
  destruct (Rle_dec (delta_seconds (timestamp (tick_snapshot k))) 0)
    as [Hdt | Hdt].
  - unfold SM.update. cbv zeta.
    destruct (Rle_dec _ 0); [| contradiction].
    rewrite Rmax_right by exact Hdt. cbn [snd ret].
    repeat split; lra.
  - assert (0 < delta_seconds (timestamp (tick_snapshot k))) as Hpos by lra.
    destruct (get_acceleration (actor (tick_world k) (SM.vehicle s)))
      as [acc | e] eqn:Hacc; [| discriminate].
    pose proof (standing_kinematics _ _ _ Hv Hacc) as Hk.
    pose proof (update_same_but_log (tick_world k) (tick_snapshot k) None
                  (tick_slope k) s 0 0 0 Hpos Hk
                  (compute_power_standstill s 0 (tick_slope k))) as H.
    apply same_but_log_fields in H.
    destruct H as (Hd & He & Hr & Hco & _ & _ & _ & _ & Hi & Hveh).
    rewrite Hd, He, Hr, Hco, Hi, Hveh.
    rewrite Rmax_left by lra.
    unfold before_logging, after_counters, after_jerk, after_energy,
      idle_condition, float_lt.
    cbv zeta.
    destruct (Rlt_dec 0 0); [lra |].
    destruct (Rlt_dec 2.0 0); [lra |].
    destruct (Rlt_dec 0 (- 2.5)); [lra |].
    destruct (Rlt_dec 0 0.3); [| lra].
    cbn. rewrite Rabs_R0. repeat split; lra.
Qed.



(** ** Emission follows energy *)

Lemma emission_tracks_energy_refl (s : SM.Tracker) :
  emission_tracks_energy s s.
Proof. unfold emission_tracks_energy. split; [reflexivity | lra]. Qed.

Lemma emission_tracks_energy_trans (a b c : SM.Tracker) :
  emission_tracks_energy a b -> emission_tracks_energy b c ->
  emission_tracks_energy a c.
Proof.
  unfold emission_tracks_energy. intros [H1 H2] [H3 H4].
  split; [congruence |]. rewrite H1 in H4. lra.
Qed.

#[local] Hint Resolve emission_tracks_energy_refl emission_tracks_energy_trans
  : tracker.

Lemma integrate_energy_tracks (speed accel slope dt : R) :
  preserves emission_tracks_energy
    (SM.integrate_energy speed accel slope dt).
Proof.
  intros s.
  destruct (SM.compute_power s speed accel slope) as [p | e] eqn:Hp;
    [| rewrite compute_power_value in Hp; discriminate].
  rewrite (integrate_energy_run _ _ _ dt _ _ Hp). cbn [snd].
  unfold emission_tracks_energy, emission_factor,
    SM.estimate_ev_co2, SM.estimate_fuel_co2.
  destruct (Rlt_dec 0 p); [| cbn; split; [reflexivity | lra]].
  destruct (Rle_dec p 0); [lra |].
  destruct (SM.is_ev s) eqn:E; cbn; rewrite ?E; split; try reflexivity; lra.
Qed.

Lemma update_tracks (w : World) (snapshot : Snapshot)
    (control : option Control) (slope : R) :
  preserves emission_tracks_energy (SM.update w snapshot control slope).
Proof.
  unfold SM.update, SM.read_kinematics, SM.integrate_distance,
    SM.record_jerk, SM.eco_counters, SM.csv_logging.
  cbv zeta.
  preserves_struct;
    try apply integrate_energy_tracks;
    unfold emission_tracks_energy; cbn; split; try reflexivity; lra.
Qed.

Lemma run_updates_tracks (ks : list Tick) (s : SM.Tracker) :
  emission_tracks_energy s (run_updates ks s).
Proof.
  revert s. induction ks as [| k ks IH]; intros s; simpl.
  - apply emission_tracks_energy_refl.
  - eapply emission_tracks_energy_trans; [| apply IH].
    unfold step. apply update_tracks.
Qed.

(** * Further properties of the tracker's construction *)

(** What a constructor that returns has built. *)
Lemma init_shape (w : World) (vehicle : Z) (vehicle_id : option Z)
    (veh_params : option SM.VehParams) (model_type : string) (sample_hz : R)
    (s : SM.Tracker) :
  SM.__init__ w vehicle vehicle_id veh_params model_type sample_hz = Ok s ->
  SM.energy_j s = 0 /\ SM.regen_j s = 0 /\ SM.co2_g s = 0 /\
  SM.distance_m s = 0 /\ SM.harsh_accel s = 0%Z /\ SM.harsh_brake s = 0%Z /\
  SM.idle_time_s s = 0 /\ SM.jerk_samples s = [] /\ SM.last_accel s = 0 /\
  SM._accum_dt s = 0 /\
  SM.csv_file s = {| closed := false; faulty := false; rows := [header_row] |} /\
  SM.vehicle s = vehicle /\ SM.sample_hz s = sample_hz.
Proof.
  unfold SM.__init__, file_open, file_writerow. cbv zeta.
  destruct (fs_makedirs_fails w); [discriminate |].
  destruct (fs_open_fails w _); [discriminate |].
  cbn [closed faulty rows].
  destruct (fs_faulty w _) eqn:Hf; [discriminate |].
  intros H. inversion H; subst; clear H. cbn.
  repeat split; lra.
Qed.

(** X4. A tracker that has just been constructed has all its accumulators
    at zero and an empty jerk history, its log is open and holds exactly
    the header row of twelve columns, and its eco score is 100. *)
Theorem new_tracker_is_blank (w : World) (vehicle : Z)
    (vehicle_id : option Z) (veh_params : option SM.VehParams)
    (model_type : string) (sample_hz : R) (s : SM.Tracker) :
  SM.__init__ w vehicle vehicle_id veh_params model_type sample_hz = Ok s ->
  (SM.energy_j s = 0 /\ SM.regen_j s = 0 /\ SM.co2_g s = 0 /\
   SM.distance_m s = 0 /\ SM.idle_time_s s = 0 /\
   SM.harsh_accel s = 0%Z /\ SM.harsh_brake s = 0%Z /\
   SM.jerk_samples s = []) /\
  (closed (SM.csv_file s) = false /\
   rows (SM.csv_file s) = [header_row] /\
   List.length header_row = 12%nat) /\
  SM.compute_eco_score s = Ok 100.
Proof.
  intros H. apply init_shape in H.
  destruct H as (He & Hr & Hc & Hd & Ha & Hb & Hi & Hj & _ & _ & Hf & _).
  split; [repeat split; assumption |].
  split; [rewrite Hf; repeat split |].
  rewrite eco_score_value. f_equal. unfold spec_eco_score.
  rewrite Hj, Ha, Hb, Hi, Hd. simpl population_stddev.
  rewrite (Rmax_right (0 / 1000) 0.1) by lra.
  rewrite Rmax_right by lra. lra.
Qed.

Lemma new_tracker_is_blank_witness :
  exists s,
    SM.__init__ west_world 7 (Some 7%Z) None "auto" 5 = Ok s /\
    SM.compute_eco_score s = Ok 100 /\
    rows (SM.csv_file s) = [header_row].
Proof.
  eexists. split; [reflexivity |].
  edestruct (new_tracker_is_blank west_world 7 (Some 7%Z) None "auto" 5)
    as (_ & (_ & Hrows & _) & Hscore); [reflexivity |].
  split; [exact Hscore | exact Hrows].
Defined.

(** X5. How the constructor settles the mass and the powertrain class: a
    mass given in [veh_params] wins; without one, the mass the vehicle
    reports is taken, and 1500 kg when that query raises.  A model type
    of "ev" or "ice" decides the class; any other model type leaves it to
    [veh_params], combustion by default. *)
Theorem init_mass_and_powertrain (w : World) (vehicle : Z)
    (vehicle_id : option Z) (veh_params : option SM.VehParams)
    (model_type : string) (sample_hz : R) (s : SM.Tracker) :
  SM.__init__ w vehicle vehicle_id veh_params model_type sample_hz = Ok s ->
  let params := dict_get veh_params SM.no_params in
  SM.mass s =
    match SM.p_mass params, get_physics_control (actor w vehicle) with
    | Some m, _ => m
    | None, Ok phys => phys_mass phys
    | None, Raise _ => 1500
    end /\
  SM.is_ev s =
    (if String.eqb model_type "ev" then true
     else if String.eqb model_type "ice" then false
     else dict_get (SM.p_is_ev params) false).
Proof.
  unfold SM.__init__, file_open, file_writerow. cbv zeta.
  destruct (fs_makedirs_fails w); [discriminate |].
  destruct (fs_open_fails w _); [discriminate |].
  cbn [closed faulty rows].
  destruct (fs_faulty w _); [discriminate |].
  intros H. inversion H; subst; clear H. cbn [SM.mass SM.is_ev].
  split; [| reflexivity].
  destruct (SM.p_mass (dict_get veh_params SM.no_params)) as [m |];
    [reflexivity |].
  destruct (get_physics_control (actor w vehicle)); cbn; [reflexivity | lra].
Qed.

(** Vehicle 8 has been destroyed, so its mass cannot be queried: the
    tracker built for it weighs 1500 kg and is a combustion car. *)
Lemma init_mass_and_powertrain_witness :
  exists s,
    SM.__init__ west_world 8 (Some 8%Z) None "auto" 5 = Ok s /\
    SM.mass s = 1500 /\ SM.is_ev s = false.
Proof.
  eexists. split; [reflexivity |].
  edestruct (init_mass_and_powertrain west_world 8 (Some 8%Z) None "auto" 5)
    as (Hm & Hev); [reflexivity |].
  split; [exact Hm | exact Hev].
Defined.



(** * Further properties of the sampled logging *)

Lemma before_logging_log_fields (speed accel dt p : R)
    (control : option Control) (s : SM.Tracker) :
  SM._accum_dt (before_logging speed accel dt p control s) = SM._accum_dt s /\
  SM.csv_file (before_logging speed accel dt p control s) = SM.csv_file s /\
  SM.vehicle (before_logging speed accel dt p control s) = SM.vehicle s /\
  SM.sample_hz (before_logging speed accel dt p control s) = SM.sample_hz s.
Proof.
  unfold before_logging, after_counters, after_jerk, after_energy.
  cbv zeta.
  destruct (Rlt_dec 2.0 accel), (Rlt_dec accel (- 2.5)),
    (idle_condition speed control), (Rlt_dec 0 p); repeat split.
Qed.

Lemma row_due_cases (s : SM.Tracker) (dt : R) :
  (row_due s dt = true /\
   SM._accum_dt s + dt >= 1.0 / Rmax 1 (SM.sample_hz s)) \/
  (row_due s dt = false /\
   ~ SM._accum_dt s + dt >= 1.0 / Rmax 1 (SM.sample_hz s)).
Proof.
  unfold row_due. destruct (Rge_dec _ _); [left | right]; auto.
Qed.

(** The logging block on a log that can be written to. *)
Lemma csv_logging_writable (w : World) (snapshot : Snapshot)
    (speed accel jerk power_w dt : R) (loc : Location) (s : SM.Tracker) :
  get_location (actor w (SM.vehicle s)) = Ok loc ->
  closed (SM.csv_file s) = false ->
  faulty (SM.csv_file s) = false ->
  let r := SM.csv_logging w snapshot speed accel jerk power_w dt s in
  fst r = Ok tt /\
  (if row_due s dt
   then rows (SM.csv_file (snd r)) =
          rows (SM.csv_file s)
          ++ [log_row snapshot loc speed accel jerk power_w
                (SM.set_accum_dt (SM._accum_dt s + dt) s)] /\
        SM._accum_dt (snd r) = 0
   else rows (SM.csv_file (snd r)) = rows (SM.csv_file s) /\
        SM._accum_dt (snd r) = SM._accum_dt s + dt).
Proof.
  intros Hloc Hcl Hf r. unfold r. clear r.
  unfold SM.csv_logging, SM.on_csv_file, file_writerow, file_flush, row_due.
  unfold_monad. cbn.
  assert (1 <= Rmax 1 (SM.sample_hz s)) as Hhz by apply Rmax_l.
  rewrite py_div_ok by lra.
  destruct (Rge_dec _ _); cbn.
  - rewrite eco_score_value. cbn. rewrite Hloc. cbn.
    rewrite Hcl, Hf. cbn. rewrite ?Hf. cbn.
    repeat split. lra.
  - repeat split.
Qed.

(** The logging block on a closed log. *)
Lemma csv_logging_closed (w : World) (snapshot : Snapshot)
    (speed accel jerk power_w dt : R) (loc : Location) (s : SM.Tracker) :
  get_location (actor w (SM.vehicle s)) = Ok loc ->
  closed (SM.csv_file s) = true ->
  let r := SM.csv_logging w snapshot speed accel jerk power_w dt s in
  fst r = (if row_due s dt then Raise ValueError else Ok tt) /\
  SM.csv_file (snd r) = SM.csv_file s.
Proof.
  intros Hloc Hcl r. unfold r. clear r.
  unfold SM.csv_logging, SM.on_csv_file, file_writerow, file_flush, row_due.
  unfold_monad. cbn.
  assert (1 <= Rmax 1 (SM.sample_hz s)) as Hhz by apply Rmax_l.
  rewrite py_div_ok by lra.
  destruct (Rge_dec _ _); cbn.
  - rewrite eco_score_value. cbn. rewrite Hloc. cbn.
    rewrite Hcl. cbn. split; [reflexivity |]. destruct s; reflexivity.
  - split; reflexivity.
Qed.

(** X10. Sampled logging, on a log that can be written to, in a tick with
    positive [dt] whose kinematics and location are read: the update
    returns; when the time accumulated since the last row, with this
    tick's [dt], reaches [1/max(1, sample_hz)], exactly one row of twelve
    cells is appended, starting with the tick's timestamp, and the
    accumulated time is reset to 0; otherwise no row is written and the
    accumulated time has grown by [dt]. *)
Theorem update_sampled_logging (w : World) (snapshot : Snapshot)
    (control : option Control) (slope : R) (s : SM.Tracker)
    (speed accel : R) (loc : Location) :
  0 < delta_seconds (timestamp snapshot) ->
  fst (SM.read_kinematics w s) = Ok (speed, accel) ->
  get_location (actor w (SM.vehicle s)) = Ok loc ->
  closed (SM.csv_file s) = false ->
  faulty (SM.csv_file s) = false ->
  let dt := delta_seconds (timestamp snapshot) in
  let s' := snd (SM.update w snapshot control slope s) in
  fst (SM.update w snapshot control slope s) = Ok tt /\
  (if row_due s dt
   then (exists row,
           rows (SM.csv_file s') = rows (SM.csv_file s) ++ [row] /\
           List.length row = 12%nat /\
           hd_error row = Some (CNum (elapsed_seconds (timestamp snapshot))))
        /\ SM._accum_dt s' = 0
   else rows (SM.csv_file s') = rows (SM.csv_file s) /\
        SM._accum_dt s' = SM._accum_dt s + dt).
Proof.
  intros Hdt Hk Hloc Hcl Hf dt s'.
  destruct (SM.compute_power s speed accel slope) as [p | e] eqn:Hp;
    [| rewrite compute_power_value in Hp; discriminate].
  unfold s'.
  rewrite (update_before_logging w snapshot control slope s speed accel p
             Hdt Hk Hp).
  fold dt.
  destruct (before_logging_log_fields speed accel dt p control s)
    as (Ha & Hfile & Hveh & Hhz).
  set (b := before_logging speed accel dt p control s) in *.
  assert (row_due b dt = row_due s dt) as Hdue
    by (unfold row_due; rewrite Ha, Hhz; reflexivity).
  destruct (csv_logging_writable w snapshot speed accel
              ((accel - SM.last_accel s) / dt) p dt loc b) as (Hok & Hrows).
  - rewrite Hveh. exact Hloc.
  - rewrite Hfile. exact Hcl.
  - rewrite Hfile. exact Hf.
  - split; [exact Hok |].
    rewrite Hdue in Hrows. rewrite Hfile, Ha in Hrows.
    destruct (row_due s dt).
    + destruct Hrows as [Hr Hz]. split; [| exact Hz].
      eexists. split; [exact Hr |]. split; reflexivity.
    + exact Hrows.
Qed.

(** The sample tracker logs at 5 Hz: a tick of one second writes a row, a
    tick of a tenth of a second does not. *)
Lemma update_sampled_logging_witness :
  let w := world_of (fun _ => cruising 20 0 0) in
  (exists row,
     rows (SM.csv_file (snd (SM.update w (snapshot_of 1) None 0
                               sample_tracker)))
     = [] ++ [row]) /\
  rows (SM.csv_file (snd (SM.update w (snapshot_of 0.1) None 0
                            sample_tracker))) = [].
Proof.
  intros w.
  assert (Rmax 1 5 = 5) as Hmax by (apply Rmax_right; lra).
  split.
  - destruct (update_sampled_logging w (snapshot_of 1) None 0 sample_tracker
                20 0 {| loc_x := 0; loc_y := 0; loc_z := 0 |})
      as (_ & H); try reflexivity.
    + simpl. lra.
    + apply read_kinematics_cruising with (x := 0) (y := 0);
        [lra | reflexivity].
    + unfold row_due in H. cbn [SM._accum_dt SM.sample_hz sample_tracker
        sample_tracker_on snapshot_of delta_seconds timestamp] in H.
      rewrite Hmax in H.
      destruct (Rge_dec (0 + 1) (1.0 / 5)) as [_ | Hn];
        [| exfalso; apply Hn; lra].
      destruct H as ((row & Hr & _) & _). exists row. exact Hr.
  - destruct (update_sampled_logging w (snapshot_of 0.1) None 0
                sample_tracker 20 0 {| loc_x := 0; loc_y := 0; loc_z := 0 |})
      as (_ & H); try reflexivity.
    + simpl. lra.
    + apply read_kinematics_cruising with (x := 0) (y := 0);
        [lra | reflexivity].
    + unfold row_due in H. cbn [SM._accum_dt SM.sample_hz sample_tracker
        sample_tracker_on snapshot_of delta_seconds timestamp] in H.
      rewrite Hmax in H.
      destruct (Rge_dec (0 + 0.1) (1.0 / 5)) as [Hy | _]; [exfalso; lra |].
      destruct H as (Hr & _). exact Hr.
Defined.

(** X11. A tracker whose log has been closed can still be updated, but
    not logged: in a tick with positive [dt] whose kinematics and location
    are read, the update raises [ValueError] exactly when a row is due,
    and returns otherwise; the closed log keeps its rows; and in
    [Evaluator.update] a vehicle whose row is due then charges no grid
    cell. *)
Theorem update_after_close (w : World) (snapshot : Snapshot)
    (control : option Control) (slope : R) (s : SM.Tracker)
    (speed accel : R) (loc : Location) :
  0 < delta_seconds (timestamp snapshot) ->
  fst (SM.read_kinematics w s) = Ok (speed, accel) ->
  get_location (actor w (SM.vehicle s)) = Ok loc ->
  closed (SM.csv_file s) = true ->
  let dt := delta_seconds (timestamp snapshot) in
  fst (SM.update w snapshot control slope s) =
    (if row_due s dt then Raise ValueError else Ok tt) /\
  SM.csv_file (snd (SM.update w snapshot control slope s)) = SM.csv_file s /\
  (row_due s dt = true ->
   forall bounds cell_size g,
     vehicle_charge w snapshot bounds cell_size g s = g).
Proof.
  intros Hdt Hk Hloc Hcl dt.
  assert (forall control slope,
            fst (SM.update w snapshot control slope s) =
              (if row_due s dt then Raise ValueError else Ok tt) /\
            SM.csv_file (snd (SM.update w snapshot control slope s))
              = SM.csv_file s) as Hgen.
  { intros control0 slope0.
    destruct (SM.compute_power s speed accel slope0) as [p | e] eqn:Hp;
      [| rewrite compute_power_value in Hp; discriminate].
    rewrite (update_before_logging w snapshot control0 slope0 s speed accel p
               Hdt Hk Hp).
    fold dt.
    destruct (before_logging_log_fields speed accel dt p control0 s)
      as (Ha & Hfile & Hveh & Hhz).
    set (b := before_logging speed accel dt p control0 s) in *.
    assert (row_due b dt = row_due s dt) as Hdue
      by (unfold row_due; rewrite Ha, Hhz; reflexivity).
    destruct (csv_logging_closed w snapshot speed accel
                ((accel - SM.last_accel s) / dt) p dt loc b) as (Hr & Hsame).
    - rewrite Hveh. exact Hloc.
    - rewrite Hfile. exact Hcl.
    - rewrite Hdue in Hr. rewrite Hfile in Hsame. split; assumption. }
  destruct (Hgen control slope) as (H1 & H2).
  split; [exact H1 |]. split; [exact H2 |].
  intros Hdue bounds cell_size g.
  destruct (Hgen None 0.0) as (H3 & _). rewrite Hdue in H3.
  apply (vehicle_charge_raise _ _ _ _ _ _ _ H3).
Qed.

(** A closed tracker on a cruising car, over one second: the row that is
    due cannot be written, and the vehicle charges nothing. *)
Lemma update_after_close_witness :
  let w := world_of (fun _ => cruising 20 0 0) in
  fst (SM.update w (snapshot_of 1) None 0 closed_sample_tracker)
    = Raise ValueError /\
  vehicle_charge w (snapshot_of 1) default_bounds 50 [] closed_sample_tracker
    = [].
Proof.
  intros w.
  assert (row_due closed_sample_tracker 1 = true) as Hdue.
  { unfold row_due. cbn [SM._accum_dt SM.sample_hz closed_sample_tracker
      sample_tracker sample_tracker_on SM.set_csv_file].
    rewrite Rmax_right by lra.
    destruct (Rge_dec (0 + 1) (1.0 / 5)) as [_ | Hn];
      [reflexivity | exfalso; apply Hn; lra]. }
  destruct (update_after_close w (snapshot_of 1) None 0 closed_sample_tracker
              20 0 {| loc_x := 0; loc_y := 0; loc_z := 0 |})
    as (H1 & _ & H3); try reflexivity.
  - simpl. lra.
  - apply read_kinematics_cruising with (x := 0) (y := 0);
      [lra | reflexivity].
  - cbn [snapshot_of delta_seconds timestamp] in H1, H3.
    rewrite Hdue in H1. split; [exact H1 | apply H3; exact Hdue].
Defined.

(** ** Rows are only ever appended *)

Lemma log_extends_refl (s : SM.Tracker) : log_extends s s.
Proof.
  unfold log_extends. repeat split. exists []. rewrite app_nil_r. reflexivity.
Qed.

Lemma log_extends_trans (a b c : SM.Tracker) :
  log_extends a b -> log_extends b c -> log_extends a c.
Proof.
  unfold log_extends.
  intros (H1 & H2 & x & Hx) (H3 & H4 & y & Hy).
  split; [congruence |]. split; [congruence |].
  exists (x ++ y). rewrite Hy, Hx, app_assoc. reflexivity.
Qed.

#[local] Hint Resolve log_extends_refl log_extends_trans : tracker.

Lemma writerow_log_extends (row : list cell) :
  preserves log_extends (SM.on_csv_file (file_writerow row)).
Proof.
  intros s. unfold SM.on_csv_file, zoom, file_writerow, log_extends.
  destruct (closed (SM.csv_file s)) eqn:Hc; cbn; rewrite ?Hc.
  - repeat split. exists []. rewrite app_nil_r. reflexivity.
  - destruct (faulty (SM.csv_file s)) eqn:Hf; cbn; rewrite ?Hc, ?Hf.
    + repeat split. exists []. rewrite app_nil_r. reflexivity.
    + repeat split. exists [row]. reflexivity.
Qed.

Lemma flush_log_extends :
  preserves log_extends (SM.on_csv_file file_flush).
Proof.
  intros s. unfold SM.on_csv_file, zoom, file_flush, log_extends.
  destruct (closed (SM.csv_file s)) eqn:Hc; cbn; rewrite ?Hc.
  - repeat split. exists []. rewrite app_nil_r. reflexivity.
  - destruct (faulty (SM.csv_file s)) eqn:Hf; cbn; rewrite ?Hc, ?Hf;
      repeat split; exists []; rewrite app_nil_r; reflexivity.
Qed.

Ltac preserves_log :=
  lazymatch goal with
  | |- forall _, preserves _ _ => intro; preserves_log
  | |- preserves _ (SM.on_csv_file (file_writerow _)) =>
      apply writerow_log_extends
  | |- preserves _ (SM.on_csv_file file_flush) => apply flush_log_extends
  | |- preserves _ (bind _ _) => apply preserves_bind; preserves_log
  | |- preserves _ (ret _) => apply preserves_ret; preserves_log
  | |- preserves _ (lift _) => apply preserves_lift; preserves_log
  | |- preserves _ get => apply preserves_get; preserves_log
  | |- preserves _ (modify _) => apply preserves_modify; intros ?
  | |- preserves _ (if ?c then _ else _) => destruct c; preserves_log
  | |- preserves _ (match ?c with _ => _ end) => destruct c; preserves_log
  | |- preserves _ _ => idtac
  | |- _ => solve [eauto with tracker]
  end.

Lemma update_log_extends (w : World) (snapshot : Snapshot)
    (control : option Control) (slope : R) :
  preserves log_extends (SM.update w snapshot control slope).
Proof.
  unfold SM.update, SM.read_kinematics, SM.integrate_distance,
    SM.integrate_energy, SM.record_jerk, SM.eco_counters, SM.csv_logging.
  cbv zeta.
  preserves_log;
    unfold log_extends; cbn; repeat split;
    exists []; rewrite app_nil_r; reflexivity.
Qed.

Lemma run_updates_log_extends (ks : list Tick) (s : SM.Tracker) :
  log_extends s (run_updates ks s).
Proof.
  revert s. induction ks as [| k ks IH]; intros s; simpl.
  - apply log_extends_refl.
  - eapply log_extends_trans; [| apply IH].
    unfold step. apply update_log_extends.
Qed.

(** X12. Along any sequence of updates the log is append-only: the rows
    present after any prefix of the sequence are an initial segment of
    the rows present after any longer prefix, in the same order, and no
    update closes or reopens the log. *)
Theorem log_is_append_only (ks1 ks2 : list Tick) (s : SM.Tracker) :
  log_extends (run_updates ks1 s) (run_updates (ks1 ++ ks2) s).
Proof.
  rewrite run_updates_app. apply run_updates_log_extends.
Qed.

(** * Further properties of shutdown *)

Lemma close_run (s : SM.Tracker) :
  SM.close s =
  (Ok tt,
   SM.set_csv_file
     {| closed := true; faulty := faulty (SM.csv_file s);
        rows := rows (SM.csv_file s) |} s).
Proof.
  unfold SM.close, SM.on_csv_file, file_close. unfold_monad.
  destruct (SM.csv_file s) as [c f r] eqn:E. cbn.
  destruct c; [rewrite <- E; reflexivity |].
  destruct f; reflexivity.
Qed.

(** X13. [close] never raises and leaves the log closed with the rows it
    had; it touches nothing else, so the results of the tracker are the
    same before and after; and closing a second time changes nothing. *)
Theorem close_is_quiet_and_idempotent (s : SM.Tracker) :
  let s' := snd (SM.close s) in
  fst (SM.close s) = Ok tt /\
  closed (SM.csv_file s') = true /\
  rows (SM.csv_file s') = rows (SM.csv_file s) /\
  same_but_log s s' /\
  SM.results s' = SM.results s /\
  SM.close s' = (Ok tt, s').
Proof.
  intros s'. unfold s'. rewrite close_run. cbn [fst snd].
  split; [reflexivity |]. split; [reflexivity |]. split; [reflexivity |].
  split; [reflexivity |].
  split; [rewrite !results_total; reflexivity |].
  rewrite close_run. reflexivity.
Qed.

Lemma results_value_close (m : SM.Tracker) :
  results_value (snd (SM.close m)) = results_value m.
Proof. rewrite close_run. reflexivity. Qed.

Lemma finalize_value (w : World) (out_path : option string)
    (ev : SE.Evaluator) (disk : SE.Disk) :
  SE.finalize w out_path (ev, disk) =
  let ev' := SE.set_metrics
               (map (fun km => (fst km, snd (SM.close (snd km))))
                    (SE.metrics ev)) ev in
  if fs_summary_fails w then (Raise OSError, (ev', disk))
  else (Ok tt, (ev', disk ++ [(summary_path ev out_path, summary_of ev)])).
Proof.
  unfold SE.finalize, PyDict.items. rewrite collect_vehicle_loop.
  cbn [app]. unfold SE.write_summary, raise, modify, summary_path, summary_of.
  cbv zeta. cbn [SE.grid SE.set_metrics SE.log_folder].
  destruct (fs_summary_fails w); reflexivity.
Qed.


(** X15. [finalize] can be called again: when both writes go through, the
    second call writes the same summary to the same path as the first. *)
Theorem finalize_twice_same_summary (w : World) (out_path : option string)
    (ev : SE.Evaluator) (disk : SE.Disk) :
  fs_summary_fails w = false ->
  let first := SE.finalize w out_path (ev, disk) in
  let second := SE.finalize w out_path (snd first) in
  fst second = Ok tt /\
  snd (snd second) =
    disk ++ [(summary_path ev out_path, summary_of ev);
             (summary_path ev out_path, summary_of ev)].
Proof.
  intros Hw first second. unfold second, first.
  rewrite finalize_value. cbv zeta. rewrite Hw.
  cbn [snd]. rewrite finalize_value. cbv zeta. rewrite Hw.
  cbn [fst snd]. split; [reflexivity |].
  rewrite <- app_assoc. cbn [app]. f_equal. f_equal. f_equal.
  unfold summary_path, summary_of.
  cbn [SE.metrics SE.set_metrics SE.grid SE.log_folder].
  f_equal. f_equal. rewrite map_map. apply map_ext.
  intros km. cbn [snd]. apply results_value_close.
Qed.

Lemma finalize_twice_same_summary_witness :
  snd (snd (SE.finalize west_world None
              (snd (SE.finalize west_world None (sample_evaluator, [])))))
  = [] ++ [(summary_path sample_evaluator None, summary_of sample_evaluator);
           (summary_path sample_evaluator None, summary_of sample_evaluator)].
Proof.
  destruct (finalize_twice_same_summary west_world None sample_evaluator [])
    as (_ & H); [reflexivity | exact H].
Defined.

(** * Further properties of registration *)

Lemma setitem_absent {K V : Type}
    (eq_dec : forall a b : K, {a = b} + {a <> b}) (k : K) (v : V)
    (d : PyDict.t) :
  PyDict.contains eq_dec k d = false ->
  PyDict.setitem eq_dec k v d = d ++ [(k, v)].
Proof.
  unfold PyDict.contains.
  induction d as [| [k0 v0] d IH]; simpl; [reflexivity |].
  destruct (eq_dec k k0); [discriminate |].
  intros H. rewrite IH by exact H. reflexivity.
Qed.

Lemma register_vehicle_run (w : World) (vehicle : Z)
    (veh_params : option SM.VehParams) (ev : SE.Evaluator) :
  SE.register_vehicle w vehicle veh_params ev =
  if PyDict.contains Z.eq_dec vehicle (SE.metrics ev) then (Ok tt, ev)
  else
    match SM.__init__ w vehicle (Some vehicle) veh_params
            (dict_get (SE.model_type (SE.config ev)) "auto"%string) 5 with
    | Ok m => (Ok tt, SE.set_metrics (SE.metrics ev ++ [(vehicle, m)]) ev)
    | Raise e => (Raise e, ev)
    end.
Proof.
  unfold SE.register_vehicle. unfold_monad.
  destruct (PyDict.contains Z.eq_dec vehicle (SE.metrics ev)) eqn:Hc;
    [reflexivity |].
  destruct (SM.__init__ _ _ _ _ _ _); [| reflexivity].
  rewrite (setitem_absent _ _ _ _ Hc). reflexivity.
Qed.

Lemma contains_app_last {V : Type} (k : Z) (v : V) (d : list (Z * V)) :
  PyDict.contains Z.eq_dec k (d ++ [(k, v)]) = true.
Proof.
  apply contains_in_keys. unfold PyDict.keys. rewrite map_app, in_app_iff.
  right. left. reflexivity.
Qed.

(** X1. Registering a vehicle is idempotent: once a registration of an
    id has returned, registering the same id again, with whatever
    parameters and in whatever state of the world, returns without
    changing the evaluator, so the first registration's tracker stays. *)
Theorem register_vehicle_idempotent (w w' : World) (vehicle : Z)
    (veh_params veh_params' : option SM.VehParams) (ev : SE.Evaluator) :
  fst (SE.register_vehicle w vehicle veh_params ev) = Ok tt ->
  let ev1 := snd (SE.register_vehicle w vehicle veh_params ev) in
  SE.register_vehicle w' vehicle veh_params' ev1 = (Ok tt, ev1) /\
  PyDict.contains Z.eq_dec vehicle (SE.metrics ev1) = true.
Proof.
  intros Hok ev1.
  assert (PyDict.contains Z.eq_dec vehicle (SE.metrics ev1) = true) as Hin.
  { unfold ev1. rewrite register_vehicle_run in *.
    destruct (PyDict.contains Z.eq_dec vehicle (SE.metrics ev)) eqn:Hc;
      [exact Hc |].
    destruct (SM.__init__ _ _ _ _ _ _); [| discriminate].
    cbn [snd SE.metrics SE.set_metrics]. apply contains_app_last. }
  split; [| exact Hin].
  rewrite register_vehicle_run, Hin. reflexivity.
Qed.

Lemma register_vehicle_idempotent_witness :
  let ev1 := snd (SE.register_vehicle west_world 7 None fresh_evaluator) in
  SE.register_vehicle no_disk_world 7 None ev1 = (Ok tt, ev1) /\
  PyDict.contains Z.eq_dec 7%Z (SE.metrics ev1) = true.
Proof.
  apply (register_vehicle_idempotent west_world no_disk_world 7 None None
           fresh_evaluator).
  reflexivity.
Defined.

(** X2. A registration that fails registers nothing: the only error it
    can raise is [OSError] (the log folder cannot be created, the log
    file cannot be opened, or its header cannot be written), and the
    evaluator is then exactly as before. *)
Theorem register_vehicle_failure (w : World) (vehicle : Z)
    (veh_params : option SM.VehParams) (ev : SE.Evaluator) (e : exn) :
  fst (SE.register_vehicle w vehicle veh_params ev) = Raise e ->
  e = OSError /\
  snd (SE.register_vehicle w vehicle veh_params ev) = ev /\
  PyDict.contains Z.eq_dec vehicle (SE.metrics ev) = false.
Proof.
  rewrite register_vehicle_run.
  destruct (PyDict.contains Z.eq_dec vehicle (SE.metrics ev));
    [discriminate |].
  destruct (SM.__init__ _ _ _ _ _ _) as [m | e'] eqn:Hinit;
    [discriminate |].
  cbn [fst snd]. intros H. inversion H; subst e'. clear H.
  split; [| split; reflexivity].
  unfold SM.__init__, file_open, file_writerow in Hinit. cbv zeta in Hinit.
  destruct (fs_makedirs_fails w); [congruence |].
  destruct (fs_open_fails w _); [congruence |].
  cbn [closed faulty rows] in Hinit.
  destruct (fs_faulty w _); [congruence | discriminate].
Qed.

Lemma register_vehicle_failure_witness :
  OSError = OSError /\
  snd (SE.register_vehicle no_disk_world 7 None fresh_evaluator)
    = fresh_evaluator /\
  PyDict.contains Z.eq_dec 7%Z (SE.metrics fresh_evaluator) = false.
Proof.
  apply (register_vehicle_failure no_disk_world 7 None fresh_evaluator
           OSError).
  reflexivity.
Defined.

(** * Further properties of the registry and the grid *)

Lemma init_identity (w : World) (vehicle : Z)
    (veh_params : option SM.VehParams) (model_type : string) (sample_hz : R)
    (s : SM.Tracker) :
  SM.__init__ w vehicle (Some vehicle) veh_params model_type sample_hz = Ok s ->
  SM.id s = vehicle /\ SM.vehicle s = vehicle.
Proof.
  unfold SM.__init__, file_open, file_writerow. cbv zeta.
  destruct (fs_makedirs_fails w); [discriminate |].
  destruct (fs_open_fails w _); [discriminate |].
  cbn [closed faulty rows].
  destruct (fs_faulty w _); [discriminate |].
  intros H. inversion H; subst; clear H. cbn [SM.id SM.vehicle].
  split; [| reflexivity]. destruct (Z.eqb vehicle 0); reflexivity.
Qed.

Lemma keys_update (w : World) (snapshot : Snapshot) (ev : SE.Evaluator) :
  PyDict.keys (SE.metrics (snd (SE.update w snapshot ev))) =
  PyDict.keys (SE.metrics ev).
Proof.
  rewrite evaluator_update_run. cbn [snd SE.metrics SE.set_grid SE.set_metrics].
  unfold PyDict.keys. rewrite map_map. reflexivity.
Qed.

Lemma registry_ok_event (e : Event) (ev : SE.Evaluator) :
  registry_ok ev -> registry_ok (apply_event e ev).
Proof.
  intros [Hnd Hall]. destruct e as [w vehicle veh_params | w snapshot]; simpl.
  - rewrite register_vehicle_run.
    destruct (PyDict.contains Z.eq_dec vehicle (SE.metrics ev)) eqn:Hc;
      [split; assumption |].
    destruct (SM.__init__ _ _ _ _ _ _) as [m | e] eqn:Hinit;
      [| split; assumption].
    apply init_identity in Hinit.
    unfold registry_ok. cbn [snd SE.metrics SE.set_metrics]. split.
    + rewrite <- (setitem_absent Z.eq_dec vehicle m _ Hc).
      apply NoDup_keys_setitem. exact Hnd.
    + apply Forall_app. split; [exact Hall |].
      constructor; [exact Hinit | constructor].
  - unfold registry_ok. rewrite keys_update. split; [exact Hnd |].
    rewrite evaluator_update_run.
    cbn [snd SE.metrics SE.set_grid SE.set_metrics].
    apply Forall_map. eapply Forall_impl; [| exact Hall].
    intros [k m] [Hid Hveh]. cbn [fst snd] in *.
    destruct (update_same_static w snapshot None 0.0 m) as (Hv & Hi & _).
    split; congruence.
Qed.

Lemma config_event (e : Event) (ev : SE.Evaluator) :
  SE.map_bounds (apply_event e ev) = SE.map_bounds ev /\
  SE.cell_size (apply_event e ev) = SE.cell_size ev.
Proof.
  destruct e as [w vehicle veh_params | w snapshot]; simpl.
  - rewrite register_vehicle_run.
    destruct (PyDict.contains _ _ _); [split; reflexivity |].
    destruct (SM.__init__ _ _ _ _ _ _); split; reflexivity.
  - rewrite evaluator_update_run. split; reflexivity.
Qed.

(** X3. For an evaluator taken from construction through any sequence of
    registrations and updates: every vehicle id is registered at most
    once, every tracker is filed under the id of the vehicle it reads and
    reports that id, and the map bounds and the cell size are those given
    at construction. *)
Theorem registry_invariant (w0 : World) (map_bounds : option SE.MapBounds)
    (cell_size_m : R) (log_folder : string) (config : option SE.Config)
    (ev0 : SE.Evaluator) (es : list Event) :
  SE.__init__ w0 map_bounds cell_size_m log_folder config = Ok ev0 ->
  registry_ok (run_events es ev0) /\
  SE.map_bounds (run_events es ev0) = SE.map_bounds ev0 /\
  SE.cell_size (run_events es ev0) = cell_size_m.
Proof.
  intros Hinit.
  assert (registry_ok ev0 /\ SE.cell_size ev0 = cell_size_m) as [H0 Hcs].
  { unfold SE.__init__ in Hinit.
    destruct (fs_makedirs_fails w0); [discriminate |].
    inversion Hinit; subst; clear Hinit.
    split; [| reflexivity]. split; constructor. }
  rewrite <- Hcs. clear Hinit Hcs. revert ev0 H0.
  induction es as [| e es IH]; intros ev0 H0; simpl.
  - repeat split; apply H0.
  - destruct (config_event e ev0) as [Hb Hc].
    destruct (IH (apply_event e ev0) (registry_ok_event e ev0 H0))
      as (H1 & H2 & H3).
    unfold run_events in *. rewrite H2, H3. repeat split; try assumption;
      apply H1.
Qed.

Lemma registry_invariant_witness :
  registry_ok (run_events west_run fresh_evaluator) /\
  SE.map_bounds (run_events west_run fresh_evaluator)
    = SE.map_bounds fresh_evaluator /\
  SE.cell_size (run_events west_run fresh_evaluator) = 50.
Proof.
  apply (registry_invariant west_world None 50 "cache/sustainability_logs"
           None fresh_evaluator west_run).
  exact fresh_evaluator_init.
Defined.

(** ** Masses in the grid *)

Lemma lookup_nonneg (g : SE.Grid) (c : Z * Z) (v : R) :
  Forall (fun cv => 0 <= snd cv) g ->
  PyDict.lookup SE.cell_eq_dec c g = Some v -> 0 <= v.
Proof.
  induction g as [| [c0 v0] g IH]; simpl; [discriminate |].
  intros Hall H. inversion Hall; subst.
  destruct (SE.cell_eq_dec c c0); [inversion H; subst; assumption | auto].
Qed.

Lemma setitem_nonneg (g : SE.Grid) (c : Z * Z) (v : R) :
  0 <= v ->
  Forall (fun cv => 0 <= snd cv) g ->
  Forall (fun cv => 0 <= snd cv) (PyDict.setitem SE.cell_eq_dec c v g).
Proof.
  intros Hv. induction g as [| [c0 v0] g IH]; simpl; intros Hall.
  - constructor; [exact Hv | constructor].
  - inversion Hall; subst.
    destruct (SE.cell_eq_dec c c0); constructor; auto.
Qed.

(** Charging a non-negative amount keeps every cell and lowers none. *)
Lemma charge_grows (g : SE.Grid) (c c' : Z * Z) (amount v : R) :
  0 <= amount ->
  PyDict.lookup SE.cell_eq_dec c' g = Some v ->
  exists v', PyDict.lookup SE.cell_eq_dec c' (charge c amount g) = Some v'
             /\ v <= v'.
Proof.
  intros Ha Hl. unfold charge.
  destruct (SE.cell_eq_dec c' c) as [E | E].
  - subst c'. rewrite lookup_setitem_same, Hl. cbn [dict_get].
    eexists. split; [reflexivity | lra].
  - rewrite lookup_setitem_other by exact E. exists v. split; [exact Hl | lra].
Qed.

Lemma charge_nonneg (g : SE.Grid) (c : Z * Z) (amount : R) :
  0 <= amount ->
  Forall (fun cv => 0 <= snd cv) g ->
  Forall (fun cv => 0 <= snd cv) (charge c amount g).
Proof.
  intros Ha Hall. unfold charge. apply setitem_nonneg; [| exact Hall].
  destruct (PyDict.lookup SE.cell_eq_dec c g) as [v |] eqn:E; cbn [dict_get].
  - pose proof (lookup_nonneg g c v Hall E). lra.
  - lra.
Qed.

Lemma update_co2_nonneg (w : World) (snapshot : Snapshot)
    (control : option Control) (slope : R) (m : SM.Tracker) :
  0 <= SM.co2_g m ->
  0 <= SM.co2_g (snd (SM.update w snapshot control slope m)).
Proof.
  intros H.
  destruct (update_le w snapshot control slope m) as (_ & _ & Hc & _). lra.
Qed.

Lemma vehicle_charge_nonneg (w : World) (snapshot : Snapshot)
    (bounds : SE.MapBounds) (cell_size : R) (g : SE.Grid) (m : SM.Tracker) :
  0 <= SM.co2_g m ->
  Forall (fun cv => 0 <= snd cv) g ->
  Forall (fun cv => 0 <= snd cv)
         (vehicle_charge w snapshot bounds cell_size g m).
Proof.
  intros Hm Hg. unfold vehicle_charge.
  destruct (charged_cell w snapshot bounds cell_size m); [| exact Hg].
  apply charge_nonneg; [apply update_co2_nonneg; exact Hm | exact Hg].
Qed.

Lemma vehicle_charge_grows (w : World) (snapshot : Snapshot)
    (bounds : SE.MapBounds) (cell_size : R) (g : SE.Grid) (m : SM.Tracker)
    (c : Z * Z) (v : R) :
  0 <= SM.co2_g m ->
  PyDict.lookup SE.cell_eq_dec c g = Some v ->
  exists v',
    PyDict.lookup SE.cell_eq_dec c
      (vehicle_charge w snapshot bounds cell_size g m) = Some v' /\ v <= v'.
Proof.
  intros Hm Hl. unfold vehicle_charge.
  destruct (charged_cell w snapshot bounds cell_size m).
  - apply charge_grows; [apply update_co2_nonneg; exact Hm | exact Hl].
  - exists v. split; [exact Hl | lra].
Qed.

Lemma fold_charge_facts (w : World) (snapshot : Snapshot)
    (bounds : SE.MapBounds) (cell_size : R)
    (items : list (Z * SM.Tracker)) (g : SE.Grid) :
  Forall (fun km => 0 <= SM.co2_g (snd km)) items ->
  Forall (fun cv => 0 <= snd cv) g ->
  let g' := fold_left
              (fun g km =>
                 vehicle_charge w snapshot bounds cell_size g (snd km))
              items g in
  Forall (fun cv => 0 <= snd cv) g' /\
  forall c v, PyDict.lookup SE.cell_eq_dec c g = Some v ->
              exists v', PyDict.lookup SE.cell_eq_dec c g' = Some v'
                         /\ v <= v'.
Proof.
  revert g. induction items as [| [k m] items IH]; intros g Hm Hg; simpl.
  - split; [exact Hg |]. intros c v H. exists v. split; [exact H | lra].
  - inversion Hm as [| km items0 Hhead Htail]; subst. cbn [snd] in *.
    destruct (IH (vehicle_charge w snapshot bounds cell_size g m)) as [H1 H2];
      [assumption | apply vehicle_charge_nonneg; assumption |].
    split; [exact H1 |]. intros c v Hl.
    destruct (vehicle_charge_grows w snapshot bounds cell_size g m c v)
      as (v1 & Hl1 & Hle1); [assumption | exact Hl |].
    destruct (H2 c v1 Hl1) as (v2 & Hl2 & Hle2).
    exists v2. split; [exact Hl2 | lra].
Qed.

Lemma masses_event (e : Event) (ev : SE.Evaluator) :
  masses_nonneg ev ->
  masses_nonneg (apply_event e ev) /\
  forall c v, PyDict.lookup SE.cell_eq_dec c (SE.grid ev) = Some v ->
              exists v',
                PyDict.lookup SE.cell_eq_dec c (SE.grid (apply_event e ev))
                  = Some v' /\ v <= v'.
Proof.
  intros [Hm Hg]. destruct e as [w vehicle veh_params | w snapshot]; simpl.
  - rewrite register_vehicle_run.
    destruct (PyDict.contains Z.eq_dec vehicle (SE.metrics ev)).
    + split; [split; assumption |]. intros c v H. exists v. split; [exact H | lra].
    + destruct (SM.__init__ _ _ _ _ _ _) as [m | e] eqn:Hinit; cbn [snd].
      * split.
        -- split; [| exact Hg]. cbn [SE.metrics SE.set_metrics].
           apply Forall_app. split; [exact Hm |].
           constructor; [| constructor]. cbn [snd].
           apply init_shape in Hinit. destruct Hinit as (_ & _ & Hc & _). lra.
        -- intros c v H. exists v. split; [exact H | lra].
      * split; [split; assumption |].
        intros c v H. exists v. split; [exact H | lra].
  - rewrite evaluator_update_run. cbn [snd SE.grid SE.set_grid].
    destruct (fold_charge_facts w snapshot (SE.map_bounds ev) (SE.cell_size ev)
                (SE.metrics ev) (SE.grid ev) Hm Hg) as [H1 H2].
    split; [| exact H2]. split; [| exact H1].
    cbn [SE.metrics SE.set_grid SE.set_metrics].
    apply Forall_map. eapply Forall_impl; [| exact Hm].
    intros [k m] H. cbn [snd] in *. apply update_co2_nonneg. exact H.
Qed.

Lemma masses_run (es : list Event) (ev : SE.Evaluator) :
  masses_nonneg ev ->
  masses_nonneg (run_events es ev) /\
  forall c v, PyDict.lookup SE.cell_eq_dec c (SE.grid ev) = Some v ->
              exists v',
                PyDict.lookup SE.cell_eq_dec c (SE.grid (run_events es ev))
                  = Some v' /\ v <= v'.
Proof.
  revert ev. induction es as [| e es IH]; intros ev H; simpl.
  - split; [exact H |]. intros c v Hl. exists v. split; [exact Hl | lra].
  - destruct (masses_event e ev H) as [H1 H2].
    destruct (IH (apply_event e ev) H1) as [H3 H4].
    split; [exact H3 |]. intros c v Hl.
    destruct (H2 c v Hl) as (v1 & Hl1 & Hle1).
    destruct (H4 c v1 Hl1) as (v2 & Hl2 & Hle2).
    exists v2. split; [exact Hl2 | lra].
Qed.

(** X8. For an evaluator taken from construction through any sequence of
    registrations and updates, no tracker holds a negative CO2 mass and
    no grid cell holds a negative mass. *)
Theorem masses_never_negative (w0 : World) (map_bounds : option SE.MapBounds)
    (cell_size_m : R) (log_folder : string) (config : option SE.Config)
    (ev0 : SE.Evaluator) (es : list Event) :
  SE.__init__ w0 map_bounds cell_size_m log_folder config = Ok ev0 ->
  masses_nonneg (run_events es ev0).
Proof.
  intros Hinit. apply masses_run.
  unfold SE.__init__ in Hinit.
  destruct (fs_makedirs_fails w0); [discriminate |].
  inversion Hinit; subst. split; constructor.
Qed.

Lemma masses_never_negative_witness :
  masses_nonneg (run_events west_run fresh_evaluator).
Proof.
  apply (masses_never_negative west_world None 50 "cache/sustainability_logs"
           None fresh_evaluator west_run).
  exact fresh_evaluator_init.
Defined.

(** X19. Once no tracker and no cell holds a negative mass, registrations
    and updates never remove a grid cell and never lower its mass: a cell
    holding [v] holds at least [v] after any further run. *)
Theorem grid_cells_persist (es : list Event) (ev : SE.Evaluator)
    (c : Z * Z) (v : R) :
  masses_nonneg ev ->
  PyDict.lookup SE.cell_eq_dec c (SE.grid ev) = Some v ->
  exists v',
    PyDict.lookup SE.cell_eq_dec c (SE.grid (run_events es ev)) = Some v'
    /\ v <= v'.
Proof.
  intros Hm Hl. destruct (masses_run es ev Hm) as [_ H]. apply H. exact Hl.
Qed.

Lemma charged_evaluator_masses : masses_nonneg charged_evaluator.
Proof.
  split; repeat constructor; simpl; lra.
Qed.

Lemma grid_cells_persist_witness :
  exists v',
    PyDict.lookup SE.cell_eq_dec (0%Z, 20%Z)
      (SE.grid (run_events [Update west_world (snapshot_of 1)]
                  charged_evaluator)) = Some v'
    /\ 5 <= v'.
Proof.
  apply (grid_cells_persist [Update west_world (snapshot_of 1)]
           charged_evaluator (0%Z, 20%Z) 5).
  - exact charged_evaluator_masses.
  - reflexivity.
Defined.

(** ** Ticks that leave the trackers alone, and a cell size of zero *)

Lemma update_skip (w : World) (snapshot : Snapshot)
    (control : option Control) (slope : R) (s : SM.Tracker) :
  delta_seconds (timestamp snapshot) <= 0 ->
  SM.update w snapshot control slope s = (Ok tt, s).
Proof.
  intros Hdt. unfold SM.update. cbv zeta.
  destruct (Rle_dec _ 0); [reflexivity | contradiction].
Qed.

Lemma vehicle_charge_skip (w : World) (snapshot : Snapshot)
    (bounds : SE.MapBounds) (cell_size : R) (g : SE.Grid) (m : SM.Tracker) :
  delta_seconds (timestamp snapshot) <= 0 ->
  vehicle_charge w snapshot bounds cell_size g m =
  charge_at_location w bounds cell_size g m.
Proof.
  intros Hdt. unfold vehicle_charge, charged_cell, charge_at_location.
  rewrite (update_skip _ _ _ _ _ Hdt). cbn [snd].
  destruct (get_location (actor w (SM.vehicle m))) as [loc | e];
    [| reflexivity].
  destruct (SE.grid_cell bounds cell_size loc); reflexivity.
Qed.

(** X20. A tick with [dt <= 0] is not a no-op for the evaluator: every
    tracker is left exactly as it was, but every vehicle whose location
    is read still charges its cell with its unchanged cumulative CO2. *)
Theorem evaluator_update_nonpositive_dt (w : World) (snapshot : Snapshot)
    (ev : SE.Evaluator) :
  delta_seconds (timestamp snapshot) <= 0 ->
  let ev' := snd (SE.update w snapshot ev) in
  SE.metrics ev' = SE.metrics ev /\
  SE.grid ev' =
    fold_left
      (fun g km =>
         charge_at_location w (SE.map_bounds ev) (SE.cell_size ev) g (snd km))
      (SE.metrics ev) (SE.grid ev).
Proof.
  intros Hdt ev'. unfold ev'. rewrite evaluator_update_run.
  cbn [snd SE.metrics SE.grid SE.set_grid SE.set_metrics]. split.
  - rewrite <- (map_id (SE.metrics ev)) at 2. apply map_ext.
    intros [k m]. cbn [fst snd]. rewrite (update_skip _ _ _ _ _ Hdt).
    reflexivity.
  - generalize (SE.grid ev).
    induction (SE.metrics ev) as [| km items IH]; intros g; simpl;
      [reflexivity |].
    rewrite (vehicle_charge_skip _ _ _ _ _ _ Hdt). apply IH.
Qed.

(** A tick with [dt = 0] on the charged evaluator: vehicle 7 adds its 5 g
    to cell (0, 20) again. *)
Lemma evaluator_update_nonpositive_dt_witness :
  let ev' := snd (SE.update west_world (snapshot_of 0) charged_evaluator) in
  SE.metrics ev' = SE.metrics charged_evaluator /\
  PyDict.lookup SE.cell_eq_dec (0%Z, 20%Z) (SE.grid ev') = Some (5 + 5).
Proof.
  intros ev'.
  destruct (evaluator_update_nonpositive_dt west_world (snapshot_of 0)
              charged_evaluator) as [Hm Hg].
  - simpl. lra.
  - split; [exact Hm |]. fold ev' in Hg. rewrite Hg.
    cbn [fold_left SE.metrics SE.grid charged_evaluator sample_evaluator
         SE.set_grid SE.map_bounds SE.cell_size snd].
    unfold charge_at_location.
    cbn [actor west_world world_of SM.vehicle sample_tracker_on Z.eqb
         Pos.eqb get_location cruising destroyed].
    change {| loc_x := -1025; loc_y := 0; loc_z := 0 |} with west_location.
    rewrite west_cell. unfold charge.
    rewrite lookup_setitem_same. reflexivity.
Defined.

(** X21. With a cell size of zero the cell of a vehicle cannot be
    computed: the division raises, the error is swallowed for each
    vehicle, and an update leaves the grid exactly as it was while the
    trackers are updated as usual. *)
Theorem zero_cell_size_freezes_grid (w : World) (snapshot : Snapshot)
    (ev : SE.Evaluator) :
  SE.cell_size ev = 0 ->
  let r := SE.update w snapshot ev in
  fst r = Ok tt /\
  SE.grid (snd r) = SE.grid ev /\
  SE.metrics (snd r) =
    map (fun km => (fst km, snd (SM.update w snapshot None 0.0 (snd km))))
        (SE.metrics ev).
Proof.
  intros Hc r. unfold r. rewrite evaluator_update_run.
  cbn [fst snd SE.metrics SE.grid SE.set_grid SE.set_metrics].
  split; [reflexivity |]. split; [| reflexivity].
  rewrite Hc. generalize (SE.grid ev).
  induction (SE.metrics ev) as [| km items IH]; intros g; simpl;
    [reflexivity |].
  assert (vehicle_charge w snapshot (SE.map_bounds ev) 0 g (snd km) = g)
    as ->; [| apply IH].
  unfold vehicle_charge, charged_cell.
  destruct (SM.update w snapshot None 0.0 (snd km)) as [[[] | e] m'];
    [| reflexivity].
  destruct (get_location (actor w (SM.vehicle m'))); [| reflexivity].
  unfold SE.grid_cell. rewrite py_div_zero. reflexivity.
Qed.

Lemma zero_cell_size_freezes_grid_witness :
  fst (SE.update west_world (snapshot_of 1) zero_cell_evaluator) = Ok tt /\
  SE.grid (snd (SE.update west_world (snapshot_of 1) zero_cell_evaluator))
    = [].
Proof.
  destruct (zero_cell_size_freezes_grid west_world (snapshot_of 1)
              zero_cell_evaluator) as (H1 & H2 & _).
  - reflexivity.
  - split; [exact H1 | exact H2].
Defined.

(** ** Cells of positions inside the map *)

Lemma Int_part_nonneg (x : R) : 0 <= x -> (0 <= Int_part x)%Z.
Proof.
  intros Hx. pose proof (base_Int_part x) as [_ H].
  assert (IZR (-1) < IZR (Int_part x)) as Hlt by (simpl; lra).
  apply lt_IZR in Hlt. lia.
Qed.

Lemma Int_part_monotone (x y : R) : x <= y -> (Int_part x <= Int_part y)%Z.
Proof.
  intros Hxy. pose proof (base_Int_part x) as [Hx _].
  pose proof (base_Int_part y) as [_ Hy].
  assert (IZR (Int_part x) < IZR (Int_part y + 1)) as Hlt
    by (rewrite plus_IZR; simpl; lra).
  apply lt_IZR in Hlt. lia.
Qed.

Lemma py_int_in_range (lo hi x cs : R) :
  0 < cs -> lo <= x <= hi ->
  let i := py_int ((x - lo) / cs) in
  (0 <= i <= py_floor ((hi - lo) / cs))%Z /\
  lo + IZR i * cs <= x < lo + (IZR i + 1) * cs.
Proof.
  intros Hcs [Hlo Hhi] i.
  assert (0 <= (x - lo) / cs) as Hq
    by (apply Rmult_le_pos; [lra | left; apply Rinv_0_lt_compat; exact Hcs]).
  assert ((x - lo) / cs <= (hi - lo) / cs) as Hle
    by (apply Rmult_le_compat_r; [left; apply Rinv_0_lt_compat; exact Hcs | lra]).
  unfold i. rewrite py_int_nonneg by exact Hq. unfold py_floor.
  split; [split; [apply Int_part_nonneg; exact Hq
                 | apply Int_part_monotone; exact Hle] |].
  pose proof (base_Int_part ((x - lo) / cs)) as [H1 H2].
  assert ((x - lo) / cs * cs = x - lo) as Hmul by (field; lra).
  set (q := (x - lo) / cs) in *. set (n := IZR (Int_part q)) in *.
  split; nra.
Qed.



(** * Further properties of the eco score *)

(** X23. Between two tracker states with the same jerk history and the
    same distance, the one with at least as many harsh accelerations,
    harsh brakings and seconds of idling has the lower or equal eco
    score. *)
Theorem eco_score_antitone (a b : SM.Tracker) :
  SM.jerk_samples a = SM.jerk_samples b ->
  SM.distance_m a = SM.distance_m b ->
  (SM.harsh_accel a <= SM.harsh_accel b)%Z ->
  (SM.harsh_brake a <= SM.harsh_brake b)%Z ->
  SM.idle_time_s a <= SM.idle_time_s b ->
  exists x y,
    SM.compute_eco_score a = Ok x /\ SM.compute_eco_score b = Ok y /\ y <= x.
Proof.
  intros Hj Hd Ha Hb Hi.
  exists (spec_eco_score a), (spec_eco_score b).
  split; [apply eco_score_value |]. split; [apply eco_score_value |].
  unfold spec_eco_score. rewrite Hj, Hd.
  apply Rle_max_compat_l.
  assert (0.1 <= Rmax (SM.distance_m b / 1000) 0.1) as HD by apply Rmax_r.
  apply IZR_le in Ha. apply IZR_le in Hb.
  set (D := Rmax (SM.distance_m b / 1000) 0.1) in *.
  assert (0 < / D) as Hinv by (apply Rinv_0_lt_compat; lra).
  unfold Rdiv. nra.
Qed.

Lemma eco_score_antitone_witness :
  exists x y,
    SM.compute_eco_score sample_tracker = Ok x /\
    SM.compute_eco_score
      (SM.set_harsh_brake 5 sample_tracker) = Ok y /\
    y <= x.
Proof.
  apply (eco_score_antitone sample_tracker
           (SM.set_harsh_brake 5 sample_tracker));
    try reflexivity; simpl; try lia; lra.
Defined.

Lemma sum_list_constant (c : R) (l : list R) :
  (forall x, In x l -> x = c) -> sum_list l = c * INR (List.length l).
Proof.
  induction l as [| y l IH]; intros H.
  - simpl. ring.
  - change (sum_list (y :: l)) with (y + sum_list l).
    rewrite IH by (intros x Hx; apply H; right; exact Hx).
    rewrite (H y) by (left; reflexivity).
    cbn [List.length]. rewrite S_INR. ring.
Qed.

Lemma population_stddev_constant (c : R) (l : list R) :
  (forall x, In x l -> x = c) -> population_stddev l = 0.
Proof.
  intros H. destruct l as [| y l]; [reflexivity |].
  unfold population_stddev. cbv zeta.
  set (l0 := y :: l) in *.
  assert (INR (List.length l0) <> 0) as Hn
    by (unfold l0; simpl List.length; apply not_0_INR; discriminate).
  rewrite (sum_list_constant c l0 H).
  replace (c * INR (List.length l0) / INR (List.length l0)) with c
    by (field; exact Hn).
  rewrite (sum_list_constant 0 (map (fun x => (x - c) * (x - c)) l0)).
  - replace (0 * INR (List.length (map (fun x => (x - c) * (x - c)) l0))
             / INR (List.length l0)) with 0 by (field; exact Hn).
    apply sqrt_0.
  - intros z Hz. apply in_map_iff in Hz. destruct Hz as (x & <- & Hx).
    rewrite (H x Hx). ring.
Qed.



(** * Further properties of failing and quiet ticks *)

(** X25. A tick whose velocity or acceleration cannot be read is atomic:
    the update raises what the read raised and the tracker is left
    exactly as it was, with nothing accumulated and nothing logged. *)
Theorem update_sensor_failure_is_atomic (w : World) (snapshot : Snapshot)
    (control : option Control) (slope : R) (s : SM.Tracker) (e : exn) :
  0 < delta_seconds (timestamp snapshot) ->
  fst (SM.read_kinematics w s) = Raise e ->
  SM.update w snapshot control slope s = (Raise e, s).
Proof.
  intros Hdt Hk.
  assert (SM.read_kinematics w s = (Raise e, s)) as Hrun.
  { pose proof (read_kinematics_state w s) as Hs.
    destruct (SM.read_kinematics w s) as [r s0]. simpl in *. congruence. }
  unfold SM.update. cbv zeta.
  destruct (Rle_dec _ 0); [lra |].
  unfold bind at 1. rewrite Hrun. reflexivity.
Qed.

Lemma update_sensor_failure_is_atomic_witness :
  SM.update west_world (snapshot_of 1) None 0 (sample_tracker_on 8)
  = (Raise RuntimeError, sample_tracker_on 8).
Proof.
  apply (update_sensor_failure_is_atomic west_world (snapshot_of 1) None 0
           (sample_tracker_on 8) RuntimeError).
  - simpl. lra.
  - reflexivity.
Defined.

Lemma csv_logging_not_due (w : World) (snapshot : Snapshot)
    (speed accel jerk power_w dt : R) (s : SM.Tracker) :
  row_due s dt = false ->
  SM.csv_logging w snapshot speed accel jerk power_w dt s =
  (Ok tt, SM.set_accum_dt (SM._accum_dt s + dt) s).
Proof.
  unfold row_due, SM.csv_logging. unfold_monad. cbn.
  assert (1 <= Rmax 1 (SM.sample_hz s)) as Hhz by apply Rmax_l.
  rewrite py_div_ok by lra.
  destruct (Rge_dec _ _); [discriminate | reflexivity].
Qed.

(** X26. Between two log rows the update does no input or output beyond
    reading the kinematics: in a tick with positive [dt] whose kinematics
    are read and in which no row is due, the update returns whatever the
    state of the log (closed, faulty) and whether or not the location can
    be read, and the log file is left untouched. *)
Theorem update_between_rows (w : World) (snapshot : Snapshot)
    (control : option Control) (slope : R) (s : SM.Tracker)
    (speed accel : R) :
  0 < delta_seconds (timestamp snapshot) ->
  fst (SM.read_kinematics w s) = Ok (speed, accel) ->
  row_due s (delta_seconds (timestamp snapshot)) = false ->
  fst (SM.update w snapshot control slope s) = Ok tt /\
  SM.csv_file (snd (SM.update w snapshot control slope s)) = SM.csv_file s /\
  SM._accum_dt (snd (SM.update w snapshot control slope s)) =
    SM._accum_dt s + delta_seconds (timestamp snapshot).
Proof.
  intros Hdt Hk Hdue.
  destruct (SM.compute_power s speed accel slope) as [p | e] eqn:Hp;
    [| rewrite compute_power_value in Hp; discriminate].
  rewrite (update_before_logging w snapshot control slope s speed accel p
             Hdt Hk Hp).
  set (dt := delta_seconds (timestamp snapshot)) in *.
  destruct (before_logging_log_fields speed accel dt p control s)
    as (Ha & Hfile & _ & Hhz).
  rewrite csv_logging_not_due
    by (unfold row_due in *; rewrite Ha, Hhz; exact Hdue).
  cbn [fst snd SM.csv_file SM._accum_dt SM.set_accum_dt].
  rewrite Ha, Hfile. repeat split.
Qed.

(** A tenth of a second on a closed log at 5 Hz: no row is due, the
    update returns. *)
Lemma update_between_rows_witness :
  fst (SM.update (world_of (fun _ => cruising 20 0 0)) (snapshot_of 0.1)
         None 0 closed_sample_tracker) = Ok tt.
Proof.
  destruct (update_between_rows (world_of (fun _ => cruising 20 0 0))
              (snapshot_of 0.1) None 0 closed_sample_tracker 20 0)
    as (H & _).
  - simpl. lra.
  - apply read_kinematics_cruising with (x := 0) (y := 0);
      [lra | reflexivity].
  - unfold row_due. cbn [SM._accum_dt SM.sample_hz closed_sample_tracker
      sample_tracker sample_tracker_on SM.set_csv_file snapshot_of
      delta_seconds timestamp].
    rewrite Rmax_right by lra.
    destruct (Rge_dec (0 + 0.1) (1.0 / 5)) as [Hy | _];
      [exfalso; lra | reflexivity].
  - exact H.
Defined.
